(** * MinIO anomaly detector: detectors, alert gate, evaluators and main loop

    A shallow embedding of [anomaly-alert.py].

    Numbers.  The two detectors of [AnomalyDetector] are embedded twice.
    [Binary64] is the code as it runs: binary64 floats, numpy's pairwise
    summation, comparisons that are false on a NaN.  What the detectors
    compute is stated on it.  The monitor around the detectors is studied
    over the real numbers ([R]): the clock, the cooldown, the samples and
    the thresholds are reals, the evaluators call the detectors in their
    reading over [R] ([AnomalyDetector]), and comparisons are the decidable
    tests of stdpp ([bool_decide]) over the order of [R]; rounding,
    infinities and NaN are outside that part of the model.

    Log records built with f-strings are traced by their fixed text.

    Effects.  The monitor talks to Prometheus, OpenWebUI, Discord and the
    system clock.  These are gathered in a [world]: a family of answers
    indexed by the number of effects performed so far.  Monitor code is
    written in a state-and-exception monad over the monitor's state (the
    cooldown dictionary), the effect counter and the trace of observable
    events. *)

From Stdlib Require Import Floats.
From Stdlib Require Import Reals Lra Lia Ascii.
From stdpp Require Import base decidable option list strings gmap.

Open Scope R_scope.

(** ** numpy reductions in binary64

    A float of Python and a [float64] of numpy are IEEE 754 binary64
    numbers, rounded to nearest even after each operation; so are the
    primitive floats of Rocq.

    [np.sum] over a contiguous [float64] array is numpy's pairwise
    summation.  Fewer than 8 elements are added one after the other,
    starting from [-0.0].  Up to 128 elements go to eight partial sums, the
    element [i] to the sum [i mod 8]; these are added two by two, and what
    is left past the last multiple of 8 is added one by one.  A longer array
    is cut near its middle, at a multiple of 8, and the sums of the two
    parts are added. *)

Module Binary64.

(** The length of an array as a [float64]; lengths stay far below [2^63]. *)
Definition of_nat (n : nat) : float :=
  PrimFloat.of_uint63 (Uint63.of_Z (Z.of_nat n)).

(** [for (i = 0; i < n; i++) res += a[i]]. *)
Definition sum_loop (res : float) (a : list float) : float :=
  foldl PrimFloat.add res a.

(** [groups] rounds of [r[j] += a[i + j]] for [j] from 0 to 7; comes back
    with the partial sums and the elements not yet read. *)
Fixpoint accumulate (groups : nat) (r a : list float) : list float * list float :=
  match groups with
  | O => (r, a)
  | S g => accumulate g (zip_with PrimFloat.add r (take 8 a)) (drop 8 a)
  end.

(** The partial sum [r[j]]. *)
Definition lane (r : list float) (j : nat) : float := default 0%float (r !! j).

(** The unrolled block, for [8 <= n <= 128]. *)
Definition block_sum (a : list float) : float :=
  let '(r, rest) := accumulate (length a / 8 - 1) (take 8 a) (drop 8 a) in
  sum_loop (((lane r 0 + lane r 1) + (lane r 2 + lane r 3))
            + ((lane r 4 + lane r 5) + (lane r 6 + lane r 7)))%float rest.

(** The recursion on the two parts of a long array.  [fuel] bounds its
    depth; [np_sum] gives it the length of the array, which is more than it
    uses ([pairwise_sum_fuel]). *)
Fixpoint pairwise_sum (fuel : nat) (a : list float) : float :=
  let n := length a in
  if (n <? 8)%nat then sum_loop (-0)%float a
  else if (n <=? 128)%nat then block_sum a
  else match fuel with
       | O => block_sum a
       | S fuel' =>
           let n2 := (n / 2 - (n / 2) mod 8)%nat in
           (pairwise_sum fuel' (take n2 a) + pairwise_sum fuel' (drop n2 a))%float
       end.

(** [np.sum] of a one-dimensional [float64] array. *)
Definition np_sum (a : list float) : float := pairwise_sum (length a) a.

(** [np.mean]: the sum divided by the number of elements. *)
Definition np_mean (a : list float) : float :=
  (np_sum a / of_nat (length a))%float.

(** [np.std] with the default [ddof=0]: the mean is subtracted from every
    element, the differences are squared and summed, the sum is divided by
    the number of elements and the root is taken. *)
Definition np_std (a : list float) : float :=
  let arrmean := np_mean a in
  PrimFloat.sqrt
    (np_sum (map (λ x, ((x - arrmean) * (x - arrmean))%float) a)
     / of_nat (length a))%float.

(** [values[-1]], [values[0]] and [values[-n:]]. *)
Definition py_last (a : list float) : float := default 0%float (last a).

Definition py_first (a : list float) : float := default 0%float (head a).

Definition py_suffix (n : nat) (values : list float) : list float :=
  drop (length values - n) values.

(** ** class AnomalyDetector *)

(** [zscore_anomaly(values, threshold)]
    returns [(is_anomaly, zscore, (lower_bound, upper_bound))].  The test
    [std == 0] is false of a NaN, and so is [zscore > threshold]. *)
Definition zscore_anomaly (values : list float) (threshold : float)
    : bool * float * (float * float) :=
  if (length values <? 2)%nat then (false, 0%float, (0%float, 0%float))
  else
    let mean := np_mean values in
    let std := np_std values in
    if (std =? 0)%float then (false, 0%float, (mean, mean))
    else
      let current := py_last values in
      let zscore := PrimFloat.abs ((current - mean) / std)%float in
      let lower := (mean - threshold * std)%float in
      let upper := (mean + threshold * std)%float in
      let is_anomaly := (threshold <? zscore)%float in
      (is_anomaly, zscore, (lower, upper)).

(** [rate_of_change_anomaly(values, threshold)]
    returns [(is_anomaly, rate_of_change_percent)]. *)
Definition rate_of_change_anomaly (values : list float) (threshold : float)
    : bool * float :=
  if (length values <? 2)%nat then (false, 0%float)
  else
    let recent :=
      if (10 <=? length values)%nat then py_suffix 10 values else values in
    if (py_first recent =? 0)%float then (false, 0%float)
    else
      let rate_change :=
        ((py_last recent - py_first recent) / py_first recent * 100)%float in
      let is_anomaly := (threshold <? PrimFloat.abs rate_change)%float in
      (is_anomaly, rate_change).

End Binary64.

(** ** Decidable tests on reals *)

#[global] Instance Rlt_decision (x y : R) : Decision (x < y) := Rlt_dec x y.
#[global] Instance R_eq_decision : EqDecision R := Req_dec_T.

(** ** numpy reductions over the reals

    The same reductions in exact arithmetic: the population mean and
    standard deviation of a series. *)

(** [np.sum] of a one-dimensional array. *)
Definition np_sum (values : list R) : R := foldr Rplus 0 values.

(** [np.mean]: sum over the number of elements. *)
Definition np_mean (values : list R) : R := np_sum values / INR (length values).

(** [np.std] with the default [ddof=0]: the root of the mean of the squared
    deviations from the mean (population standard deviation). *)
Definition np_std (values : list R) : R :=
  sqrt (np_mean (map (λ x, (x - np_mean values) * (x - np_mean values)) values)).

(** ** Python sequences *)

(** [not values]: a list is false when it is empty. *)
Definition py_not {A} (values : list A) : bool :=
  match values with [] => true | _ => false end.

(** [values[-1]] on a sequence; the callers only use it on non-empty ones. *)
Definition py_last (values : list R) : R := default 0 (last values).

(** [values[0]], same remark. *)
Definition py_first (values : list R) : R := default 0 (head values).

(** [values[-n:]]: the last [n] elements, the whole list when it is shorter. *)
Definition py_suffix (n : nat) (values : list R) : list R :=
  drop (length values - n) values.

(** ** class AnomalyDetector over the reals

    The detectors as the evaluators of the monitor call them, with every
    operation exact. *)

Module AnomalyDetector.

(** [zscore_anomaly(values, threshold)]
    returns [(is_anomaly, zscore, (lower_bound, upper_bound))]. *)
Definition zscore_anomaly (values : list R) (threshold : R) : bool * R * (R * R) :=
  if bool_decide (length values < 2)%nat then (false, 0, (0, 0))
  else
    let mean := np_mean values in
    let std := np_std values in
    if bool_decide (std = 0) then (false, 0, (mean, mean))
    else
      let current := py_last values in
      let zscore := Rabs ((current - mean) / std) in
      let lower := mean - threshold * std in
      let upper := mean + threshold * std in
      let is_anomaly := bool_decide (threshold < zscore) in
      (is_anomaly, zscore, (lower, upper)).

(** [rate_of_change_anomaly(values, threshold)]
    returns [(is_anomaly, rate_of_change_percent)]. *)
Definition rate_of_change_anomaly (values : list R) (threshold : R) : bool * R :=
  if bool_decide (length values < 2)%nat then (false, 0)
  else
    let recent :=
      if bool_decide (10 ≤ length values)%nat then py_suffix 10 values else values in
    if bool_decide (py_first recent = 0) then (false, 0)
    else
      let rate_change := (py_last recent - py_first recent) / py_first recent * 100 in
      let is_anomaly := bool_decide (threshold < Rabs rate_change) in
      (is_anomaly, rate_change).

End AnomalyDetector.

(** ** Python strings

    A [str] is a Rocq [string], one [ascii] per character (code points
    above 255 are outside the model). *)

Module PyStr.

(** [str.isspace] on one character (code points below 256). *)
Definition isspace (c : ascii) : bool :=
  let n := nat_of_ascii c in
  bool_decide (9 ≤ n ≤ 13)%nat || bool_decide (28 ≤ n ≤ 32)%nat
  || bool_decide (n = 133)%nat || bool_decide (n = 160)%nat.

Fixpoint lstrip_chars (cs : list ascii) : list ascii :=
  match cs with
  | c :: rest => if isspace c then lstrip_chars rest else cs
  | [] => []
  end.

(** [s.strip()]: leading and trailing whitespace removed. *)
Definition strip (s : string) : string :=
  String.string_of_list_ascii
    (reverse (lstrip_chars (reverse (lstrip_chars (String.list_ascii_of_string s))))).

(** [s[:n]]. *)
Definition prefix (n : nat) (s : string) : string :=
  String.string_of_list_ascii (take n (String.list_ascii_of_string s)).

(** Truth value of a string: non-empty. *)
Definition truthy (s : string) : bool :=
  match s with EmptyString => false | _ => true end.

Definition lower_char (c : ascii) : ascii :=
  let n := nat_of_ascii c in
  if bool_decide (65 ≤ n ≤ 90)%nat then ascii_of_nat (n + 32) else c.

(** [s.lower()] (ASCII letters). *)
Definition lower (s : string) : string :=
  String.string_of_list_ascii (lower_char <$> String.list_ascii_of_string s).

(** [s.replace(a, b)] for single characters [a] and [b]. *)
Definition replace (a b : ascii) (s : string) : string :=
  String.string_of_list_ascii
    ((λ c, if bool_decide (c = a) then b else c) <$> String.list_ascii_of_string s).

Fixpoint lstrip_char (c : ascii) (cs : list ascii) : list ascii :=
  match cs with
  | c' :: rest => if bool_decide (c' = c) then lstrip_char c rest else cs
  | [] => []
  end.

(** [s.rstrip(c)] for a single character [c]. *)
Definition rstrip (c : ascii) (s : string) : string :=
  String.string_of_list_ascii
    (reverse (lstrip_char c (reverse (String.list_ascii_of_string s)))).

(** [s.startswith(p)]. *)
Definition startswith (p s : string) : bool := String.prefix p s.

(** [needle in hay]. *)
Fixpoint contains (needle hay : string) : bool :=
  String.prefix needle hay
  || match hay with
     | EmptyString => false
     | String _ rest => contains needle rest
     end.

End PyStr.

(** ** Exceptions *)

(** The classes under [Exception] that the program can meet. *)
Inductive exception :=
  | Timeout            (* requests.Timeout *)
  | ConnectionError    (* any other requests transport failure *)
  | HTTPError          (* response.raise_for_status() *)
  | JSONDecodeError    (* response.json() on a malformed body *)
  | KeyError | IndexError | TypeError | ValueError | AttributeError
  | OverflowError.

(** [KeyboardInterrupt] derives from [BaseException], not from [Exception]:
    an [except Exception] clause does not catch it. *)
Inductive exn :=
  | KeyboardInterrupt
  | Exception (e : exception).

(** A value, or an exception of type [E]. *)
Inductive outcome (E A : Type) :=
  | Ok (a : A)
  | Raise (e : E).
Arguments Ok {E A} a.
Arguments Raise {E A} e.

(** Code with effects may be cut by any [exn]; the pure operations on
    Python objects below only raise under [Exception]. *)
Abbreviation result := (outcome exn).
Abbreviation checked := (outcome exception).

(** ** JSON values as Python objects *)

#[warnings="-register-all"] Inductive json :=
  | JNull
  | JBool (b : bool)
  | JNum (r : R)
  | JStr (s : string)
  | JArr (items : list json)
  | JObj (fields : list (string * json)).

Module PyJson.

(** [d[key]] with a string key. *)
Definition getitem_str (v : json) (key : string) : checked json :=
  match v with
  | JObj fields =>
      match list_find (λ kv, kv.1 = key) fields with
      | Some (_, (_, x)) => Ok x
      | None => Raise KeyError
      end
  | _ => Raise TypeError
  end.

(** [v[i]] with a non-negative integer index. *)
Definition getitem_int (v : json) (i : nat) : checked json :=
  match v with
  | JArr items =>
      match items !! i with
      | Some x => Ok x
      | None => Raise IndexError
      end
  | JStr s =>
      match String.list_ascii_of_string s !! i with
      | Some c => Ok (JStr (String c EmptyString))
      | None => Raise IndexError
      end
  | JObj _ => Raise KeyError
  | _ => Raise TypeError
  end.

(** Truth value of an object. *)
Definition truthy (v : json) : bool :=
  match v with
  | JNull => false
  | JBool b => b
  | JNum r => negb (bool_decide (r = 0))
  | JStr s => PyStr.truthy s
  | JArr items => match items with [] => false | _ => true end
  | JObj fields => match fields with [] => false | _ => true end
  end.

(** [for x in v]: the items an iteration yields. *)
Definition iter (v : json) : checked (list json) :=
  match v with
  | JArr items => Ok items
  | JStr s => Ok ((λ c, JStr (String c EmptyString)) <$> String.list_ascii_of_string s)
  | JObj fields => Ok ((λ kv, JStr kv.1) <$> fields)
  | _ => Raise TypeError
  end.

(** [v == s] for a string literal [s]. *)
Definition eq_str (v : json) (s : string) : bool :=
  match v with JStr s' => bool_decide (s' = s) | _ => false end.

End PyJson.

(** ** Alerts *)

(** The [severity] field holds one of ['low'], ['medium'], ['high']. *)
Inductive severity := low | medium | high.

(** [@dataclass AnomalyAlert].  The timestamp is the clock reading that
    [datetime.now().isoformat()] renders; [None] in [context] is the empty
    default, [Some roc] the text [f"Rate of change: {roc:+.1f}%"]. *)
Record AnomalyAlert := {
  metric_name : string;
  current_value : R;
  expected_range : R * R;
  alert_severity : severity;
  timestamp : R;
  context : option R;
}.

(** ** Discord payload *)

(** The value of an embed field, before it is rendered to text. *)
Inductive field_value :=
  | FSeverity (s : severity)      (* alert.severity.upper() *)
  | FNumber (x : R)               (* f"`{x:.2f}`" *)
  | FRange (lo hi : R)            (* f"`{lo:.2f} - {hi:.2f}`" *)
  | FTimestamp (t : R)
  | FText (s : string)
  | FRateOfChange (roc : R).      (* the alert's context text *)

Record embed_field := {
  name : string;
  value : field_value;
  inline : bool;
}.

Record embed := {
  title : string;
  color : N;
  fields : list embed_field;
  footer : string;
}.

(** ** HTTP *)

(** A [requests.Response]: the status and what [response.json()] gives
    ([None] when the body is not JSON and the call raises). *)
Record response := {
  status_code : nat;
  json_body : option json;
}.

(** What a [requests.get] or [requests.post] call comes back with. *)
Inductive http_outcome :=
  | HttpTimeout
  | HttpConnectionError
  | HttpResponse (r : response).

(** ** The world outside the process

    Every effect of the program (a clock reading, an HTTP call, a sleep) is
    numbered by the count of effects before it; the world fixes what the
    [n]-th effect meets. *)
Record world := {
  (** a [KeyboardInterrupt] is delivered while the [n]-th effect runs *)
  interrupt : nat → bool;
  (** the wall clock, in seconds since the epoch, at the [n]-th effect *)
  wall_clock : nat → R;
  (** the outcome of the HTTP request made as the [n]-th effect *)
  http : nat → http_outcome;
  (** [float(s)] on a string: [None] when it raises [ValueError] *)
  float_of_str : string → option R;
}.

(** ** Observable events *)

Inductive log_level := INFO | WARNING | ERROR.

Inductive event :=
  | EvLog (level : log_level) (message : string)
  (** GET /api/v1/query_range on Prometheus *)
  | EvQuery (query : string) (hours : nat)
  (** POST /api/chat/completions on OpenWebUI *)
  | EvInsight (model metric : string) (current expected change_percent : R)
  (** POST on the Discord webhook at wall-clock time [at_time]; [key] is the
      alert key of the evaluator that sends (a ghost label: the request
      itself does not carry it) *)
  | EvSend (key : string) (payload : embed) (at_time : R)
  (** [alert_cooldown_dict[key] = at_time] *)
  | EvRecord (key : string) (at_time : R)
  | EvSleep (seconds : R).

(** ** State of the process *)

Record mstate := {
  (** [self.alert_cooldown_dict] *)
  alert_cooldown_dict : gmap string R;
  (** number of effects performed *)
  effects : nat;
  (** events so far, oldest first *)
  trace : list event;
}.

(** ** The monad of monitor code: state and exceptions *)

Definition M (A : Type) : Type := mstate → result A * mstate.

Definition ret {A} (a : A) : M A := λ s, (Ok a, s).

Definition bind {A B} (m : M A) (f : A → M B) : M B := λ s,
  match m s with
  | (Ok a, s') => f a s'
  | (Raise e, s') => (Raise e, s')
  end.

Definition raise {A} (e : exception) : M A := λ s, (Raise (Exception e), s).

(** Lift a pure fallible computation. *)
Definition lift {A} (r : checked A) : M A := λ s,
  (match r with Ok a => Ok a | Raise e => Raise (Exception e) end, s).

(** [try: body / except Exception as e: handler e]. *)
Definition try_except {A} (body : M A) (handler : exception → M A) : M A := λ s,
  match body s with
  | (Raise (Exception e), s') => handler e s'
  | other => other
  end.

(** [try: body / except KeyboardInterrupt: h1 / except Exception as e: h2 e]. *)
Definition try_except_interrupt {A} (body : M A) (on_interrupt : M A)
    (handler : exception → M A) : M A := λ s,
  match body s with
  | (Raise KeyboardInterrupt, s') => on_interrupt s'
  | (Raise (Exception e), s') => handler e s'
  | other => other
  end.

#[global] Instance M_ret : MRet M := @ret.
#[global] Instance M_bind : MBind M := λ A B f m, bind m f.

(** Append events to the trace. *)
Definition add_events (events : list event) (s : mstate) : mstate :=
  {| alert_cooldown_dict := alert_cooldown_dict s;
     effects := effects s;
     trace := trace s ++ events |}.

(** Count one more effect. *)
Definition tick (s : mstate) : mstate :=
  {| alert_cooldown_dict := alert_cooldown_dict s;
     effects := S (effects s);
     trace := trace s |}.

Definition emit (e : event) : M unit := λ s, (Ok tt, add_events [e] s).

(** [for x in items: body x]. *)
Fixpoint for_each {A} (items : list A) (body : A → M unit) : M unit :=
  match items with
  | [] => ret tt
  | x :: rest => body x;; for_each rest body
  end.

(** Read a component of the state. *)
Definition gets {A} (f : mstate → A) : M A := λ s, (Ok (f s), s).

(** [if cond: body], with a condition that has effects. *)
Definition py_if (cond : M bool) (body : M unit) : M unit :=
  cond ≫= λ go : bool, if go then body else ret tt.

(** [self.alert_cooldown_dict[alert_key] = now]. *)
Definition set_alert_time (alert_key : string) (now : R) : M unit := λ s,
  (Ok tt, {| alert_cooldown_dict := <[alert_key := now]> (alert_cooldown_dict s);
             effects := effects s;
             trace := trace s ++ [EvRecord alert_key now] |}).

(** [a and m]: [m] is only run when [a] holds. *)
Definition py_and (a : bool) (m : M bool) : M bool := if a then m else ret false.

(** The longest sleep that [time.sleep] accepts: the largest C timestamp,
    2^63 - 1 nanoseconds, in seconds. *)
Definition SLEEP_MAX : R := 9223372036854775807 / 1000000000.

(** The lengths that [time.sleep] accepts. *)
Definition sleep_accepted (seconds : R) : Prop := 0 <= seconds ∧ seconds <= SLEEP_MAX.

Section Effects.

Context (w : world).

(** The next effect: it leaves [events] in the trace, takes one step of the
    world, and either is cut by a [KeyboardInterrupt] or gets the world's
    answer. *)
Definition effect {A} (events : nat → list event) (answer : nat → A) : M A := λ s,
  let n := effects s in
  let s' := tick (add_events (events n) s) in
  if interrupt w n then (Raise KeyboardInterrupt, s') else (Ok (answer n), s').

(** [time.time()], [datetime.now()], [datetime.utcnow()]. *)
Definition time_time : M R := effect (λ _, []) (wall_clock w).
Definition datetime_now : M R := effect (λ _, []) (wall_clock w).

(** [time.sleep(seconds)].  The length is checked before any sleeping: one
    that does not fit the C timestamp is refused with [OverflowError], a
    negative one with [ValueError]. *)
Definition time_sleep (seconds : R) : M unit :=
  if bool_decide (SLEEP_MAX < Rabs seconds) then raise OverflowError
  else if bool_decide (seconds < 0) then raise ValueError
  else effect (λ _, [EvSleep seconds]) (λ _, tt).

(** [requests.get] / [requests.post]: the response, or the transport's
    exception. *)
Definition requests_call (events : nat → list event) : M response :=
  o ← effect events (http w);
  match o with
  | HttpTimeout => raise Timeout
  | HttpConnectionError => raise ConnectionError
  | HttpResponse r => ret r
  end.

(** [response.raise_for_status()]. *)
Definition raise_for_status (r : response) : M unit :=
  if bool_decide (400 ≤ status_code r < 600)%nat then raise HTTPError else ret tt.

(** [response.json()]. *)
Definition response_json (r : response) : M json :=
  match json_body r with
  | Some j => ret j
  | None => raise JSONDecodeError
  end.

(** [float(v)] on a decoded JSON value. *)
Definition py_float (v : json) : checked R :=
  match v with
  | JNum r => Ok r
  | JBool b => Ok (if b then 1 else 0)
  | JStr s =>
      match float_of_str w s with
      | Some r => Ok r
      | None => Raise ValueError
      end
  | _ => Raise TypeError
  end.

End Effects.

(** ** class PrometheusConnector *)

Module PrometheusConnector.
Section with_world.
Context (w : world).

(** [query_range(query, hours)]: the [result] list of the reply, or [[]]. *)
Definition query_range (query : string) (hours : nat) : M json :=
  try_except
    (_ ← datetime_now w;
     r ← requests_call w (λ _, [EvQuery query hours]);
     raise_for_status r;;
     data ← response_json r;
     status ← lift (PyJson.getitem_str data "status");
     if PyJson.eq_str status "success" then
       d ← lift (PyJson.getitem_str data "data");
       res ← lift (PyJson.getitem_str d "result");
       if PyJson.truthy res then ret res else ret (JArr [])
     else ret (JArr []))
    (λ _, emit (EvLog ERROR "Prometheus query failed");; ret (JArr [])).

(** [query_instant(query)]: the value of the first sample of the reply, or
    0.0.  The request is traced as a query over 0 hours. *)
Definition query_instant (query : string) : M R :=
  try_except
    (r ← requests_call w (λ _, [EvQuery query 0]);
     raise_for_status r;;
     data ← response_json r;
     status ← lift (PyJson.getitem_str data "status");
     if PyJson.eq_str status "success" then
       d ← lift (PyJson.getitem_str data "data");
       res ← lift (PyJson.getitem_str d "result");
       if PyJson.truthy res then
         first ← lift (PyJson.getitem_int res 0);
         sample ← lift (PyJson.getitem_str first "value");
         x ← lift (PyJson.getitem_int sample 1);
         lift (py_float w x)
       else ret 0
     else ret 0)
    (λ _, emit (EvLog ERROR "Instant query failed");; ret 0).

End with_world.

(** [__init__(prometheus_url)]: the address without trailing slashes. *)
Definition init (prometheus_url : string) : string := PyStr.rstrip "/" prometheus_url.

End PrometheusConnector.

(** ** class OpenWebUIInsight *)

Module OpenWebUIInsight.

Record t := {
  base_url : string;
  api_key : string;
  model : string;
  timeout : R;
}.

(** [__init__(base_url, api_key, model)]; the timeout is fixed at 15 s. *)
Definition init (base_url api_key model : string) : t :=
  {| base_url := PyStr.rstrip "/" base_url;
     api_key := api_key;
     model := model;
     timeout := 15 |}.

Section with_world.
Context (w : world) (self : t).

(** [content.strip()]: only a [str] has the method. *)
Definition content_strip (content : json) : checked string :=
  match content with
  | JStr s => Ok (PyStr.strip s)
  | _ => Raise AttributeError
  end.

(** [generate_context(metric_name, current, expected, change_percent)]. *)
Definition generate_context (metric_name : string)
    (current expected change_percent : R) : M string :=
  try_except
    (r ← requests_call w
           (λ _, [EvInsight (model self) metric_name current expected change_percent]);
     if bool_decide (status_code r = 200%nat) then
       result ← response_json r;
       choices ← lift (PyJson.getitem_str result "choices");
       choice ← lift (PyJson.getitem_int choices 0);
       message ← lift (PyJson.getitem_str choice "message");
       content ← lift (PyJson.getitem_str message "content");
       insight ← lift (content_strip content);
       ret (if PyStr.truthy insight then PyStr.prefix 250 insight else "")
     else
       emit (EvLog WARNING "OpenWebUI API error");;
       ret "")
    (λ e,
       match e with
       | Timeout => emit (EvLog WARNING "OpenWebUI request timeout");; ret ""
       | _ => emit (EvLog WARNING "OpenWebUI insight generation failed");; ret ""
       end).

End with_world.
End OpenWebUIInsight.

(** ** class DiscordNotifier *)

Module DiscordNotifier.

(** The [colors] table: 0xFFA500, 0xFF6600, 0xFF0000. *)
Definition colors (s : severity) : N :=
  match s with
  | low => 16753920
  | medium => 16737792
  | high => 16711680
  end%N.

(** The embed that [send_alert] posts. *)
Definition make_embed (alert : AnomalyAlert) (insight : string) : embed :=
  let base :=
    [ {| name := "Severity"; value := FSeverity (alert_severity alert); inline := true |};
      {| name := "Current Value"; value := FNumber (current_value alert); inline := true |};
      {| name := "Expected Range";
         value := FRange (expected_range alert).1 (expected_range alert).2;
         inline := false |};
      {| name := "Timestamp"; value := FTimestamp (timestamp alert); inline := false |} ] in
  let extra :=
    if bool_decide (is_Some (context alert)) || PyStr.truthy insight then
      [ {| name := "Context/Insight";
           value := if PyStr.truthy insight then FText insight
                    else match context alert with
                         | Some roc => FRateOfChange roc
                         | None => FText ""
                         end;
           inline := false |} ]
    else [] in
  {| title := "🚨 " +:+ metric_name alert +:+ " Anomaly Detected";
     color := colors (alert_severity alert);
     fields := base ++ extra;
     footer := "MinIO Anomaly Detector" |}.

Section with_world.
Context (w : world).

(** [send_alert(alert, insight)].  [key] is the ghost label of [EvSend]. *)
Definition send_alert (key : string) (alert : AnomalyAlert) (insight : string) : M bool :=
  try_except
    (let payload := make_embed alert insight in
     r ← requests_call w (λ n, [EvSend key payload (wall_clock w n)]);
     raise_for_status r;;
     emit (EvLog INFO "Alert sent to Discord");;
     ret true)
    (λ _, emit (EvLog ERROR "Failed to send Discord alert");; ret false).

End with_world.
End DiscordNotifier.

(** ** Configuration constants of the script *)

Definition DISCORD_WEBHOOK : string := "https://discord.com/api/webhooks/*********".
Definition PROMETHEUS_URL : string := "http://host-ip:9090".
Definition OPENWEBUI_URL : string := "https://<localAI-url>".
Definition OPENWEBUI_API_KEY : string := "<AI token key>".
Definition OPENWEBUI_MODEL : string := "<model-name>".
Definition CHECK_INTERVAL : R := 60.
Definition ZSCORE_THRESHOLD : R := 25 / 10.
Definition ROC_THRESHOLD : R := 100.
Definition ALERT_COOLDOWN : R := 300.
Definition HISTORY_HOURS : nat := 24.

(** ** class MinIOAnomalyMonitor *)

Module MinIOAnomalyMonitor.

(** The fields that [__init__] sets once; [alert_cooldown_dict], the one
    that changes afterwards, lives in [mstate].  The Prometheus and Discord
    addresses only select the peer, which the [world] stands for. *)
Record t := {
  openwebui : option OpenWebUIInsight.t;
  check_interval : R;
  zscore_threshold : R;
  roc_threshold : R;
  alert_cooldown : R;
  history_hours : nat;
}.

(** [__init__]: the insight generator is built only when both its address
    and its key are given and non-empty. *)
Definition init (openwebui_url openwebui_key : option string) (openwebui_model : string)
    (check_interval zscore_threshold roc_threshold alert_cooldown : R)
    (history_hours : nat) : t :=
  {| openwebui :=
       match openwebui_url, openwebui_key with
       | Some url, Some key =>
           if PyStr.truthy url && PyStr.truthy key
           then Some (OpenWebUIInsight.init url key openwebui_model)
           else None
       | _, _ => None
       end;
     check_interval := check_interval;
     zscore_threshold := zscore_threshold;
     roc_threshold := roc_threshold;
     alert_cooldown := alert_cooldown;
     history_hours := history_hours |}.

(** The state right after [__init__]: an empty cooldown dictionary. *)
Definition init_state : mstate :=
  {| alert_cooldown_dict := ∅; effects := 0; trace := [] |}.

(** The double quote, written by its code: a string literal of this file
    holds none. *)
Definition double_quote : ascii := ascii_of_nat 34.

(** The PromQL expression of [check_error_rate],
    [rate(minio_gateway_requests_total{status=~"5.."}[5m])]. *)
Definition error_rate_query : string :=
  "rate(minio_gateway_requests_total{status=~"
  +:+ String double_quote ("5.." +:+ String double_quote "}[5m])").

Section with_world.
Context (w : world) (self : t).

(** [[float(v[1]) for v in items]]. *)
Fixpoint samples (items : list json) : checked (list R) :=
  match items with
  | [] => Ok []
  | v :: rest =>
      match PyJson.getitem_int v 1 with
      | Raise e => Raise e
      | Ok x =>
          match py_float w x with
          | Raise e => Raise e
          | Ok r =>
              match samples rest with
              | Raise e => Raise e
              | Ok rs => Ok (r :: rs)
              end
          end
      end
  end.

(** [get_metric_values(query)]. *)
Definition get_metric_values (query : string) : M (list R) :=
  results ← PrometheusConnector.query_range w query (history_hours self);
  if negb (PyJson.truthy results) then ret []
  else
    first ← lift (PyJson.getitem_int results 0);
    vs ← lift (PyJson.getitem_str first "values");
    items ← lift (PyJson.iter vs);
    lift (samples items).

(** [_can_alert(alert_key)]. *)
Definition _can_alert (alert_key : string) : M bool :=
  last_alert ← gets (λ s, default 0 (alert_cooldown_dict s !! alert_key));
  now ← time_time w;
  ret (bool_decide (alert_cooldown self < now - last_alert)).

(** [_record_alert(alert_key)]. *)
Definition _record_alert (alert_key : string) : M unit :=
  now ← time_time w;
  set_alert_time alert_key now.

(** [insight = ""; if self.openwebui: insight = self.openwebui.generate_context(...)]. *)
Definition insight_for (metric : string) (current expected change_percent : R) : M string :=
  match openwebui self with
  | Some o => OpenWebUIInsight.generate_context w o metric current expected change_percent
  | None => ret ""
  end.

(** [check_storage_space()]. *)
Definition check_storage_space : M unit :=
  values ← get_metric_values "minio_disk_storage_bytes_free";
  if py_not values then ret tt
  else
    '(is_anomaly, zscore, expected_range) ←
      ret (AnomalyDetector.zscore_anomaly values (zscore_threshold self));
    py_if (py_and is_anomaly (_can_alert "storage_space"))
     (let current := py_last values in
      let severity :=
        if bool_decide (current < expected_range.1 * (5 / 10)) then high else medium in
      now ← datetime_now w;
      let alert :=
        {| metric_name := "Disk Storage - Free Space";
           current_value := current / 1000000000;
           expected_range := (expected_range.1 / 1000000000, expected_range.2 / 1000000000);
           alert_severity := severity;
           timestamp := now;
           context := None |} in
      insight ← insight_for "minio_disk_storage_bytes_free"
                  (current / 1000000000)
                  (np_mean values / 1000000000)
                  ((current - np_mean values) / np_mean values * 100);
      _ ← DiscordNotifier.send_alert w "storage_space" alert insight;
      _record_alert "storage_space").

(** [check_request_rate()]. *)
Definition check_request_rate : M unit :=
  values ← get_metric_values "rate(minio_gateway_requests_total[5m])";
  if py_not values then ret tt
  else
    '(is_roc_anomaly, roc) ←
      ret (AnomalyDetector.rate_of_change_anomaly values (roc_threshold self));
    '(is_zscore_anomaly, zscore, expected) ←
      ret (AnomalyDetector.zscore_anomaly values 2);
    py_if (py_and (is_roc_anomaly || is_zscore_anomaly) (_can_alert "request_rate"))
     (let current := py_last values in
      let severity := if bool_decide (200 < Rabs roc) then high else medium in
      now ← datetime_now w;
      let alert :=
        {| metric_name := "Request Rate (requests/sec)";
           current_value := current;
           expected_range := expected;
           alert_severity := severity;
           timestamp := now;
           context := Some roc |} in
      insight ← insight_for "minio_gateway_requests_total" current (np_mean values) roc;
      _ ← DiscordNotifier.send_alert w "request_rate" alert insight;
      _record_alert "request_rate").

(** [name.lower().replace(' ', '_')]. *)
Definition network_key (name : string) : string :=
  PyStr.replace " " "_" (PyStr.lower name).

(** The body of the loop of [check_network_traffic]. *)
Definition network_signal (signal : string * list R) : M unit :=
  let '(name, values) := signal in
  '(is_anomaly, zscore, expected) ←
    ret (AnomalyDetector.zscore_anomaly values (zscore_threshold self));
  py_if (py_and is_anomaly (_can_alert (network_key name)))
   (let current := py_last values in
    let severity := if bool_decide (4 < zscore) then high else medium in
    now ← datetime_now w;
    let alert :=
      {| metric_name := name +:+ " (bytes/sec)";
         current_value := current / 1000000;
         expected_range := (expected.1 / 1000000, expected.2 / 1000000);
         alert_severity := severity;
         timestamp := now;
         context := None |} in
    _ ← DiscordNotifier.send_alert w (network_key name) alert "";
    _record_alert (network_key name)).

(** [check_network_traffic()]. *)
Definition check_network_traffic : M unit :=
  send_values ← get_metric_values "rate(minio_network_send_bytes_total[5m])";
  recv_values ← get_metric_values "rate(minio_network_receive_bytes_total[5m])";
  if py_not send_values || py_not recv_values then ret tt
  else
    for_each [("Network Send", send_values); ("Network Receive", recv_values)]
             network_signal.

(** [check_error_rate()]. *)
Definition check_error_rate : M unit :=
  values ← get_metric_values error_rate_query;
  if py_not values then ret tt
  else
    '(is_anomaly, zscore, expected) ← ret (AnomalyDetector.zscore_anomaly values 2);
    py_if (py_and is_anomaly (_can_alert "error_rate"))
     (let current := py_last values in
      let severity := if bool_decide (expected.2 * 2 < current) then high else medium in
      now ← datetime_now w;
      let alert :=
        {| metric_name := "Error Rate (5xx errors/sec)";
           current_value := current;
           expected_range := expected;
           alert_severity := severity;
           timestamp := now;
           context := None |} in
      insight ← insight_for "minio_gateway_requests_errors" current (np_mean values)
                  (if bool_decide (0 < np_mean values)
                   then (current - np_mean values) / np_mean values * 100
                   else 0);
      _ ← DiscordNotifier.send_alert w "error_rate" alert insight;
      _record_alert "error_rate").

(** One pass through the body of [while True]. *)
Definition cycle : M unit :=
  emit (EvLog INFO "Running anomaly checks...");;
  check_storage_space;;
  check_request_rate;;
  check_network_traffic;;
  check_error_rate;;
  time_sleep w (check_interval self).

(** [while True: cycle], cut after [fuel] passes.  A normal result means
    that the loop is still running when the fuel is spent: the loop itself
    has no exit. *)
Fixpoint while_true (fuel : nat) : M unit :=
  match fuel with
  | O => ret tt
  | S n => cycle;; while_true n
  end.

(** How an observation of [run] ends. *)
Inductive run_status :=
  | StillLooping   (* the fuel is spent inside [while True] *)
  | Returned.      (* [run] has returned: the service is over *)

(** [run()], observed for at most [fuel] cycles. *)
Definition run (fuel : nat) : M run_status :=
  emit (EvLog INFO "Starting monitoring loop");;
  try_except_interrupt
    (while_true fuel;; ret StillLooping)
    (emit (EvLog INFO "Shutting down gracefully...");; ret Returned)
    (λ _, emit (EvLog ERROR "Unexpected error");;
          time_sleep w (check_interval self);;
          ret Returned).

End with_world.
End MinIOAnomalyMonitor.

(** ** The script run as a program *)

Module Main.

(** The values of the configuration block at the top of the script. *)
Record settings := {
  discord_webhook : string;
  prometheus_url : string;
  openwebui_url : string;
  openwebui_api_key : string;
  openwebui_model : string;
  check_interval : R;
  zscore_threshold : R;
  roc_threshold : R;
  alert_cooldown : R;
  history_hours : nat;
}.

(** The script as it is distributed. *)
Definition shipped : settings :=
  {| discord_webhook := DISCORD_WEBHOOK;
     prometheus_url := PROMETHEUS_URL;
     openwebui_url := OPENWEBUI_URL;
     openwebui_api_key := OPENWEBUI_API_KEY;
     openwebui_model := OPENWEBUI_MODEL;
     check_interval := CHECK_INTERVAL;
     zscore_threshold := ZSCORE_THRESHOLD;
     roc_threshold := ROC_THRESHOLD;
     alert_cooldown := ALERT_COOLDOWN;
     history_hours := HISTORY_HOURS |}.

(** How the program ends, as far as it is observed. *)
Inductive status :=
  | Exited (code : nat)                          (* [exit(code)] *)
  | Ran (st : MinIOAnomalyMonitor.run_status).   (* [monitor.run()] *)

(** ["=" * 80]. *)
Definition rule : string :=
  "================================================================================".

(** The first test of the block: the webhook is not usable. *)
Definition webhook_rejected (c : settings) : bool :=
  PyStr.contains "YOUR_WEBHOOK" (discord_webhook c)
  || negb (PyStr.startswith "http" (discord_webhook c)).

(** The second test: [use_openwebui]. *)
Definition use_openwebui (c : settings) : bool :=
  negb (negb (PyStr.contains "sk-" (openwebui_api_key c))
        || PyStr.contains "YOUR_" (openwebui_api_key c)).

(** The monitor that the block builds. *)
Definition monitor (c : settings) : MinIOAnomalyMonitor.t :=
  MinIOAnomalyMonitor.init
    (if use_openwebui c then Some (openwebui_url c) else None)
    (if use_openwebui c then Some (openwebui_api_key c) else None)
    (openwebui_model c)
    (check_interval c) (zscore_threshold c) (roc_threshold c)
    (alert_cooldown c) (history_hours c).

(** [self.alert_cooldown_dict = {}] in [MinIOAnomalyMonitor.__init__]. *)
Definition new_cooldown_dict : M unit := λ s,
  (Ok tt, {| alert_cooldown_dict := ∅; effects := effects s; trace := trace s |}).

Section with_world.
Context (w : world).

(** The [if __name__ == "__main__":] block, with [run] observed for at most
    [fuel] cycles. *)
Definition main (c : settings) (fuel : nat) : M status :=
  if webhook_rejected c then
    emit (EvLog ERROR "❌ DISCORD_WEBHOOK not configured! Edit the script at the top.");;
    ret (Exited 1)
  else
    (if use_openwebui c then ret tt
     else emit (EvLog WARNING
                  "⚠️  OPENWEBUI_API_KEY not configured. Alerts will work without AI insights."));;
    emit (EvLog INFO rule);;
    emit (EvLog INFO "MinIO Anomaly Detection Service - Starting");;
    emit (EvLog INFO rule);;
    emit (EvLog INFO "Prometheus");;
    emit (EvLog INFO "Discord Webhook");;
    emit (EvLog INFO (if use_openwebui c then "OpenWebUI" else "OpenWebUI: DISABLED"));;
    emit (EvLog INFO "Check Interval");;
    emit (EvLog INFO "Z-Score Threshold");;
    emit (EvLog INFO "Alert Cooldown");;
    emit (EvLog INFO rule);;
    emit (EvLog INFO
            (match MinIOAnomalyMonitor.openwebui (monitor c) with
             | Some _ => "OpenWebUI initialized"
             | None => "OpenWebUI insight generation DISABLED"
             end));;
    new_cooldown_dict;;
    emit (EvLog INFO "MinIO Anomaly Monitor initialized");;
    st ← MinIOAnomalyMonitor.run w (monitor c) fuel;
    ret (Ran st).

End with_world.
End Main.

(** * Specification vocabulary *)

(** Events that neither post an alert nor stamp the cooldown dictionary. *)
Definition quiet_event (e : event) : bool :=
  match e with
  | EvSend _ _ _ | EvRecord _ _ => false
  | _ => true
  end.

(** [s'] comes after [s] through effects that leave the cooldown dictionary
    alone and add only quiet events. *)
Definition quiet_step (s s' : mstate) : Prop :=
  alert_cooldown_dict s' = alert_cooldown_dict s ∧
  (effects s ≤ effects s')%nat ∧
  ∃ Δ, trace s' = trace s ++ Δ ∧ Forall (λ e, quiet_event e = true) Δ.

(** A computation all of whose runs are quiet. *)
Definition quiet {A} (m : M A) : Prop := ∀ s, quiet_step s (m s).2.

(** The text of a well-formed completion: status 200, a JSON body, and a
    string under [choices[0].message.content]. *)
Definition completion_text (o : http_outcome) : option string :=
  match o with
  | HttpResponse r =>
      if bool_decide (status_code r = 200%nat) then
        match json_body r with
        | Some body =>
            match PyJson.getitem_str body "choices" with
            | Ok choices =>
                match PyJson.getitem_int choices 0 with
                | Ok choice =>
                    match PyJson.getitem_str choice "message" with
                    | Ok message =>
                        match PyJson.getitem_str message "content" with
                        | Ok (JStr text) => Some text
                        | _ => None
                        end
                    | _ => None
                    end
                | _ => None
                end
            | _ => None
            end
        | None => None
        end
      else None
  | _ => None
  end.

(** Discord accepted the post: a response came back and its status is not
    an error status. *)
Definition delivered (o : http_outcome) : bool :=
  match o with
  | HttpResponse r => negb (bool_decide (400 ≤ status_code r < 600)%nat)
  | _ => false
  end.

(** The [result] of a reply that [query_range] and [query_instant] accept:
    no error status, a JSON body whose [status] is ['success'] and a
    [data.result] that is not empty. *)
Definition reply_result (o : http_outcome) : option json :=
  match o with
  | HttpResponse r =>
      if bool_decide (400 ≤ status_code r < 600)%nat then None
      else
        match json_body r with
        | Some data =>
            match PyJson.getitem_str data "status" with
            | Ok status =>
                if PyJson.eq_str status "success" then
                  match PyJson.getitem_str data "data" with
                  | Ok d =>
                      match PyJson.getitem_str d "result" with
                      | Ok res => if PyJson.truthy res then Some res else None
                      | Raise _ => None
                      end
                  | Raise _ => None
                  end
                else None
            | Raise _ => None
            end
        | None => None
        end
  | _ => None
  end.

(** The samples of one series: [[float(v[1]) for v in series['values']]]. *)
Definition series_values (w : world) (series : json) : checked (list R) :=
  match PyJson.getitem_str series "values" with
  | Ok vs =>
      match PyJson.iter vs with
      | Ok items => MinIOAnomalyMonitor.samples w items
      | Raise e => Raise e
      end
  | Raise e => Raise e
  end.

(** The value that [query_instant] reads in an accepted result:
    [float(result[0]['value'][1])]. *)
Definition instant_value (w : world) (res : json) : checked R :=
  match PyJson.getitem_int res 0 with
  | Ok first =>
      match PyJson.getitem_str first "value" with
      | Ok sample =>
          match PyJson.getitem_int sample 1 with
          | Ok x => py_float w x
          | Raise e => Raise e
          end
      | Raise e => Raise e
      end
  | Raise e => Raise e
  end.

(** The wall clock never runs backwards. *)
Definition clock_monotone (w : world) : Prop :=
  ∀ n, wall_clock w n <= wall_clock w (S n).

(** Any two posts to Discord for the same key are more than [cooldown]
    seconds apart. *)
Definition separated (cooldown : R) (tr : list event) : Prop :=
  ∀ (i j : nat) (k : string) (p1 p2 : embed) (t1 t2 : R),
    (i < j)%nat →
    tr !! i = Some (EvSend k p1 t1) →
    tr !! j = Some (EvSend k p2 t2) →
    cooldown < t2 - t1.

(** ** The alert path

    Once its detectors have answered, every evaluator takes the same steps:
    ask the gate (only if something was detected), read the clock for the
    timestamp, fetch an insight, post to Discord, stamp the cooldown. *)
Definition alert_path (w : world) (self : MinIOAnomalyMonitor.t)
    (triggered : bool) (key : string) (build : R → AnomalyAlert)
    (insight : M string) : M unit :=
  py_if (py_and triggered (MinIOAnomalyMonitor._can_alert w self key))
    (now ← datetime_now w;
     text ← insight;
     _ ← DiscordNotifier.send_alert w key (build now) text;
     MinIOAnomalyMonitor._record_alert w key).

(** The three ways a run of the alert path for [key] can go from [s]:
    nothing is posted; the gate opens at effect [na], the post is made at
    effect [ns] and an interrupt ends the run before the stamp; or the post
    is made and the stamp follows at effect [nr]. *)
Inductive alert_outcome (w : world) (cooldown : R) (key : string) (s : mstate) :
    result () → mstate → Prop :=
  | no_post (r : result ()) (s' : mstate) :
      quiet_step s s' →
      alert_outcome w cooldown key s r s'
  | post_cut (na ns : nat) (payload : embed) (Δ1 Δ2 : list event) (s' : mstate) :
      (effects s ≤ na)%nat → (na < ns)%nat → (ns < effects s')%nat →
      cooldown < wall_clock w na - default 0 (alert_cooldown_dict s !! key) →
      alert_cooldown_dict s' = alert_cooldown_dict s →
      trace s' = trace s ++ Δ1 ++ EvSend key payload (wall_clock w ns) :: Δ2 →
      Forall (λ e, quiet_event e = true) Δ1 →
      Forall (λ e, quiet_event e = true) Δ2 →
      alert_outcome w cooldown key s (Raise KeyboardInterrupt) s'
  | post_recorded (na ns nr : nat) (payload : embed) (Δ1 Δ2 : list event) (s' : mstate) :
      (effects s ≤ na)%nat → (na < ns)%nat → (ns < nr)%nat → (nr < effects s')%nat →
      cooldown < wall_clock w na - default 0 (alert_cooldown_dict s !! key) →
      alert_cooldown_dict s' = <[key := wall_clock w nr]> (alert_cooldown_dict s) →
      trace s' = trace s ++ Δ1 ++ EvSend key payload (wall_clock w ns)
                         :: Δ2 ++ [EvRecord key (wall_clock w nr)] →
      Forall (λ e, quiet_event e = true) Δ1 →
      Forall (λ e, quiet_event e = true) Δ2 →
      alert_outcome w cooldown key s (Ok tt) s'.

(** A computation keeps [I]: started where [I] holds, it ends normally
    where [I] holds, or with an exception [e] where [X e] holds. *)
Definition keeps {A} (I : mstate → Prop) (X : exn → mstate → Prop) (m : M A) : Prop :=
  ∀ s, I s →
    match m s with
    | (Ok _, s') => I s'
    | (Raise e, s') => X e s'
    end.

(** The state of the gate between two evaluators: the posts so far are
    separated, the stamp of a key is not older than its posts, and no stamp
    is ahead of the clock. *)
Definition gate_inv (w : world) (cooldown : R) (s : mstate) : Prop :=
  separated cooldown (trace s) ∧
  (∀ i k p t, trace s !! i = Some (EvSend k p t) →
     ∃ r, alert_cooldown_dict s !! k = Some r ∧ t <= r) ∧
  (∀ k r, alert_cooldown_dict s !! k = Some r → r <= wall_clock w (effects s)).

(** The state after a complete post from [s]: the request to Discord is
    the effect [effects s], what it met is logged, and the key is stamped
    with the clock reading of the effect that follows. *)
Definition posted_and_stamped (w : world) (key : string) (payload : embed)
    (s : mstate) : mstate :=
  {| alert_cooldown_dict :=
       <[key := wall_clock w (S (effects s))]> (alert_cooldown_dict s);
     effects := S (S (effects s));
     trace := trace s ++
       [EvSend key payload (wall_clock w (effects s));
        (if delivered (http w (effects s))
         then EvLog INFO "Alert sent to Discord"
         else EvLog ERROR "Failed to send Discord alert");
        EvRecord key (wall_clock w (S (effects s)))] |}.

(** A run from [s] to [s'] in which every post is completed by its stamp:
    it is made of quiet steps and of complete posts. *)
Inductive stamped_run (w : world) : mstate → mstate → Prop :=
  | stamped_quiet (s s' : mstate) :
      quiet_step s s' → stamped_run w s s'
  | stamped_post (s : mstate) (key : string) (payload : embed) :
      stamped_run w s (posted_and_stamped w key payload s)
  | stamped_trans (s1 s2 s3 : mstate) :
      stamped_run w s1 s2 → stamped_run w s2 s3 → stamped_run w s1 s3.

(** A computation all of whose posts are completed by their stamp, unless
    a [KeyboardInterrupt] ends it. *)
Definition stamps {A} (w : world) (m : M A) : Prop :=
  ∀ s, (m s).1 = Raise KeyboardInterrupt ∨ stamped_run w s (m s).2.

(** ** Worlds and monitors for the examples *)

(** A world without interrupts whose HTTP calls meet [script], one outcome
    per effect, and a connection error past its end.  No string parses as a
    float: the samples of the examples are JSON numbers. *)
Definition scripted_world (clock : nat → R) (script : list http_outcome) : world :=
  {| interrupt := λ _, false;
     wall_clock := clock;
     http := λ n, default HttpConnectionError (script !! n);
     float_of_str := λ _, None |}.

(** A reply of Prometheus to a range query: one series with [samples].
    The samples are written as JSON numbers, which [float] accepts like the
    strings that Prometheus sends. *)
Definition prometheus_reply (samples : list R) : http_outcome :=
  HttpResponse
    {| status_code := 200;
       json_body := Some (JObj
         [("status", JStr "success");
          ("data", JObj
             [("resultType", JStr "matrix");
              ("result", JArr
                 [JObj [("metric", JObj []);
                        ("values", JArr ((λ x, JArr [JNum 0; JNum x]) <$> samples))]])])]) |}.

(** A reply of Prometheus without any series. *)
Definition prometheus_no_data : http_outcome :=
  HttpResponse
    {| status_code := 200;
       json_body := Some (JObj
         [("status", JStr "success");
          ("data", JObj [("resultType", JStr "matrix"); ("result", JArr [])])]) |}.

(** Nine samples at rest and a jump: mean 1, standard deviation 3, and a
    last point 3 deviations from the mean. *)
Definition spike : list R := [0; 0; 0; 0; 0; 0; 0; 0; 0; 10].

(** A clock that starts in 2023 and advances one second per effect. *)
Definition ticking_clock (n : nat) : R := 1700000000 + INR n.

(** Prometheus reports the spike for the first query; every later HTTP call
    fails to connect, the post to Discord among them. *)
Definition discord_down_world : world :=
  scripted_world ticking_clock [HttpConnectionError; prometheus_reply spike].

(** Prometheus has no data for the first query (the bytes sent) and
    reports the spike for the second (the bytes received). *)
Definition send_outage_world : world :=
  scripted_world ticking_clock
    [HttpConnectionError; prometheus_no_data; HttpConnectionError; prometheus_reply spike].

(** A reply whose only series carries native histograms and no [values]. *)
Definition prometheus_histogram_reply : http_outcome :=
  HttpResponse
    {| status_code := 200;
       json_body := Some (JObj
         [("status", JStr "success");
          ("data", JObj
             [("resultType", JStr "matrix");
              ("result", JArr
                 [JObj [("metric", JObj []); ("histograms", JArr [])]])])]) |}.

(** The first query of the first cycle is answered by a series of
    histograms. *)
Definition histogram_world : world :=
  scripted_world ticking_clock [HttpConnectionError; prometheus_histogram_reply].

(** The monitor that the script builds when the OpenWebUI key is not
    configured. *)
Definition default_monitor : MinIOAnomalyMonitor.t :=
  MinIOAnomalyMonitor.init None None "llama2"
    CHECK_INTERVAL ZSCORE_THRESHOLD ROC_THRESHOLD ALERT_COOLDOWN HISTORY_HOURS.

(** A completion of OpenWebUI whose text is [content]. *)
Definition openwebui_reply (content : string) : http_outcome :=
  HttpResponse
    {| status_code := 200;
       json_body := Some (JObj
         [("choices", JArr
             [JObj [("message",
                     JObj [("role", JStr "assistant"); ("content", JStr content)])]])]) |}.

(** The evaluators of a single series: the query that each one fetches, its
    alert key, and what its detectors answer on the fetched series. *)
Definition series_evaluators (w : world) (self : MinIOAnomalyMonitor.t) :
    list (M unit * string * string * (list R → bool)) :=
  [(MinIOAnomalyMonitor.check_storage_space w self,
    "minio_disk_storage_bytes_free", "storage_space",
    λ values, (AnomalyDetector.zscore_anomaly values
                 (MinIOAnomalyMonitor.zscore_threshold self)).1.1);
   (MinIOAnomalyMonitor.check_request_rate w self,
    "rate(minio_gateway_requests_total[5m])", "request_rate",
    λ values, (AnomalyDetector.rate_of_change_anomaly values
                 (MinIOAnomalyMonitor.roc_threshold self)).1
              || (AnomalyDetector.zscore_anomaly values 2).1.1);
   (MinIOAnomalyMonitor.check_error_rate w self,
    MinIOAnomalyMonitor.error_rate_query, "error_rate",
    λ values, (AnomalyDetector.zscore_anomaly values 2).1.1)].

(** ** Interrupts and progress *)

(** The effects from [s] to [s'] met no interrupt. *)
Definition uninterrupted (w : world) (s s' : mstate) : Prop :=
  (effects s ≤ effects s')%nat ∧
  ∀ k, (effects s ≤ k < effects s')%nat → interrupt w k = false.

(** A computation honours interrupts: whenever it ends otherwise than on
    [KeyboardInterrupt], none of its effects met one. *)
Definition honours_interrupts {A} (w : world) (m : M A) : Prop :=
  ∀ s, (m s).1 ≠ Raise KeyboardInterrupt → uninterrupted w s (m s).2.

(** A computation that cannot return without an effect. *)
Definition advances {A} (m : M A) : Prop :=
  ∀ s a s', m s = (Ok a, s') → (effects s < effects s')%nat.

(** Prometheus, OpenWebUI and Discord are unreachable, and the process
    gets a [KeyboardInterrupt] during the effect [stop]. *)
Definition interrupted_world (stop : nat) : world :=
  {| interrupt := λ n, bool_decide (n = stop);
     wall_clock := ticking_clock;
     http := λ _, HttpConnectionError;
     float_of_str := λ _, None |}.

(** ** Queries *)

(** The range queries in a trace, oldest first: the PromQL expression and
    the hours of history asked for. *)
Definition query_of (e : event) : option (string * nat) :=
  match e with
  | EvQuery query hours => Some (query, hours)
  | _ => None
  end.

Definition queries (tr : list event) : list (string * nat) := omap query_of tr.

(** A computation that sends no query to Prometheus, however it ends. *)
Definition asks_nothing {A} (m : M A) : Prop :=
  ∀ s, queries (trace (m s).2) = queries (trace s).

(** A computation that, unless it is interrupted, has sent the queries
    [qs], whether it returns or raises. *)
Definition asks_always {A} (m : M A) (qs : list (string * nat)) : Prop :=
  ∀ s, (m s).1 ≠ Raise KeyboardInterrupt →
       queries (trace (m s).2) = queries (trace s) ++ qs.

(** A computation that has sent the queries [qs] when it returns. *)
Definition asks {A} (m : M A) (qs : list (string * nat)) : Prop :=
  ∀ s a s', m s = (Ok a, s') → queries (trace s') = queries (trace s) ++ qs.

(** A computation that raises nothing but [KeyboardInterrupt]. *)
Definition raises_no_exception {A} (m : M A) : Prop :=
  ∀ s e, (m s).1 ≠ Raise (Exception e).

(** ** Two alerts for one key *)

(** Prometheus reports the spike of the free space in two successive
    cycles: the storage query of a cycle is its second effect, and a cycle
    that posts one alert takes 15 effects.  Every other request fails to
    connect, the posts to Discord among them. *)
Definition two_spikes_script : list http_outcome :=
  [HttpConnectionError; prometheus_reply spike]
  ++ replicate 14 HttpConnectionError ++ [prometheus_reply spike].

(** A clock that advances 30 s with every effect. *)
Definition brisk_clock (n : nat) : R := 1700000000 + 30 * INR n.

(** The same clock on a machine whose time is set back by 400 s after the
    fifth effect, which is the first post. *)
Definition clock_set_back (n : nat) : R :=
  if (n <? 5)%nat then brisk_clock n + 400 else brisk_clock n.

(** Two cycles with a spike, under a given clock. *)
Definition two_spikes_world (clock : nat → R) : world :=
  scripted_world clock two_spikes_script.

(** The events of a cycle that posts a storage alert at the effect [n + 4]
    while every other request fails to connect. *)
Definition spiky_cycle_events (clock : nat → R) (n : nat) (payload : embed) : list event :=
  [EvLog INFO "Running anomaly checks...";
   EvQuery "minio_disk_storage_bytes_free" 24;
   EvSend "storage_space" payload (clock (n + 4)%nat);
   EvLog ERROR "Failed to send Discord alert";
   EvRecord "storage_space" (clock (n + 5)%nat);
   EvQuery "rate(minio_gateway_requests_total[5m])" 24;
   EvLog ERROR "Prometheus query failed";
   EvQuery "rate(minio_network_send_bytes_total[5m])" 24;
   EvLog ERROR "Prometheus query failed";
   EvQuery "rate(minio_network_receive_bytes_total[5m])" 24;
   EvLog ERROR "Prometheus query failed";
   EvQuery MinIOAnomalyMonitor.error_rate_query 24;
   EvLog ERROR "Prometheus query failed";
   EvSleep CHECK_INTERVAL].

(** * Properties *)

(** ** The detectors *)

(** *** Comparisons and signs in binary64 *)

Lemma SFcompare_refl (x : spec_float) :
  SFcompare x x = match x with S754_nan => None | _ => Some Eq end.
Proof.
  destruct x as [[] | [] | | [] m e]; cbn [SFcompare]; try done.
  all: by rewrite Z.compare_refl, Pos.compare_cont_refl.
Qed.

(** [x < y] fails when [x == y]. *)
Lemma float_eqb_not_ltb (x y : float) :
  (x =? y)%float = true → (x <? y)%float = false.
Proof.
  rewrite FloatAxioms.eqb_spec, FloatAxioms.ltb_spec. unfold SFeqb, SFltb.
  by destruct (SFcompare (Prim2SF x) (Prim2SF y)) as [[]|].
Qed.

(** [x < y] holds of numbers only: neither side is a NaN. *)
Lemma float_ltb_numbers (x y : float) :
  (x <? y)%float = true → (x =? x)%float = true ∧ (y =? y)%float = true.
Proof.
  rewrite !FloatAxioms.eqb_spec, FloatAxioms.ltb_spec. unfold SFeqb, SFltb.
  rewrite !SFcompare_refl.
  destruct (Prim2SF x), (Prim2SF y); simpl; try done.
Qed.

(** [abs] never gives a negative number. *)
Lemma float_abs_not_negative (x : float) : (PrimFloat.abs x <? 0)%float = false.
Proof.
  rewrite FloatAxioms.ltb_spec, FloatAxioms.abs_spec. unfold SFltb.
  by destruct (Prim2SF x) as [s | s | | s m e].
Qed.

(** [abs] gives a NaN or a number that is 0 or more. *)
Lemma float_abs_nan_or_nonnegative (x : float) :
  PrimFloat.is_nan (PrimFloat.abs x) = false → (0 <=? PrimFloat.abs x)%float = true.
Proof.
  unfold PrimFloat.is_nan.
  rewrite FloatAxioms.eqb_spec, FloatAxioms.leb_spec, FloatAxioms.abs_spec.
  unfold SFeqb, SFleb.
  by destruct (Prim2SF x) as [s | s | | s m e].
Qed.

(** [abs] forgets the sign. *)
Lemma float_abs_opp (x : float) : PrimFloat.abs (- x) = PrimFloat.abs x.
Proof.
  apply Prim2SF_inj. rewrite !FloatAxioms.abs_spec, FloatAxioms.opp_spec.
  by destruct (Prim2SF x).
Qed.

(** *** The summation *)

(** The recursion of [pairwise_sum] stops before its fuel runs out: any
    fuel from the length of the array on gives the same sum. *)
Lemma pairwise_sum_fuel (fuel fuel' : nat) (a : list float) :
  (length a ≤ fuel)%nat → (length a ≤ fuel')%nat →
  Binary64.pairwise_sum fuel a = Binary64.pairwise_sum fuel' a.
Proof.
  revert fuel' a. induction fuel as [|fuel IH]; intros fuel' a H1 H2.
  - destruct a; [| simpl in H1; lia]. by destruct fuel'.
  - destruct fuel' as [|fuel'].
    { destruct a; [done | simpl in H2; lia]. }
    cbn [Binary64.pairwise_sum].
    destruct (length a <? 8)%nat eqn:E8; [done |].
    destruct (length a <=? 128)%nat eqn:E128; [done |].
    apply Nat.leb_gt in E128.
    assert (Hdiv : (length a / 2 ≤ length a - 64)%nat).
    { apply Nat.Div0.div_le_upper_bound. lia. }
    assert (Hmod : (length a / 2 mod 8 < 8)%nat) by (apply Nat.mod_upper_bound; lia).
    assert (Hhalf : (length a ≤ 2 * (length a / 2) + 1)%nat).
    { pose proof (Nat.div_mod_eq (length a) 2).
      pose proof (Nat.mod_upper_bound (length a) 2). lia. }
    f_equal; apply IH; rewrite ?length_take, ?length_drop; lia.
Qed.

(** [np.sum] of a long array is the sum of the [np.sum]s of its two parts. *)
Lemma np_sum_split (a : list float) :
  (128 < length a)%nat →
  let n2 := (length a / 2 - (length a / 2) mod 8)%nat in
  Binary64.np_sum a
  = (Binary64.np_sum (take n2 a) + Binary64.np_sum (drop n2 a))%float.
Proof.
  intros Hlen n2. unfold Binary64.np_sum at 1.
  destruct (length a) as [|n] eqn:En; [lia |].
  cbn [Binary64.pairwise_sum]. rewrite En.
  destruct (S n <? 8)%nat eqn:E8; [apply Nat.ltb_lt in E8; lia |].
  destruct (S n <=? 128)%nat eqn:E128; [apply Nat.leb_le in E128; lia |].
  fold n2.
  assert (Hdiv : (S n / 2 ≤ n)%nat).
  { apply Nat.Div0.div_le_upper_bound. lia. }
  assert (Hmod : (S n / 2 mod 8 < 8)%nat) by (apply Nat.mod_upper_bound; lia).
  assert (Hhalf : (S n ≤ 2 * (S n / 2) + 1)%nat).
  { pose proof (Nat.div_mod_eq (S n) 2).
    pose proof (Nat.mod_upper_bound (S n) 2). lia. }
  unfold Binary64.np_sum.
  f_equal; apply pairwise_sum_fuel;
    rewrite ?length_take, ?length_drop, ?En; unfold n2; lia.
Qed.

(** *** The z-score detector *)

(** C3: for a series of at least two points whose computed standard
    deviation does not compare equal to 0, [zscore_anomaly] returns, every
    operation in binary64: the score [|(last - μ) / σ|], where [μ] is the sum
    of the whole series (last point included) over its length and [σ] the
    root of the sum of the squared deviations from [μ] over the length; the
    range [(μ - t·σ, μ + t·σ)]; and the flag [t < score], a strict test on
    the computed score.  A computed score equal to [t] is not an anomaly,
    and a flagged series has a score and a threshold that are numbers, not
    NaN. *)
Theorem zscore_anomaly_spec (values : list float) (t : float) :
  (2 ≤ length values)%nat →
  (Binary64.np_std values =? 0)%float = false →
  let n := Binary64.of_nat (length values) in
  let μ := (Binary64.np_sum values / n)%float in
  let σ :=
    PrimFloat.sqrt
      (Binary64.np_sum (map (λ x, ((x - μ) * (x - μ))%float) values) / n)%float in
  let score := PrimFloat.abs ((Binary64.py_last values - μ) / σ)%float in
  last values = Some (Binary64.py_last values) ∧
  σ = Binary64.np_std values ∧
  Binary64.zscore_anomaly values t
    = ((t <? score)%float, score, ((μ - t * σ)%float, (μ + t * σ)%float)) ∧
  ((Binary64.zscore_anomaly values t).1.1 = true ↔ (t <? score)%float = true) ∧
  ((t =? score)%float = true → (Binary64.zscore_anomaly values t).1.1 = false) ∧
  ((Binary64.zscore_anomaly values t).1.1 = true →
   PrimFloat.is_nan score = false ∧ PrimFloat.is_nan t = false).
Proof.
  intros Hlen Hstd n μ σ score.
  assert (E : Binary64.zscore_anomaly values t
              = ((t <? score)%float, score, ((μ - t * σ)%float, (μ + t * σ)%float))).
  { unfold Binary64.zscore_anomaly.
    destruct (Nat.ltb_spec (length values) 2) as [? | _]; [lia |].
    by rewrite Hstd. }
  rewrite E. cbn [fst snd]. split_and!; try done.
  - unfold Binary64.py_last. destruct (last values) eqn:El; [done |].
    apply last_None in El. subst values. simpl in Hlen. lia.
  - apply float_eqb_not_ltb.
  - intros Hflag. apply float_ltb_numbers in Hflag as [Ht Hs].
    unfold PrimFloat.is_nan. by rewrite Ht, Hs.
Qed.

(** Nine samples 0 and a last sample 10: the score is 3, which the
    threshold 3 does not flag and the threshold 2.5 does. *)
Lemma zscore_anomaly_spec_witness :
  let values := [0; 0; 0; 0; 0; 0; 0; 0; 0; 10]%float in
  Binary64.zscore_anomaly values 3
  = (false, 3, (-8, 10))%float ∧
  Binary64.zscore_anomaly values 0x1.4p+1
  = (true, 3, (-0x1.ap+2, 0x1.1p+3))%float.
Proof.
  cbv zeta. split.
  - apply (proj1 (proj2 (proj2
      (zscore_anomaly_spec [0; 0; 0; 0; 0; 0; 0; 0; 0; 10]%float 3%float
         ltac:(simpl; lia) ltac:(vm_compute; reflexivity))))).
  - apply (proj1 (proj2 (proj2
      (zscore_anomaly_spec [0; 0; 0; 0; 0; 0; 0; 0; 0; 10]%float 0x1.4p+1%float
         ltac:(simpl; lia) ltac:(vm_compute; reflexivity))))).
Defined.

(** C3, as the claim words it, fails on the boundary.  Nine samples 0 and a
    last sample 7 have the mean 0.7 and the population standard deviation
    2.1: the last value lies exactly 3 deviations from the mean.  The code
    computes the score 3.0000000000000004 and flags the series at the
    threshold 3, with the range (-5.599999999999999, 6.999999999999999). *)
Lemma boundary_spike_is_flagged :
  let μ : R := (9 * 0 + 7) / 10 in
  let σ : R := sqrt ((9 * ((0 - μ) * (0 - μ)) + (7 - μ) * (7 - μ)) / 10) in
  (μ = 7 / 10 ∧ σ = 21 / 10 ∧ Rabs (7 - μ) = 3 * σ) ∧
  Binary64.zscore_anomaly [0; 0; 0; 0; 0; 0; 0; 0; 0; 7]%float 3
  = (true, 0x1.8000000000001p+1,
     (-0x1.6666666666665p+2, 0x1.bffffffffffffp+2))%float.
Proof.
  cbv zeta.
  assert (Hstd : sqrt ((9 * ((0 - (9 * 0 + 7) / 10) * (0 - (9 * 0 + 7) / 10))
                        + (7 - (9 * 0 + 7) / 10) * (7 - (9 * 0 + 7) / 10)) / 10)
                 = 21 / 10).
  { replace (_ / 10) with ((21 / 10) * (21 / 10)) by lra.
    apply sqrt_square. lra. }
  split; [| vm_compute; reflexivity].
  rewrite Hstd. split_and!; [lra | done |].
  rewrite Rabs_pos_eq; lra.
Qed.




(** *** The rate-of-change detector *)

(** C4: on a series of at least two points [rate_of_change_anomaly] looks
    at the last ten points (all of them when there are fewer).  When the
    first of these compares equal to 0 it returns no anomaly; otherwise the
    change is [(last - first) / first * 100], every operation in binary64,
    and the flag is [t < |change|], a strict test on the computed change
    and the same for a change and its opposite. *)
Theorem rate_of_change_anomaly_spec (values : list float) (t : float) :
  (2 ≤ length values)%nat →
  ∃ (recent : list float) (first final : float),
    recent `suffix_of` values ∧
    length recent = (10 `min` length values)%nat ∧
    head recent = Some first ∧ last recent = Some final ∧
    ((first =? 0)%float = true →
     Binary64.rate_of_change_anomaly values t = (false, 0%float)) ∧
    ((first =? 0)%float = false →
     let change_percent := ((final - first) / first * 100)%float in
     Binary64.rate_of_change_anomaly values t
       = ((t <? PrimFloat.abs change_percent)%float, change_percent) ∧
     ((t =? PrimFloat.abs change_percent)%float = true →
      (Binary64.rate_of_change_anomaly values t).1 = false) ∧
     (t <? PrimFloat.abs change_percent)%float
       = (t <? PrimFloat.abs (- change_percent))%float).
Proof.
  intros Hlen.
  set (recent := if (10 <=? length values)%nat
                 then Binary64.py_suffix 10 values else values).
  assert (Hsuf : recent `suffix_of` values).
  { unfold recent. destruct (10 <=? length values)%nat; [apply suffix_drop | done]. }
  assert (Hrl : length recent = (10 `min` length values)%nat).
  { unfold recent, Binary64.py_suffix.
    destruct (Nat.leb_spec 10 (length values)); [rewrite length_drop |]; lia. }
  assert (Hne : recent ≠ []).
  { intros E. rewrite E in Hrl. cbn [length] in Hrl. lia. }
  assert (Hhead : head recent = Some (Binary64.py_first recent)).
  { unfold Binary64.py_first. by destruct recent. }
  assert (Hlast : last recent = Some (Binary64.py_last recent)).
  { unfold Binary64.py_last. destruct (last recent) eqn:El; [done |].
    by apply last_None in El. }
  exists recent, (Binary64.py_first recent), (Binary64.py_last recent).
  split_and!; try done.
  - intros H0. unfold Binary64.rate_of_change_anomaly.
    destruct (Nat.ltb_spec (length values) 2) as [? | _]; [lia |].
    fold recent. by rewrite H0.
  - intros H0 cp.
    assert (E : Binary64.rate_of_change_anomaly values t
                = ((t <? PrimFloat.abs cp)%float, cp)).
    { unfold Binary64.rate_of_change_anomaly.
      destruct (Nat.ltb_spec (length values) 2) as [? | _]; [lia |].
      fold recent. by rewrite H0. }
    rewrite E. cbn [fst]. split_and!.
    + done.
    + apply float_eqb_not_ltb.
    + by rewrite float_abs_opp.
Qed.

Lemma rate_of_change_anomaly_spec_witness :
  ∃ (recent : list float) (first final : float),
    recent `suffix_of` [1; 3]%float ∧
    length recent = (10 `min` length [1; 3]%float)%nat ∧
    head recent = Some first ∧ last recent = Some final ∧
    ((first =? 0)%float = true →
     Binary64.rate_of_change_anomaly [1; 3]%float 100 = (false, 0%float)) ∧
    ((first =? 0)%float = false →
     let change_percent := ((final - first) / first * 100)%float in
     Binary64.rate_of_change_anomaly [1; 3]%float 100
       = ((100 <? PrimFloat.abs change_percent)%float, change_percent) ∧
     ((100 =? PrimFloat.abs change_percent)%float = true →
      (Binary64.rate_of_change_anomaly [1; 3]%float 100).1 = false) ∧
     (100 <? PrimFloat.abs change_percent)%float
       = (100 <? PrimFloat.abs (- change_percent))%float).
Proof.
  apply (rate_of_change_anomaly_spec [1; 3]%float 100%float). simpl. lia.
Defined.

(** C4, as the claim words it, fails on the boundary.  From 10 to 21 the
    change is exactly 110 percent; the code computes 110.00000000000001 and
    flags the series at the threshold 110. *)
Lemma threshold_change_is_flagged :
  (21 - 10) / 10 * 100 = 110 ∧
  Binary64.rate_of_change_anomaly [10; 21]%float 110
  = (true, 0x1.b800000000001p+6)%float.
Proof. split; [lra | vm_compute; reflexivity]. Qed.

(** *** Short and flat series *)

(** C5: on a series shorter than two points [zscore_anomaly] returns
    [(False, 0.0, (0.0, 0.0))] and [rate_of_change_anomaly] returns
    [(False, 0.0)].  On a series of two points or more whose computed
    standard deviation compares equal to 0, [zscore_anomaly] returns no
    anomaly, the score 0 and the range collapsed to the computed mean; and a
    series that it flags has a computed standard deviation other than 0.
    Both detectors are total functions: no input makes them raise. *)
Theorem detectors_on_degenerate_series (values : list float) (t : float) :
  ((length values < 2)%nat →
   Binary64.zscore_anomaly values t = (false, 0, (0, 0))%float ∧
   Binary64.rate_of_change_anomaly values t = (false, 0%float)) ∧
  ((2 ≤ length values)%nat → (Binary64.np_std values =? 0)%float = true →
   Binary64.zscore_anomaly values t
     = (false, 0%float, (Binary64.np_mean values, Binary64.np_mean values))) ∧
  ((2 ≤ length values)%nat →
   (Binary64.zscore_anomaly values t).1.1 = true →
   (Binary64.np_std values =? 0)%float = false).
Proof.
  unfold Binary64.zscore_anomaly, Binary64.rate_of_change_anomaly.
  split_and!.
  - intros Hlen. destruct (Nat.ltb_spec (length values) 2); [done | lia].
  - intros Hlen Hstd. destruct (Nat.ltb_spec (length values) 2); [lia |].
    by rewrite Hstd.
  - intros Hlen. destruct (Nat.ltb_spec (length values) 2); [lia |].
    by destruct (Binary64.np_std values =? 0)%float.
Qed.

(** A single sample, and the constant series 5, 5, whose range collapses
    to (5, 5). *)
Lemma detectors_on_degenerate_series_witness :
  (Binary64.zscore_anomaly [7]%float 3 = (false, 0, (0, 0))%float ∧
   Binary64.rate_of_change_anomaly [7]%float 3 = (false, 0%float)) ∧
  Binary64.zscore_anomaly [5; 5]%float 3 = (false, 0, (5, 5))%float.
Proof.
  split.
  - apply (proj1 (detectors_on_degenerate_series [7]%float 3%float)). simpl. lia.
  - apply (proj1 (proj2 (detectors_on_degenerate_series [5; 5]%float 3%float))).
    + simpl. lia.
    + vm_compute. reflexivity.
Defined.

(** C5, as the claim words it, fails on constant series.  For three
    samples 0.1 the code computes the mean 0.10000000000000002 and the
    standard deviation 2^-56, which is not 0: at the threshold 0.5 the
    series is flagged with the score 1 and the range
    (0.1, 0.10000000000000003).  For two samples 1e308 the sum overflows:
    the mean and the standard deviation are infinite, and the result is no
    anomaly with a score and a lower bound that are NaN and an infinite
    upper bound. *)
Lemma constant_series_is_flagged :
  (let c := 0x1.999999999999ap-4%float in
   let r := Binary64.zscore_anomaly [c; c; c] 0x1p-1 in
   Binary64.np_mean [c; c; c] = 0x1.999999999999bp-4%float ∧
   Binary64.np_std [c; c; c] = 0x1p-56%float ∧
   r = (true, 1, (c, 0x1.999999999999cp-4))%float) ∧
  (let huge := 0x1.1ccf385ebc8ap+1023%float in
   let r := Binary64.zscore_anomaly [huge; huge] 2 in
   Binary64.np_mean [huge; huge] = infinity ∧
   Binary64.np_std [huge; huge] = infinity ∧
   r.1.1 = false ∧ PrimFloat.is_nan r.1.2 = true ∧
   PrimFloat.is_nan r.2.1 = true ∧ r.2.2 = infinity).
Proof. vm_compute. by split_and!. Qed.

(** *** The detectors over the reals *)

Section detector_facts.

Import AnomalyDetector.

Lemma np_std_nonneg (values : list R) : 0 <= np_std values.
Proof. apply sqrt_pos. Qed.

(** Past the two guards the z-score branch is taken. *)
Lemma zscore_anomaly_main (values : list R) (threshold : R) :
  (2 ≤ length values)%nat → np_std values ≠ 0 →
  zscore_anomaly values threshold =
    (bool_decide (threshold < Rabs ((py_last values - np_mean values) / np_std values)),
     Rabs ((py_last values - np_mean values) / np_std values),
     (np_mean values - threshold * np_std values,
      np_mean values + threshold * np_std values)).
Proof.
  intros Hlen Hstd. unfold zscore_anomaly.
  rewrite bool_decide_eq_false_2 by lia.
  by rewrite bool_decide_eq_false_2.
Qed.

Lemma zscore_as_quotient (x s : R) : 0 < s → Rabs (x / s) = Rabs x / s.
Proof.
  intros Hs. unfold Rdiv. rewrite Rabs_mult. f_equal.
  apply Rabs_pos_eq. left. by apply Rinv_0_lt_compat.
Qed.

End detector_facts.

Lemma np_std_pos (values : list R) : np_std values ≠ 0 → 0 < np_std values.
Proof. pose proof (np_std_nonneg values). lra. Qed.

(** ** The monad *)

Lemma bind_run {A B} (m : M A) (f : A → M B) (s : mstate) :
  (m ≫= f) s = match m s with
               | (Ok a, s') => f a s'
               | (Raise e, s') => (Raise e, s')
               end.
Proof. reflexivity. Qed.

Lemma quiet_step_refl (s : mstate) : quiet_step s s.
Proof.
  split_and!; [done | lia |]. exists []. by rewrite app_nil_r.
Qed.

Lemma quiet_step_trans (s1 s2 s3 : mstate) :
  quiet_step s1 s2 → quiet_step s2 s3 → quiet_step s1 s3.
Proof.
  intros (Hd1 & He1 & Δ1 & Ht1 & Hq1) (Hd2 & He2 & Δ2 & Ht2 & Hq2).
  split_and!; [congruence | lia |].
  exists (Δ1 ++ Δ2). split.
  - by rewrite Ht2, Ht1, app_assoc.
  - by apply Forall_app.
Qed.

Lemma quiet_step_events (events : list event) (s : mstate) :
  Forall (λ e, quiet_event e = true) events → quiet_step s (add_events events s).
Proof. intros H. split_and!; [done | done |]. by exists events. Qed.

Lemma quiet_step_tick (s : mstate) : quiet_step s (tick s).
Proof.
  split_and!; [done | simpl; lia |]. exists []. simpl. by rewrite app_nil_r.
Qed.

Lemma quiet_ret {A} (a : A) : quiet (ret a).
Proof. intros s. apply quiet_step_refl. Qed.

Lemma quiet_raise {A} (e : exception) : quiet (@raise A e).
Proof. intros s. apply quiet_step_refl. Qed.

Lemma quiet_lift {A} (r : checked A) : quiet (lift r).
Proof. intros s. apply quiet_step_refl. Qed.

Lemma quiet_gets {A} (f : mstate → A) : quiet (gets f).
Proof. intros s. apply quiet_step_refl. Qed.

Lemma quiet_bind {A B} (m : M A) (f : A → M B) :
  quiet m → (∀ a, quiet (f a)) → quiet (m ≫= f).
Proof.
  intros Hm Hf s. rewrite bind_run. specialize (Hm s).
  destruct (m s) as [[a|e] s']; simpl in *; [| done].
  eapply quiet_step_trans; [exact Hm | apply Hf].
Qed.

Lemma quiet_try_except {A} (body : M A) (handler : exception → M A) :
  quiet body → (∀ e, quiet (handler e)) → quiet (try_except body handler).
Proof.
  intros Hb Hh s. unfold try_except. specialize (Hb s).
  destruct (body s) as [[a|[|e]] s']; simpl in *; [done | done |].
  eapply quiet_step_trans; [exact Hb | apply Hh].
Qed.

Lemma quiet_emit (e : event) : quiet_event e = true → quiet (emit e).
Proof. intros He s. apply quiet_step_events. by constructor. Qed.

Lemma quiet_effect {A} (w : world) (events : nat → list event) (answer : nat → A) :
  (∀ n, Forall (λ e, quiet_event e = true) (events n)) →
  quiet (effect w events answer).
Proof.
  intros He s. unfold effect.
  assert (quiet_step s (tick (add_events (events (effects s)) s))).
  { eapply quiet_step_trans; [by apply quiet_step_events | apply quiet_step_tick]. }
  by destruct (interrupt w (effects s)).
Qed.

Lemma quiet_if {A} (b : bool) (m1 m2 : M A) :
  quiet m1 → quiet m2 → quiet (if b then m1 else m2).
Proof. by destruct b. Qed.

Ltac solve_quiet :=
  repeat first
    [ apply quiet_bind; [| intros ?]
    | apply quiet_try_except; [| intros ?]
    | apply quiet_if
    | apply quiet_effect; intros ?; repeat constructor
    | apply quiet_emit; reflexivity
    | apply quiet_ret | apply quiet_raise | apply quiet_lift | apply quiet_gets
    | match goal with |- quiet (match ?x with _ => _ end) => destruct x end ].

Lemma quiet_requests_call (w : world) (events : nat → list event) :
  (∀ n, Forall (λ e, quiet_event e = true) (events n)) →
  quiet (requests_call w events).
Proof.
  intros He. unfold requests_call. apply quiet_bind; [by apply quiet_effect |].
  intros []; solve_quiet.
Qed.

Lemma quiet_query_range (w : world) (query : string) (hours : nat) :
  quiet (PrometheusConnector.query_range w query hours).
Proof.
  unfold PrometheusConnector.query_range, datetime_now, raise_for_status, response_json.
  apply quiet_try_except; [| intros ?; solve_quiet].
  apply quiet_bind; [solve_quiet | intros ?].
  apply quiet_bind; [apply quiet_requests_call; intros ?; repeat constructor | intros ?].
  solve_quiet.
Qed.

Lemma quiet_get_metric_values (w : world) (self : MinIOAnomalyMonitor.t) (query : string) :
  quiet (MinIOAnomalyMonitor.get_metric_values w self query).
Proof.
  unfold MinIOAnomalyMonitor.get_metric_values.
  apply quiet_bind; [apply quiet_query_range | intros ?]. solve_quiet.
Qed.

Lemma quiet_generate_context (w : world) (self : OpenWebUIInsight.t)
    (metric : string) (current expected change : R) :
  quiet (OpenWebUIInsight.generate_context w self metric current expected change).
Proof.
  unfold OpenWebUIInsight.generate_context, response_json.
  apply quiet_try_except; [| intros ?; solve_quiet].
  apply quiet_bind; [apply quiet_requests_call; intros ?; repeat constructor | intros ?].
  solve_quiet.
Qed.

(** ** OpenWebUIInsight *)

Lemma string_of_list_ascii_length (cs : list ascii) :
  String.length (String.string_of_list_ascii cs) = length cs.
Proof. induction cs as [|c cs IH]; simpl; [done | by rewrite IH]. Qed.

Lemma prefix_length (n : nat) (s : string) : (String.length (PyStr.prefix n s) ≤ n)%nat.
Proof.
  unfold PyStr.prefix. rewrite string_of_list_ascii_length, length_take. lia.
Qed.

Lemma prefix_empty (n : nat) : PyStr.prefix n "" = "".
Proof. by destruct n. Qed.

Lemma truncate_insight (n : nat) (insight : string) :
  (if PyStr.truthy insight then PyStr.prefix n insight else "") = PyStr.prefix n insight.
Proof. destruct insight; [by rewrite prefix_empty | done]. Qed.

(** What [generate_context] does, effect by effect. *)
Lemma generate_context_run (w : world) (self : OpenWebUIInsight.t) (metric : string)
    (current expected change : R) (s : mstate) :
  let n := effects s in
  let out := OpenWebUIInsight.generate_context w self metric current expected change s in
  if interrupt w n then out.1 = Raise KeyboardInterrupt
  else out.1 = Ok match completion_text (http w n) with
                  | Some c => PyStr.prefix 250 (PyStr.strip c)
                  | None => ""
                  end.
Proof.
  intros n out. subst out n.
  unfold OpenWebUIInsight.generate_context, try_except, requests_call.
  rewrite !bind_run. unfold effect.
  destruct (interrupt w (effects s)); [done |].
  unfold completion_text.
  destruct (http w (effects s)) as [| |r]; [by simpl | by simpl |].
  simpl. case_bool_decide; [| by simpl].
  unfold response_json. rewrite bind_run.
  destruct (json_body r) as [body|]; [| by simpl].
  simpl.
  unfold mbind, M_bind, bind, lift, ret, emit.
  destruct (PyJson.getitem_str body "choices") as [choices|e]; [| by destruct e].
  destruct (PyJson.getitem_int choices 0) as [choice|e]; [| by destruct e].
  destruct (PyJson.getitem_str choice "message") as [message|e]; [| by destruct e].
  destruct (PyJson.getitem_str message "content") as [content|e]; [| by destruct e].
  destruct content; try done.
  simpl. by rewrite truncate_insight.
Qed.

(** C9: [generate_context] always comes back with a string of at most 250
    characters: the stripped and truncated completion when the service
    answers well, the empty string on a timeout, a transport error, a
    status other than 200 or a malformed payload.  No exception of the
    service leaves it; the only way out other than a string is a
    [KeyboardInterrupt] delivered to the process during the call. *)
Theorem generate_context_never_raises (w : world) (self : OpenWebUIInsight.t)
    (metric : string) (current expected change : R) (s : mstate) :
  let n := effects s in
  let out := OpenWebUIInsight.generate_context w self metric current expected change s in
  alert_cooldown_dict out.2 = alert_cooldown_dict s ∧
  (∀ e, out.1 ≠ Raise (Exception e)) ∧
  if interrupt w n then out.1 = Raise KeyboardInterrupt
  else ∃ text : string,
    out.1 = Ok text ∧
    (String.length text ≤ 250)%nat ∧
    text = match completion_text (http w n) with
           | Some c => PyStr.prefix 250 (PyStr.strip c)
           | None => ""
           end ∧
    (http w n = HttpTimeout → text = "") ∧
    (http w n = HttpConnectionError → text = "") ∧
    (∀ r, http w n = HttpResponse r →
          status_code r ≠ 200%nat ∨ json_body r = None → text = "").
Proof.
  intros n out.
  pose proof (generate_context_run w self metric current expected change s) as Hrun.
  pose proof (quiet_generate_context w self metric current expected change s)
    as (Hd & _). fold out in Hd, Hrun. fold n in Hrun. cbv zeta in Hrun.
  split; [done |]. split.
  { intros e He. destruct (interrupt w n); congruence. }
  destruct (interrupt w n); [done |].
  eexists. split; [exact Hrun |]. split_and!.
  - destruct (completion_text (http w n)); [apply prefix_length | simpl; lia].
  - done.
  - by intros ->.
  - by intros ->.
  - intros r -> [Hs | Hb]; unfold completion_text.
    + by rewrite bool_decide_eq_false_2.
    + rewrite Hb. by case_bool_decide.
Qed.

(** ** The alert gate *)

Section gate.

Import MinIOAnomalyMonitor.
Context (w : world) (self : MinIOAnomalyMonitor.t).

Lemma add_events_nil (s : mstate) : add_events [] s = s.
Proof. destruct s. unfold add_events. simpl. by rewrite app_nil_r. Qed.

Lemma can_alert_run (key : string) (s : mstate) :
  _can_alert w self key s =
    (if interrupt w (effects s) then Raise KeyboardInterrupt
     else Ok (bool_decide (alert_cooldown self
                           < wall_clock w (effects s)
                             - default 0 (alert_cooldown_dict s !! key))),
     tick s).
Proof.
  unfold _can_alert, time_time, effect, mbind, M_bind, bind, gets, ret.
  rewrite add_events_nil. by destruct (interrupt w (effects s)).
Qed.

Lemma record_alert_run (key : string) (s : mstate) :
  _record_alert w key s =
    if interrupt w (effects s) then (Raise KeyboardInterrupt, tick s)
    else (Ok tt,
          {| alert_cooldown_dict :=
               <[key := wall_clock w (effects s)]> (alert_cooldown_dict s);
             effects := S (effects s);
             trace := trace s ++ [EvRecord key (wall_clock w (effects s))] |}).
Proof.
  unfold _record_alert, time_time, effect, mbind, M_bind, bind, set_alert_time.
  rewrite add_events_nil. by destruct (interrupt w (effects s)).
Qed.

End gate.

(** C6, as the code has it: [_can_alert(k)] answers whether
    [now - last > alert_cooldown], where [last] is the time stamped by the
    last [_record_alert(k)], or 0 when no alert was ever recorded for [k];
    so, when the clock reading exceeds [alert_cooldown], it is true exactly
    when no alert was recorded for [k] or the time elapsed since the last
    one strictly exceeds the cooldown.  [_record_alert(k)] stamps the current
    time against [k] and leaves every other key as it was, and
    [_can_alert(k2)] for another key answers the same with or without it. *)
Theorem alert_gate_spec (w : world) (self : MinIOAnomalyMonitor.t)
    (k : string) (s : mstate) :
  interrupt w (effects s) = false →
  let now := wall_clock w (effects s) in
  let dict := alert_cooldown_dict s in
  let can := MinIOAnomalyMonitor._can_alert w self k s in
  let rec := MinIOAnomalyMonitor._record_alert w k s in
  can.1 = Ok (bool_decide (MinIOAnomalyMonitor.alert_cooldown self
                           < now - default 0 (dict !! k))) ∧
  alert_cooldown_dict can.2 = dict ∧
  (MinIOAnomalyMonitor.alert_cooldown self < now →
   (can.1 = Ok true ↔
    dict !! k = None ∨
    ∃ last, dict !! k = Some last ∧ MinIOAnomalyMonitor.alert_cooldown self < now - last)) ∧
  rec.1 = Ok tt ∧
  alert_cooldown_dict rec.2 = <[k := now]> dict ∧
  alert_cooldown_dict rec.2 !! k = Some now ∧
  (∀ k2, k2 ≠ k →
     alert_cooldown_dict rec.2 !! k2 = dict !! k2 ∧
     (MinIOAnomalyMonitor._can_alert w self k2 rec.2).1
       = (MinIOAnomalyMonitor._can_alert w self k2 (tick s)).1).
Proof.
  intros Hint now dict can rec. subst can rec.
  rewrite can_alert_run, record_alert_run, Hint. simpl. fold now dict.
  split_and!; try done.
  - intros Hnow. split.
    + intros [= Hb%bool_decide_eq_true]. destruct (dict !! k) as [last|]; eauto.
    + intros [-> | (last & -> & Hlast)]; f_equal; apply bool_decide_eq_true_2; simpl; lra.
  - apply lookup_insert_eq.
  - intros k2 Hk2. rewrite !can_alert_run. simpl.
    rewrite lookup_insert_ne by done. done.
Qed.

Lemma alert_gate_spec_witness :
  let w := scripted_world (λ _, 1700000000) [] in
  let s := MinIOAnomalyMonitor.init_state in
  let can := MinIOAnomalyMonitor._can_alert w default_monitor "storage_space" s in
  let rec := MinIOAnomalyMonitor._record_alert w "storage_space" s in
  can.1 = Ok (bool_decide (MinIOAnomalyMonitor.alert_cooldown default_monitor
                           < 1700000000
                             - default 0 ((∅ : gmap string R) !! "storage_space"))) ∧
  alert_cooldown_dict can.2 = ∅ ∧
  (MinIOAnomalyMonitor.alert_cooldown default_monitor < 1700000000 →
   (can.1 = Ok true ↔
    (∅ : gmap string R) !! "storage_space" = None ∨
    ∃ last, (∅ : gmap string R) !! "storage_space" = Some last ∧
            MinIOAnomalyMonitor.alert_cooldown default_monitor < 1700000000 - last)) ∧
  rec.1 = Ok tt ∧
  alert_cooldown_dict rec.2 = <["storage_space" := 1700000000]> ∅ ∧
  alert_cooldown_dict rec.2 !! "storage_space" = Some 1700000000 ∧
  (∀ k2, k2 ≠ "storage_space" →
     alert_cooldown_dict rec.2 !! k2 = (∅ : gmap string R) !! k2 ∧
     (MinIOAnomalyMonitor._can_alert w default_monitor k2 rec.2).1
       = (MinIOAnomalyMonitor._can_alert w default_monitor k2 (tick s)).1).
Proof.
  apply (alert_gate_spec (scripted_world (λ _, 1700000000) []) default_monitor
           "storage_space" MinIOAnomalyMonitor.init_state).
  reflexivity.
Defined.

(** C6, as the claim words it, fails: on a machine whose clock reads 100 s
    (less than the cooldown of 300 s) no alert has been recorded for the
    key, and yet [_can_alert] answers false. *)
Lemma can_alert_refuses_first_alert :
  alert_cooldown_dict MinIOAnomalyMonitor.init_state !! "storage_space" = None ∧
  (MinIOAnomalyMonitor._can_alert (scripted_world (λ _, 100) []) default_monitor
     "storage_space" MinIOAnomalyMonitor.init_state).1 = Ok false.
Proof.
  split; [done |]. rewrite can_alert_run. simpl.
  f_equal. apply bool_decide_eq_false_2. unfold ALERT_COOLDOWN.
  rewrite lookup_empty. simpl. lra.
Qed.

(** ** DiscordNotifier *)

(** What [send_alert] does, effect by effect: the post is attempted, an
    interrupt cuts through, any failure of the post is logged and turned
    into [False]. *)
Lemma send_alert_run (w : world) (key : string) (alert : AnomalyAlert)
    (insight : string) (s : mstate) :
  let n := effects s in
  let posted :=
    tick (add_events
            [EvSend key (DiscordNotifier.make_embed alert insight) (wall_clock w n)] s) in
  DiscordNotifier.send_alert w key alert insight s =
    if interrupt w n then (Raise KeyboardInterrupt, posted)
    else if delivered (http w n)
         then (Ok true, add_events [EvLog INFO "Alert sent to Discord"] posted)
         else (Ok false, add_events [EvLog ERROR "Failed to send Discord alert"] posted).
Proof.
  intros n posted. subst n posted.
  unfold DiscordNotifier.send_alert, try_except, requests_call, raise_for_status.
  cbv zeta. rewrite !bind_run. unfold effect.
  destruct (interrupt w (effects s)); [done |].
  unfold delivered.
  destruct (http w (effects s)) as [| |r]; [done | done |].
  unfold ret at 1. cbv beta iota. rewrite bind_run.
  by case_bool_decide.
Qed.

(** ** The alert path *)

Section alert_path_facts.

Context (w : world) (self : MinIOAnomalyMonitor.t).

Lemma quiet_datetime_now : quiet (datetime_now w).
Proof. apply quiet_effect. intros ?. constructor. Qed.

Lemma quiet_time_sleep (seconds : R) : quiet (time_sleep w seconds).
Proof.
  unfold time_sleep. repeat case_bool_decide; try apply quiet_raise.
  apply quiet_effect. intros ?. by repeat constructor.
Qed.

Lemma time_sleep_accepted (seconds : R) :
  sleep_accepted seconds →
  time_sleep w seconds = effect w (λ _, [EvSleep seconds]) (λ _, tt).
Proof.
  intros [H0 Hmax]. unfold time_sleep.
  rewrite bool_decide_eq_false_2 by (rewrite Rabs_pos_eq by done; lra).
  by rewrite bool_decide_eq_false_2 by lra.
Qed.

Lemma quiet_insight_for (metric : string) (current expected change : R) :
  quiet (MinIOAnomalyMonitor.insight_for w self metric current expected change).
Proof.
  unfold MinIOAnomalyMonitor.insight_for.
  destruct (MinIOAnomalyMonitor.openwebui self);
    [apply quiet_generate_context | apply quiet_ret].
Qed.

(** Every run of the alert path has one of the three outcomes. *)
Lemma alert_path_outcome (triggered : bool) (key : string)
    (build : R → AnomalyAlert) (insight : M string) (s : mstate) :
  quiet insight →
  alert_outcome w (MinIOAnomalyMonitor.alert_cooldown self) key s
    (alert_path w self triggered key build insight s).1
    (alert_path w self triggered key build insight s).2.
Proof.
  intros Hq. unfold alert_path, py_if, py_and. rewrite bind_run.
  destruct triggered; [| apply no_post, quiet_step_refl].
  rewrite can_alert_run.
  destruct (interrupt w (effects s)) eqn:Hi0; [apply no_post, quiet_step_tick |].
  case_bool_decide as Hgate; [| apply no_post, quiet_step_tick].
  rewrite bind_run.
  pose proof (quiet_datetime_now (tick s)) as Hq1.
  destruct (datetime_now w (tick s)) as [[now|e1] s2] eqn:E1; simpl in Hq1;
    [| apply no_post; eapply quiet_step_trans; [apply quiet_step_tick | done]].
  assert (He2 : (effects s < effects s2)%nat).
  { destruct Hq1 as (_ & He & _). simpl in He. lia. }
  assert (Hs2 : quiet_step s s2).
  { eapply quiet_step_trans; [apply quiet_step_tick | done]. }
  rewrite bind_run.
  pose proof (Hq s2) as Hq2.
  destruct (insight s2) as [[text|e2] s3]; simpl in Hq2;
    [| apply no_post; by eapply quiet_step_trans].
  pose proof (quiet_step_trans _ _ _ Hs2 Hq2) as (Hd3 & He3 & Δ & Ht3 & HΔ).
  assert (He3' : (effects s < effects s3)%nat).
  { destruct Hq2 as (_ & He & _). lia. }
  rewrite bind_run, send_alert_run.
  set (payload := DiscordNotifier.make_embed (build now) text).
  destruct (interrupt w (effects s3)).
  { simpl. eapply (post_cut _ _ _ _ (effects s) (effects s3) payload Δ []);
      simpl; try done; try lia.
    by rewrite Ht3, <-app_assoc. }
  destruct (delivered (http w (effects s3)));
    rewrite record_alert_run; simpl;
    destruct (interrupt w (S (effects s3))); simpl;
    match goal with
    | |- alert_outcome _ _ _ _ (Raise _) (tick (add_events ?l _)) =>
        eapply (post_cut _ _ _ _ (effects s) (effects s3) payload Δ l);
        simpl; try done; try lia; [by rewrite Ht3, <-!app_assoc | by repeat constructor]
    | |- alert_outcome _ _ _ _ (Ok _) {| trace := ((_ ++ _) ++ ?l) ++ _ |} =>
        eapply (post_recorded _ _ _ _ (effects s) (effects s3) (S (effects s3))
                  payload Δ l);
        simpl; try done; try lia;
        [by rewrite Hd3 | by rewrite Ht3, <-!app_assoc | by repeat constructor]
    end.
Qed.

End alert_path_facts.

(** ** Properties kept by every evaluator

    Whatever is kept by the three outcomes of the alert path is kept by the
    four evaluators, by a cycle and by the loop. *)

Section keeping.

Import MinIOAnomalyMonitor.
Context (w : world) (self : MinIOAnomalyMonitor.t).
Context (I : mstate → Prop) (X : exn → mstate → Prop).

Hypothesis kept_by_outcome : ∀ key s r s',
  I s → alert_outcome w (alert_cooldown self) key s r s' →
  match r with Ok _ => I s' | Raise e => X e s' end.

Lemma keeps_quiet {A} (m : M A) : quiet m → keeps I X m.
Proof.
  intros Hq s HI. specialize (Hq s).
  destruct (m s) as [[a|e] s']; simpl in Hq.
  - apply (kept_by_outcome "" s (Ok tt) s' HI). by apply no_post.
  - apply (kept_by_outcome "" s (Raise e) s' HI). by apply no_post.
Qed.

Lemma keeps_ret {A} (a : A) : keeps I X (ret a).
Proof. apply keeps_quiet, quiet_ret. Qed.

Lemma keeps_bind {A B} (m : M A) (f : A → M B) :
  keeps I X m → (∀ a, keeps I X (f a)) → keeps I X (m ≫= f).
Proof.
  intros Hm Hf s HI. rewrite bind_run. specialize (Hm s HI).
  destruct (m s) as [[a|e] s']; [by apply Hf | done].
Qed.

Lemma keeps_alert_path (triggered : bool) (key : string)
    (build : R → AnomalyAlert) (insight : M string) :
  quiet insight → keeps I X (alert_path w self triggered key build insight).
Proof.
  intros Hq s HI.
  pose proof (alert_path_outcome w self triggered key build insight s Hq) as Ho.
  pose proof (kept_by_outcome key s _ _ HI Ho) as Hk.
  by destruct (alert_path w self triggered key build insight s) as [[[]|e] s'].
Qed.

Lemma keeps_for_each {A} (items : list A) (body : A → M unit) :
  (∀ x, keeps I X (body x)) → keeps I X (for_each items body).
Proof.
  intros Hb. induction items as [|x rest IH]; simpl.
  - apply keeps_ret.
  - apply keeps_bind; [apply Hb | by intros _].
Qed.

Lemma keeps_check_storage_space : keeps I X (check_storage_space w self).
Proof.
  unfold check_storage_space.
  apply keeps_bind; [apply keeps_quiet, quiet_get_metric_values | intros values].
  destruct (py_not values); [apply keeps_ret |].
  apply keeps_bind; [apply keeps_ret | intros [[is_anomaly zscore] range]].
  cbv zeta. apply keeps_alert_path, quiet_insight_for.
Qed.

Lemma keeps_check_request_rate : keeps I X (check_request_rate w self).
Proof.
  unfold check_request_rate.
  apply keeps_bind; [apply keeps_quiet, quiet_get_metric_values | intros values].
  destruct (py_not values); [apply keeps_ret |].
  apply keeps_bind; [apply keeps_ret | intros [is_roc roc]].
  apply keeps_bind; [apply keeps_ret | intros [[is_zscore zscore] expected]].
  cbv zeta. apply keeps_alert_path, quiet_insight_for.
Qed.

Lemma keeps_check_error_rate : keeps I X (check_error_rate w self).
Proof.
  unfold check_error_rate.
  apply keeps_bind; [apply keeps_quiet, quiet_get_metric_values | intros values].
  destruct (py_not values); [apply keeps_ret |].
  apply keeps_bind; [apply keeps_ret | intros [[is_anomaly zscore] expected]].
  cbv zeta. apply keeps_alert_path, quiet_insight_for.
Qed.

(** A signal of the network evaluator is an alert path without insight. *)
Lemma network_signal_alert_path (name : string) (values : list R) (s : mstate) :
  network_signal w self (name, values) s =
    alert_path w self
      (AnomalyDetector.zscore_anomaly values (zscore_threshold self)).1.1
      (network_key name)
      (λ now,
         {| metric_name := name +:+ " (bytes/sec)";
            current_value := py_last values / 1000000;
            expected_range :=
              ((AnomalyDetector.zscore_anomaly values (zscore_threshold self)).2.1 / 1000000,
               (AnomalyDetector.zscore_anomaly values (zscore_threshold self)).2.2 / 1000000);
            alert_severity :=
              if bool_decide
                   (4 < (AnomalyDetector.zscore_anomaly values (zscore_threshold self)).1.2)
              then high else medium;
            timestamp := now;
            context := None |})
      (ret "") s.
Proof.
  unfold network_signal, alert_path.
  by destruct (AnomalyDetector.zscore_anomaly values (zscore_threshold self))
    as [[is_anomaly zscore] expected].
Qed.

Lemma keeps_network_signal (signal : string * list R) :
  keeps I X (network_signal w self signal).
Proof.
  destruct signal as [name values]. intros s HI.
  rewrite network_signal_alert_path. by apply keeps_alert_path; [apply quiet_ret |].
Qed.

Lemma keeps_check_network_traffic : keeps I X (check_network_traffic w self).
Proof.
  unfold check_network_traffic.
  apply keeps_bind; [apply keeps_quiet, quiet_get_metric_values | intros send_values].
  apply keeps_bind; [apply keeps_quiet, quiet_get_metric_values | intros recv_values].
  destruct (py_not send_values || py_not recv_values); [apply keeps_ret |].
  apply keeps_for_each, keeps_network_signal.
Qed.

Lemma keeps_cycle : keeps I X (cycle w self).
Proof.
  unfold cycle.
  apply keeps_bind; [by apply keeps_quiet, quiet_emit | intros _].
  apply keeps_bind; [apply keeps_check_storage_space | intros _].
  apply keeps_bind; [apply keeps_check_request_rate | intros _].
  apply keeps_bind; [apply keeps_check_network_traffic | intros _].
  apply keeps_bind; [apply keeps_check_error_rate | intros _].
  apply keeps_quiet, quiet_time_sleep.
Qed.

Lemma keeps_while_true (fuel : nat) : keeps I X (while_true w self fuel).
Proof.
  induction fuel as [|fuel IH]; simpl.
  - apply keeps_ret.
  - apply keeps_bind; [apply keeps_cycle | by intros _].
Qed.

End keeping.

(** ** The cooldown between posts *)

Lemma clock_monotone_le (w : world) (n m : nat) :
  clock_monotone w → (n ≤ m)%nat → wall_clock w n <= wall_clock w m.
Proof.
  intros Hmono Hle. induction Hle as [|m _ IH]; [lra |].
  specialize (Hmono m). lra.
Qed.

Lemma quiet_not_send (Δ : list event) (i : nat) (k : string) (p : embed) (t : R) :
  Forall (λ e, quiet_event e = true) Δ → Δ !! i = Some (EvSend k p t) → False.
Proof.
  intros HΔ Hi. by apply (Forall_lookup_1 _ _ _ _ HΔ) in Hi.
Qed.

Lemma quiet_not_record (Δ : list event) (i : nat) (k : string) (t : R) :
  Forall (λ e, quiet_event e = true) Δ → Δ !! i = Some (EvRecord k t) → False.
Proof.
  intros HΔ Hi. by apply (Forall_lookup_1 _ _ _ _ HΔ) in Hi.
Qed.

(** Where a post can sit in a trace extended by one post. *)
Lemma send_in_extended (tr Δ1 Δ2 rest : list event) (key : string) (payload : embed)
    (T : R) (i : nat) (k : string) (p : embed) (t : R) :
  Forall (λ e, quiet_event e = true) Δ1 →
  Forall (λ e, quiet_event e = true) Δ2 →
  (∀ j, rest !! j ≠ Some (EvSend k p t)) →
  (tr ++ Δ1 ++ EvSend key payload T :: Δ2 ++ rest) !! i = Some (EvSend k p t) →
  ((i < length tr)%nat ∧ tr !! i = Some (EvSend k p t)) ∨
  (i = (length tr + length Δ1)%nat ∧ k = key ∧ p = payload ∧ t = T).
Proof.
  intros H1 H2 Hrest Hi.
  apply lookup_app_Some in Hi as [Hi | [Hle Hi]].
  { left. split; [by eapply lookup_lt_Some | done]. }
  apply lookup_app_Some in Hi as [Hi | [Hle1 Hi]].
  { by destruct (quiet_not_send _ _ _ _ _ H1 Hi). }
  destruct (i - length tr - length Δ1)%nat as [|j] eqn:Ej; simpl in Hi.
  { right. injection Hi as -> -> ->. split; [lia | done]. }
  apply lookup_app_Some in Hi as [Hi | [_ Hi]].
  - by destruct (quiet_not_send _ _ _ _ _ H2 Hi).
  - by destruct (Hrest _ Hi).
Qed.

Lemma separated_quiet_step (cooldown : R) (s s' : mstate) :
  separated cooldown (trace s) → quiet_step s s' → separated cooldown (trace s').
Proof.
  intros Hsep (_ & _ & Δ & -> & HΔ) i j k p1 p2 t1 t2 Hij Hi Hj.
  apply lookup_app_Some in Hi as [Hi | [_ Hi]];
    [| by destruct (quiet_not_send _ _ _ _ _ HΔ Hi)].
  apply lookup_app_Some in Hj as [Hj | [_ Hj]];
    [| by destruct (quiet_not_send _ _ _ _ _ HΔ Hj)].
  exact (Hsep i j k p1 p2 t1 t2 Hij Hi Hj).
Qed.

Lemma gate_inv_quiet_step (w : world) (cooldown : R) (s s' : mstate) :
  clock_monotone w → gate_inv w cooldown s → quiet_step s s' → gate_inv w cooldown s'.
Proof.
  intros Hmono (Hsep & Hstamp & Hclock) Hq.
  pose proof (separated_quiet_step _ _ _ Hsep Hq) as Hsep'.
  destruct Hq as (Hd & He & Δ & Ht & HΔ).
  split_and!; [done | |].
  - intros i k p t Hi. rewrite Ht in Hi.
    apply lookup_app_Some in Hi as [Hi | [_ Hi]];
      [| by destruct (quiet_not_send _ _ _ _ _ HΔ Hi)].
    rewrite Hd. by eapply Hstamp.
  - intros k r Hk. rewrite Hd in Hk. apply Hclock in Hk.
    pose proof (clock_monotone_le w _ _ Hmono He). lra.
Qed.

(** A post made after the gate has opened is far enough from the earlier
    posts for the same key. *)
Lemma separated_new_post (w : world) (cooldown : R) (key : string) (s : mstate)
    (na ns : nat) (payload : embed) (Δ1 Δ2 rest : list event) :
  clock_monotone w → gate_inv w cooldown s → (na < ns)%nat →
  cooldown < wall_clock w na - default 0 (alert_cooldown_dict s !! key) →
  Forall (λ e, quiet_event e = true) Δ1 →
  Forall (λ e, quiet_event e = true) Δ2 →
  (∀ j k p t, rest !! j ≠ Some (EvSend k p t)) →
  separated cooldown
    (trace s ++ Δ1 ++ EvSend key payload (wall_clock w ns) :: Δ2 ++ rest).
Proof.
  intros Hmono (Hsep & Hstamp & _) Hlt Hgate H1 H2 Hrest i j k p1 p2 t1 t2 Hij Hi Hj.
  pose proof (send_in_extended _ _ _ _ _ _ _ _ _ _ _ H1 H2
                (λ n, Hrest n k p1 t1) Hi) as [[Hi1 Hi'] | (-> & _ & _ & _)];
  pose proof (send_in_extended _ _ _ _ _ _ _ _ _ _ _ H1 H2
                (λ n, Hrest n k p2 t2) Hj) as [[Hj1 Hj'] | (-> & -> & _ & ->)];
  try lia.
  - exact (Hsep i j k p1 p2 t1 t2 Hij Hi' Hj').
  - destruct (Hstamp _ _ _ _ Hi') as (r & Hr & Htr).
    rewrite Hr in Hgate. simpl in Hgate.
    assert (wall_clock w na <= wall_clock w ns)
      by (apply clock_monotone_le; [done | lia]).
    lra.
Qed.

(** The gate invariant is kept by the three outcomes of the alert path. *)
Lemma gate_inv_kept (w : world) (cooldown : R) (key : string) (s : mstate)
    (r : result ()) (s' : mstate) :
  clock_monotone w → gate_inv w cooldown s → alert_outcome w cooldown key s r s' →
  match r with
  | Ok _ => gate_inv w cooldown s'
  | Raise _ => separated cooldown (trace s')
  end.
Proof.
  intros Hmono Hinv Ho. destruct Ho as
    [r s' Hq
    | na ns payload Δ1 Δ2 s' Hna Hns Hs' Hgate Hd Ht H1 H2
    | na ns nr payload Δ1 Δ2 s' Hna Hns Hnr Hs' Hgate Hd Ht H1 H2].
  - pose proof (gate_inv_quiet_step _ _ _ _ Hmono Hinv Hq) as Hinv'.
    destruct r; [done | apply Hinv'].
  - rewrite Ht. rewrite <-(app_nil_r Δ2).
    by apply (separated_new_post w cooldown key s na ns).
  - assert (Hsep' : separated cooldown (trace s')).
    { rewrite Ht. apply (separated_new_post w cooldown key s na ns); try done.
      intros [|j] k p t; [done | by destruct j]. }
    destruct Hinv as (Hsep & Hstamp & Hclock).
    assert (Hle1 : wall_clock w (effects s) <= wall_clock w nr)
      by (apply clock_monotone_le; [done | lia]).
    assert (Hle2 : wall_clock w ns <= wall_clock w nr)
      by (apply clock_monotone_le; [done | lia]).
    assert (Hle3 : wall_clock w nr <= wall_clock w (effects s'))
      by (apply clock_monotone_le; [done | lia]).
    split_and!; [done | |].
    + intros i k p t Hi. rewrite Ht in Hi. rewrite Hd.
      assert (Hrest : ∀ n, [EvRecord key (wall_clock w nr)] !! n ≠ Some (EvSend k p t)).
      { intros [|n]; [done | by destruct n]. }
      pose proof (send_in_extended _ _ _ _ _ _ _ _ _ _ _ H1 H2 Hrest Hi)
        as [[_ Hi'] | (_ & -> & _ & ->)].
      * destruct (Hstamp _ _ _ _ Hi') as (r & Hr & Htr).
        destruct (decide (k = key)) as [-> | Hne].
        -- exists (wall_clock w nr). rewrite lookup_insert_eq. split; [done |].
           apply Hclock in Hr. lra.
        -- exists r. by rewrite lookup_insert_ne.
      * exists (wall_clock w nr). by rewrite lookup_insert_eq.
    + intros k r Hk. rewrite Hd in Hk.
      destruct (decide (k = key)) as [-> | Hne].
      * rewrite lookup_insert_eq in Hk. injection Hk as <-. done.
      * rewrite lookup_insert_ne in Hk by done. apply Hclock in Hk. lra.
Qed.

Lemma gate_inv_start (w : world) (cooldown : R) (events : list event) :
  Forall (λ e, quiet_event e = true) events →
  gate_inv w cooldown (add_events events MinIOAnomalyMonitor.init_state).
Proof.
  intros Hq. split_and!.
  - intros i j k p1 p2 t1 t2 _ Hi _. simpl in Hi.
    by destruct (quiet_not_send _ _ _ _ _ Hq Hi).
  - intros i k p t Hi. simpl in Hi. by destruct (quiet_not_send _ _ _ _ _ Hq Hi).
  - intros k r Hk. simpl in Hk. by rewrite lookup_empty in Hk.
Qed.


(** ** The stamp after the post *)

Section stamping.

Context (w : world) (self : MinIOAnomalyMonitor.t).

Lemma stamps_quiet {A} (m : M A) : quiet m → stamps w m.
Proof. intros Hq s. right. by apply stamped_quiet. Qed.

Lemma stamps_bind {A B} (m : M A) (f : A → M B) :
  stamps w m → (∀ a, stamps w (f a)) → stamps w (m ≫= f).
Proof.
  intros Hm Hf s. rewrite bind_run. specialize (Hm s).
  destruct (m s) as [[a|e] s1]; simpl in *.
  - destruct Hm as [? | Hm]; [done |].
    destruct (Hf a s1) as [? | Hf1]; [by left | right].
    by eapply stamped_trans.
  - destruct Hm as [[= ->] | Hm]; [by left | by right].
Qed.

Lemma stamps_for_each {A} (items : list A) (body : A → M unit) :
  (∀ x, stamps w (body x)) → stamps w (for_each items body).
Proof.
  intros Hb. induction items as [|x rest IH]; simpl.
  - apply stamps_quiet, quiet_ret.
  - apply stamps_bind; [apply Hb | by intros _].
Qed.

(** The alert path either makes no post, or posts, logs what the post met
    and stamps the key with the next clock reading. *)
Lemma stamps_alert_path (triggered : bool) (key : string)
    (build : R → AnomalyAlert) (insight : M string) :
  quiet insight → stamps w (alert_path w self triggered key build insight).
Proof.
  intros Hq s. unfold alert_path, py_if, py_and. rewrite bind_run.
  destruct triggered; [| right; apply stamped_quiet, quiet_step_refl].
  rewrite can_alert_run.
  destruct (interrupt w (effects s)); [by left |].
  case_bool_decide as Hgate; [| right; apply stamped_quiet, quiet_step_tick].
  rewrite bind_run.
  pose proof (quiet_datetime_now w (tick s)) as Hq1.
  destruct (datetime_now w (tick s)) as [[now|e1] s2] eqn:E1; simpl in Hq1.
  2: { destruct e1 as [|e1]; [by left |]. right. apply stamped_quiet.
       eapply quiet_step_trans; [apply quiet_step_tick | done]. }
  assert (Hs2 : quiet_step s s2).
  { eapply quiet_step_trans; [apply quiet_step_tick | done]. }
  rewrite bind_run. pose proof (Hq s2) as Hq2.
  destruct (insight s2) as [[text|e2] s3]; simpl in Hq2.
  2: { destruct e2 as [|e2]; [by left |]. right. apply stamped_quiet.
       by eapply quiet_step_trans. }
  rewrite bind_run, send_alert_run.
  destruct (interrupt w (effects s3)); [by left |].
  set (payload := DiscordNotifier.make_embed (build now) text).
  assert (Hdone : stamped_run w s (posted_and_stamped w key payload s3)).
  { eapply stamped_trans; [| apply stamped_post].
    apply stamped_quiet. by eapply quiet_step_trans. }
  destruct (delivered (http w (effects s3))) eqn:Hd;
    rewrite record_alert_run; simpl;
    (destruct (interrupt w (S (effects s3))); [by left |]);
    right; simpl;
    (replace (Build_mstate _ _ _) with (posted_and_stamped w key payload s3);
     [exact Hdone |]);
    unfold posted_and_stamped; rewrite Hd; f_equal; by rewrite <-!app_assoc.
Qed.

Lemma stamps_check_storage_space :
  stamps w (MinIOAnomalyMonitor.check_storage_space w self).
Proof.
  unfold MinIOAnomalyMonitor.check_storage_space.
  apply stamps_bind; [apply stamps_quiet, quiet_get_metric_values | intros values].
  destruct (py_not values); [apply stamps_quiet, quiet_ret |].
  apply stamps_bind;
    [apply stamps_quiet, quiet_ret | intros [[is_anomaly zscore] range]].
  cbv zeta. apply stamps_alert_path, quiet_insight_for.
Qed.

Lemma stamps_check_request_rate :
  stamps w (MinIOAnomalyMonitor.check_request_rate w self).
Proof.
  unfold MinIOAnomalyMonitor.check_request_rate.
  apply stamps_bind; [apply stamps_quiet, quiet_get_metric_values | intros values].
  destruct (py_not values); [apply stamps_quiet, quiet_ret |].
  apply stamps_bind; [apply stamps_quiet, quiet_ret | intros [is_roc roc]].
  apply stamps_bind;
    [apply stamps_quiet, quiet_ret | intros [[is_zscore zscore] expected]].
  cbv zeta. apply stamps_alert_path, quiet_insight_for.
Qed.

Lemma stamps_check_error_rate :
  stamps w (MinIOAnomalyMonitor.check_error_rate w self).
Proof.
  unfold MinIOAnomalyMonitor.check_error_rate.
  apply stamps_bind; [apply stamps_quiet, quiet_get_metric_values | intros values].
  destruct (py_not values); [apply stamps_quiet, quiet_ret |].
  apply stamps_bind;
    [apply stamps_quiet, quiet_ret | intros [[is_anomaly zscore] expected]].
  cbv zeta. apply stamps_alert_path, quiet_insight_for.
Qed.

Lemma stamps_check_network_traffic :
  stamps w (MinIOAnomalyMonitor.check_network_traffic w self).
Proof.
  unfold MinIOAnomalyMonitor.check_network_traffic.
  apply stamps_bind;
    [apply stamps_quiet, quiet_get_metric_values | intros send_values].
  apply stamps_bind;
    [apply stamps_quiet, quiet_get_metric_values | intros recv_values].
  destruct (py_not send_values || py_not recv_values);
    [apply stamps_quiet, quiet_ret |].
  apply stamps_for_each. intros [name values] s.
  rewrite network_signal_alert_path. apply stamps_alert_path, quiet_ret.
Qed.

(** The gate of a key that has just been stamped stays closed for the
    cooldown. *)
Lemma stamped_key_is_gated (key : string) (payload : embed) (s0 s : mstate) :
  alert_cooldown_dict s !! key
    = alert_cooldown_dict (posted_and_stamped w key payload s0) !! key →
  interrupt w (effects s) = false →
  wall_clock w (effects s) - wall_clock w (S (effects s0))
    <= MinIOAnomalyMonitor.alert_cooldown self →
  (MinIOAnomalyMonitor._can_alert w self key s).1 = Ok false.
Proof.
  intros Hkey Hint Hnear. rewrite can_alert_run, Hint, Hkey. simpl.
  rewrite lookup_insert_eq. simpl. by rewrite bool_decide_eq_false_2 by lra.
Qed.

End stamping.

(** C7: a failure of the post never leaves [send_alert] as an exception:
    it is logged and turned into [False].  In each of the four evaluators
    every post is completed, whatever the post met (the world is
    arbitrary): its outcome is logged and its key is stamped in the
    cooldown dictionary with the reading of the clock taken right after
    the post, unless a [KeyboardInterrupt] ends the evaluator in between.
    That stamp closes the gate of the key: as long as it is the entry of
    the key, [_can_alert] refuses every request made no more than
    [alert_cooldown] after it. *)
Theorem failed_post_is_swallowed_and_stamped (w : world)
    (self : MinIOAnomalyMonitor.t) (s : mstate) :
  (∀ key alert insight,
     let out := DiscordNotifier.send_alert w key alert insight s in
     (∀ e, out.1 ≠ Raise (Exception e)) ∧
     (interrupt w (effects s) = false →
      out.1 = Ok (delivered (http w (effects s))) ∧
      (delivered (http w (effects s)) = false →
       last (trace out.2) = Some (EvLog ERROR "Failed to send Discord alert")))) ∧
  (∀ evaluator,
     evaluator ∈ [MinIOAnomalyMonitor.check_storage_space w self;
                  MinIOAnomalyMonitor.check_request_rate w self;
                  MinIOAnomalyMonitor.check_network_traffic w self;
                  MinIOAnomalyMonitor.check_error_rate w self] →
     (evaluator s).1 = Raise KeyboardInterrupt ∨ stamped_run w s (evaluator s).2) ∧
  (∀ key payload s0 s',
     alert_cooldown_dict s' !! key
       = alert_cooldown_dict (posted_and_stamped w key payload s0) !! key →
     interrupt w (effects s') = false →
     wall_clock w (effects s') - wall_clock w (S (effects s0))
       <= MinIOAnomalyMonitor.alert_cooldown self →
     (MinIOAnomalyMonitor._can_alert w self key s').1 = Ok false).
Proof.
  split_and!.
  - intros key alert insight out. subst out. rewrite send_alert_run.
    destruct (interrupt w (effects s)).
    + split; [done | done].
    + destruct (delivered (http w (effects s))); simpl.
      * split; [done |]. by intros _.
      * split; [done |]. intros _. split; [done |]. intros _.
        by rewrite last_snoc.
  - intros evaluator Hin. apply list_elem_of_In in Hin. simpl in Hin.
    destruct Hin as [<- | [<- | [<- | [<- | []]]]].
    + apply stamps_check_storage_space.
    + apply stamps_check_request_rate.
    + apply stamps_check_network_traffic.
    + apply stamps_check_error_rate.
  - intros key payload s0 s'. apply stamped_key_is_gated.
Qed.

(** ** A failed delivery, run through

    Prometheus reports a spike of the free space and Discord cannot be
    reached: the post is attempted, its failure is logged, and the cooldown
    of the key is stamped all the same. *)

Lemma np_mean_spike : np_mean spike = 1.
Proof. unfold np_mean, np_sum, spike. simpl. lra. Qed.

Lemma np_std_spike : np_std spike = 3.
Proof.
  unfold np_std. rewrite np_mean_spike. unfold np_mean, np_sum, spike. simpl.
  apply sqrt_lem_1; lra.
Qed.

Lemma zscore_anomaly_spike (t : R) :
  AnomalyDetector.zscore_anomaly spike t
    = (bool_decide (t < 3), 3, (1 - t * 3, 1 + t * 3)).
Proof.
  rewrite zscore_anomaly_main.
  - rewrite np_mean_spike, np_std_spike.
    replace (Rabs ((py_last spike - 1) / 3)) with 3; [done |].
    unfold py_last, spike. simpl. rewrite Rabs_pos_eq; lra.
  - unfold spike. simpl. lia.
  - rewrite np_std_spike. lra.
Qed.

Lemma fetch_spike :
  MinIOAnomalyMonitor.get_metric_values discord_down_world default_monitor
    "minio_disk_storage_bytes_free" MinIOAnomalyMonitor.init_state
  = (Ok spike,
     {| alert_cooldown_dict := ∅; effects := 2;
        trace := [EvQuery "minio_disk_storage_bytes_free" 24] |}).
Proof. reflexivity. Qed.

Lemma gate_open_in_2023 (w : world) (n : nat) (key : string) :
  wall_clock w = ticking_clock →
  bool_decide (MinIOAnomalyMonitor.alert_cooldown default_monitor
               < wall_clock w n - default 0 ((∅ : gmap string R) !! key)) = true.
Proof.
  intros ->. apply bool_decide_eq_true_2. rewrite lookup_empty. simpl.
  unfold ALERT_COOLDOWN, ticking_clock. pose proof (pos_INR n). lra.
Qed.

Lemma discord_down_still_stamps :
  ∃ payload,
    MinIOAnomalyMonitor.check_storage_space discord_down_world default_monitor
      MinIOAnomalyMonitor.init_state
    = (Ok tt,
       {| alert_cooldown_dict := {[ "storage_space" := ticking_clock 5 ]};
          effects := 6;
          trace := [EvQuery "minio_disk_storage_bytes_free" 24;
                    EvSend "storage_space" payload (ticking_clock 4);
                    EvLog ERROR "Failed to send Discord alert";
                    EvRecord "storage_space" (ticking_clock 5)] |}).
Proof.
  eexists. unfold MinIOAnomalyMonitor.check_storage_space.
  rewrite bind_run, fetch_spike. unfold py_not, spike at 1. fold spike.
  rewrite bind_run. unfold ret at 1. rewrite zscore_anomaly_spike.
  cbv beta iota zeta. unfold py_if, py_and. rewrite bind_run.
  assert (Hgate : bool_decide (ZSCORE_THRESHOLD < 3) = true).
  { apply bool_decide_eq_true_2. unfold ZSCORE_THRESHOLD. lra. }
  change (MinIOAnomalyMonitor.zscore_threshold default_monitor) with ZSCORE_THRESHOLD.
  rewrite Hgate. rewrite can_alert_run.
  cbn [effects alert_cooldown_dict trace tick add_events].
  rewrite gate_open_in_2023 by done.
  change (interrupt discord_down_world 2) with false. cbv iota.
  rewrite bind_run. unfold datetime_now at 1, effect at 1.
  cbn [effects alert_cooldown_dict trace tick add_events].
  change (interrupt discord_down_world 3) with false. cbv iota.
  rewrite bind_run. unfold MinIOAnomalyMonitor.insight_for at 1, ret at 1.
  change (MinIOAnomalyMonitor.openwebui default_monitor) with (@None OpenWebUIInsight.t).
  cbv beta iota.
  rewrite bind_run, send_alert_run.
  cbn [effects alert_cooldown_dict trace tick add_events].
  change (interrupt discord_down_world 4) with false.
  change (delivered (http discord_down_world 4)) with false. cbv iota.
  rewrite record_alert_run.
  cbn [effects alert_cooldown_dict trace tick add_events].
  change (interrupt discord_down_world 5) with false. cbv iota.
  reflexivity.
Qed.

(** ** Empty series *)

Lemma network_keys :
  MinIOAnomalyMonitor.network_key "Network Send" = "network_send" ∧
  MinIOAnomalyMonitor.network_key "Network Receive" = "network_receive".
Proof. split; reflexivity. Qed.

(** C8, as the code has it: an evaluator whose series comes back empty does
    nothing more than the fetch: no alert path, no post, no change of the
    cooldown dictionary.  The network evaluator fetches both series first
    and does nothing more when either of them is empty; when both have
    data, it runs the send signal and then the receive signal, each on its
    own series and under its own key, and a signal without anomaly is a
    no-op. *)
Theorem empty_series_skips_evaluator (w : world) (self : MinIOAnomalyMonitor.t)
    (s : mstate) :
  (∀ evaluator query,
     (evaluator, query) ∈
       [(MinIOAnomalyMonitor.check_storage_space w self, "minio_disk_storage_bytes_free");
        (MinIOAnomalyMonitor.check_request_rate w self,
         "rate(minio_gateway_requests_total[5m])");
        (MinIOAnomalyMonitor.check_error_rate w self,
         MinIOAnomalyMonitor.error_rate_query)] →
     (MinIOAnomalyMonitor.get_metric_values w self query s).1 = Ok [] →
     evaluator s = (Ok tt, (MinIOAnomalyMonitor.get_metric_values w self query s).2) ∧
     quiet_step s (evaluator s).2) ∧
  (∀ send_values recv_values s1 s2,
     MinIOAnomalyMonitor.get_metric_values w self
       "rate(minio_network_send_bytes_total[5m])" s = (Ok send_values, s1) →
     MinIOAnomalyMonitor.get_metric_values w self
       "rate(minio_network_receive_bytes_total[5m])" s1 = (Ok recv_values, s2) →
     quiet_step s s2 ∧
     (send_values = [] ∨ recv_values = [] →
      MinIOAnomalyMonitor.check_network_traffic w self s = (Ok tt, s2)) ∧
     (send_values ≠ [] → recv_values ≠ [] →
      MinIOAnomalyMonitor.check_network_traffic w self s
        = (MinIOAnomalyMonitor.network_signal w self ("Network Send", send_values);;
           MinIOAnomalyMonitor.network_signal w self ("Network Receive", recv_values);;
           ret tt) s2)) ∧
  (∀ name values s',
     (AnomalyDetector.zscore_anomaly values
        (MinIOAnomalyMonitor.zscore_threshold self)).1.1 = false →
     MinIOAnomalyMonitor.network_signal w self (name, values) s' = (Ok tt, s')) ∧
  MinIOAnomalyMonitor.network_key "Network Send"
    ≠ MinIOAnomalyMonitor.network_key "Network Receive".
Proof.
  split_and!.
  - intros evaluator query Hin Hempty.
    pose proof (quiet_get_metric_values w self query s) as Hq.
    assert (Heq : evaluator s
                  = (Ok tt, (MinIOAnomalyMonitor.get_metric_values w self query s).2)).
    { apply list_elem_of_In in Hin. simpl in Hin.
      destruct Hin as [[= <- <-] | [[= <- <-] | [[= <- <-] | []]]];
        [unfold MinIOAnomalyMonitor.check_storage_space
        |unfold MinIOAnomalyMonitor.check_request_rate
        |unfold MinIOAnomalyMonitor.check_error_rate];
        rewrite bind_run;
        match goal with
        | |- context [MinIOAnomalyMonitor.get_metric_values w self ?q s] =>
            destruct (MinIOAnomalyMonitor.get_metric_values w self q s) as [[values|e] s1]
        end; simpl in Hempty; by simplify_eq. }
    split; [done |]. by rewrite Heq.
  - intros send_values recv_values s1 s2 Hsend Hrecv.
    pose proof (quiet_get_metric_values w self
                  "rate(minio_network_send_bytes_total[5m])" s) as Hq1.
    pose proof (quiet_get_metric_values w self
                  "rate(minio_network_receive_bytes_total[5m])" s1) as Hq2.
    rewrite Hsend in Hq1. rewrite Hrecv in Hq2. simpl in Hq1, Hq2.
    split_and!.
    + by eapply quiet_step_trans.
    + intros Hempty. unfold MinIOAnomalyMonitor.check_network_traffic.
      rewrite bind_run, Hsend, bind_run, Hrecv.
      destruct Hempty as [-> | ->]; [done |]. by destruct send_values.
    + intros Hs Hr. unfold MinIOAnomalyMonitor.check_network_traffic.
      rewrite bind_run, Hsend, bind_run, Hrecv.
      destruct send_values; [done |]. by destruct recv_values.
  - intros name values s' Hno. rewrite network_signal_alert_path, Hno. done.
  - by destruct network_keys as [-> ->].
Qed.

Lemma fetch_send_outage :
  MinIOAnomalyMonitor.get_metric_values send_outage_world default_monitor
    "rate(minio_network_send_bytes_total[5m])" MinIOAnomalyMonitor.init_state
  = (Ok [],
     {| alert_cooldown_dict := ∅; effects := 2;
        trace := [EvQuery "rate(minio_network_send_bytes_total[5m])" 24] |}).
Proof. reflexivity. Qed.

Lemma fetch_receive_spike :
  MinIOAnomalyMonitor.get_metric_values send_outage_world default_monitor
    "rate(minio_network_receive_bytes_total[5m])"
    {| alert_cooldown_dict := ∅; effects := 2;
       trace := [EvQuery "rate(minio_network_send_bytes_total[5m])" 24] |}
  = (Ok spike,
     {| alert_cooldown_dict := ∅; effects := 4;
        trace := [EvQuery "rate(minio_network_send_bytes_total[5m])" 24;
                  EvQuery "rate(minio_network_receive_bytes_total[5m])" 24] |}).
Proof. reflexivity. Qed.

(** C8, as the claim words it, fails on its second part: Prometheus has no
    data for the bytes sent and reports a spike of the bytes received, an
    anomaly at the configured threshold, with the gate open.  The network
    evaluator only fetches the two series: it posts nothing and stamps
    nothing.  Run on its own from the same state, the receive signal posts
    the alert and stamps [network_receive]. *)
Lemma empty_send_silences_receive :
  let fetched :=
    {| alert_cooldown_dict := ∅; effects := 4;
       trace := [EvQuery "rate(minio_network_send_bytes_total[5m])" 24;
                 EvQuery "rate(minio_network_receive_bytes_total[5m])" 24] |} in
  (AnomalyDetector.zscore_anomaly spike
     (MinIOAnomalyMonitor.zscore_threshold default_monitor)).1.1 = true ∧
  MinIOAnomalyMonitor.check_network_traffic send_outage_world default_monitor
    MinIOAnomalyMonitor.init_state = (Ok tt, fetched) ∧
  ∃ payload,
    MinIOAnomalyMonitor.network_signal send_outage_world default_monitor
      ("Network Receive", spike) fetched
    = (Ok tt,
       {| alert_cooldown_dict := {[ "network_receive" := ticking_clock 7 ]};
          effects := 8;
          trace := [EvQuery "rate(minio_network_send_bytes_total[5m])" 24;
                    EvQuery "rate(minio_network_receive_bytes_total[5m])" 24;
                    EvSend "network_receive" payload (ticking_clock 6);
                    EvLog ERROR "Failed to send Discord alert";
                    EvRecord "network_receive" (ticking_clock 7)] |}).
Proof.
  assert (Hgate : bool_decide (ZSCORE_THRESHOLD < 3) = true).
  { apply bool_decide_eq_true_2. unfold ZSCORE_THRESHOLD. lra. }
  cbv zeta. split_and!.
  - rewrite zscore_anomaly_spike. exact Hgate.
  - unfold MinIOAnomalyMonitor.check_network_traffic.
    by rewrite bind_run, fetch_send_outage, bind_run, fetch_receive_spike.
  - eexists. rewrite network_signal_alert_path, zscore_anomaly_spike.
    change (MinIOAnomalyMonitor.zscore_threshold default_monitor) with ZSCORE_THRESHOLD.
    cbn [fst snd]. rewrite Hgate.
    unfold alert_path, py_if, py_and. rewrite bind_run, can_alert_run.
    cbn [effects alert_cooldown_dict trace tick add_events].
    rewrite gate_open_in_2023 by done.
    change (interrupt send_outage_world 4) with false. cbv iota.
    rewrite bind_run. unfold datetime_now at 1, effect at 1.
    cbn [effects alert_cooldown_dict trace tick add_events].
    change (interrupt send_outage_world 5) with false. cbv iota.
    rewrite bind_run. unfold ret at 1.
    rewrite bind_run, send_alert_run.
    cbn [effects alert_cooldown_dict trace tick add_events].
    change (interrupt send_outage_world 6) with false.
    change (delivered (http send_outage_world 6)) with false. cbv iota.
    rewrite record_alert_run.
    cbn [effects alert_cooldown_dict trace tick add_events].
    change (interrupt send_outage_world 7) with false. cbv iota.
    reflexivity.
Qed.

(** ** The main loop and a failing cycle *)

(** A series without [values] makes [get_metric_values] raise [KeyError]:
    [query_range] has returned and its [try] no longer protects the
    subscript. *)
Lemma histogram_series_raises :
  (MinIOAnomalyMonitor.get_metric_values histogram_world default_monitor
     "minio_disk_storage_bytes_free" MinIOAnomalyMonitor.init_state).1
  = Raise (Exception KeyError).
Proof. reflexivity. Qed.

(** A cycle that raises leaves the loop for good: whatever the number of
    cycles the loop could still run, the handler of [run] logs the error,
    sleeps once and [run] returns. *)
Lemma exception_leaves_the_loop (w : world) (self : MinIOAnomalyMonitor.t)
    (fuel : nat) (s s1 : mstate) (e : exception) :
  sleep_accepted (MinIOAnomalyMonitor.check_interval self) →
  MinIOAnomalyMonitor.cycle w self
    (add_events [EvLog INFO "Starting monitoring loop"] s) = (Raise (Exception e), s1) →
  interrupt w (effects s1) = false →
  MinIOAnomalyMonitor.run w self (S fuel) s
  = (Ok MinIOAnomalyMonitor.Returned,
     tick (add_events [EvLog ERROR "Unexpected error";
                       EvSleep (MinIOAnomalyMonitor.check_interval self)] s1)).
Proof.
  intros Hsleep Hcycle Hint. unfold MinIOAnomalyMonitor.run.
  rewrite bind_run. unfold emit at 1. unfold try_except_interrupt.
  rewrite bind_run. simpl MinIOAnomalyMonitor.while_true.
  rewrite bind_run, Hcycle.
  rewrite bind_run. unfold emit at 1. rewrite bind_run.
  rewrite time_sleep_accepted by done.
  unfold effect. simpl. rewrite Hint. unfold ret. simpl.
  do 2 f_equal. unfold tick, add_events. simpl. by rewrite <-app_assoc.
Qed.

(** C2: the code does not do what the claim says.  The first query of the
    first cycle is answered by a series without [values]; the [KeyError]
    reaches the handler of [run], which sits outside [while True]: the
    error is logged, one interval is slept, and [run] returns.  However many
    cycles the loop is given, only one is ever started. *)
Theorem failed_cycle_ends_run (fuel : nat) :
  MinIOAnomalyMonitor.run histogram_world default_monitor (S fuel)
    MinIOAnomalyMonitor.init_state
  = (Ok MinIOAnomalyMonitor.Returned,
     {| alert_cooldown_dict := ∅;
        effects := 3;
        trace := [EvLog INFO "Starting monitoring loop";
                  EvLog INFO "Running anomaly checks...";
                  EvQuery "minio_disk_storage_bytes_free" 24;
                  EvLog ERROR "Unexpected error";
                  EvSleep CHECK_INTERVAL] |}).
Proof.
  rewrite (exception_leaves_the_loop histogram_world default_monitor fuel
             MinIOAnomalyMonitor.init_state
             {| alert_cooldown_dict := ∅; effects := 2;
                trace := [EvLog INFO "Starting monitoring loop";
                          EvLog INFO "Running anomaly checks...";
                          EvQuery "minio_disk_storage_bytes_free" 24] |}
             KeyError); try reflexivity.
  split; simpl; unfold CHECK_INTERVAL, SLEEP_MAX; lra.
Qed.

(** * Further properties of the code *)

(** ** History *)

(** X4: [rate_of_change_anomaly] forgets everything but the last ten
    samples: whatever history comes before them, the result is that of the
    ten samples alone. *)
Theorem rate_of_change_last_ten (history recent : list R) (t : R) :
  length recent = 10%nat →
  AnomalyDetector.rate_of_change_anomaly (history ++ recent) t
  = AnomalyDetector.rate_of_change_anomaly recent t.
Proof.
  intros Hlen. unfold AnomalyDetector.rate_of_change_anomaly.
  rewrite length_app, Hlen.
  rewrite !(bool_decide_eq_false_2 (_ < 2)%nat) by lia.
  rewrite !(bool_decide_eq_true_2 (10 ≤ _)%nat) by lia.
  unfold py_suffix. rewrite length_app, Hlen.
  replace (length history + 10 - 10)%nat with (length history) by lia.
  rewrite drop_app_length. by replace (10 - 10)%nat with 0%nat by lia.
Qed.

Lemma rate_of_change_last_ten_witness :
  AnomalyDetector.rate_of_change_anomaly ([7; 7; 7] ++ spike) 100
  = AnomalyDetector.rate_of_change_anomaly spike 100.
Proof. apply (rate_of_change_last_ten [7; 7; 7] spike 100). reflexivity. Defined.

(** ** PrometheusConnector *)

Lemma reply_result_truthy (o : http_outcome) (res : json) :
  reply_result o = Some res → PyJson.truthy res = true.
Proof.
  unfold reply_result. intros H.
  repeat case_match; simplify_eq; done.
Qed.

(** What [query_range] returns, effect by effect. *)
Lemma query_range_run (w : world) (query : string) (hours : nat) (s : mstate) :
  (PrometheusConnector.query_range w query hours s).1 =
    if interrupt w (effects s) || interrupt w (S (effects s))
    then Raise KeyboardInterrupt
    else Ok (default (JArr []) (reply_result (http w (S (effects s))))).
Proof.
  unfold PrometheusConnector.query_range, try_except, datetime_now, requests_call.
  rewrite !bind_run. unfold effect at 1.
  destruct (interrupt w (effects s)); [done |]. simpl orb.
  rewrite !bind_run. unfold effect. simpl effects.
  destruct (interrupt w (S (effects s))); [done |].
  unfold reply_result.
  destruct (http w (S (effects s))) as [| |r]; [done | done |].
  unfold ret at 1. cbv beta iota. rewrite bind_run. unfold raise_for_status.
  case_bool_decide; [done |].
  unfold ret at 1. cbv beta iota. unfold response_json. rewrite bind_run.
  destruct (json_body r) as [data|]; [| done].
  unfold mbind, M_bind, bind, lift, ret, emit.
  destruct (PyJson.getitem_str data "status") as [status|e]; [| done].
  destruct (PyJson.eq_str status "success"); [| done].
  destruct (PyJson.getitem_str data "data") as [d|e]; [| done].
  destruct (PyJson.getitem_str d "result") as [res|e]; [| done].
  by destruct (PyJson.truthy res).
Qed.


(** What [query_instant] returns, effect by effect. *)
Lemma query_instant_run (w : world) (query : string) (s : mstate) :
  (PrometheusConnector.query_instant w query s).1 =
    if interrupt w (effects s) then Raise KeyboardInterrupt
    else Ok match reply_result (http w (effects s)) with
            | Some res =>
                match instant_value w res with
                | Ok x => x
                | Raise _ => 0
                end
            | None => 0
            end.
Proof.
  unfold PrometheusConnector.query_instant, try_except, requests_call.
  rewrite !bind_run. unfold effect.
  destruct (interrupt w (effects s)); [done |].
  unfold reply_result.
  destruct (http w (effects s)) as [| |r]; [done | done |].
  unfold ret at 1. cbv beta iota. rewrite bind_run. unfold raise_for_status.
  case_bool_decide; [done |].
  unfold ret at 1. cbv beta iota. unfold response_json. rewrite bind_run.
  destruct (json_body r) as [data|]; [| done].
  unfold mbind, M_bind, bind, lift, ret, emit, instant_value.
  destruct (PyJson.getitem_str data "status") as [status|e]; [| done].
  destruct (PyJson.eq_str status "success"); [| done].
  destruct (PyJson.getitem_str data "data") as [d|e]; [| done].
  destruct (PyJson.getitem_str d "result") as [res|e]; [| done].
  destruct (PyJson.truthy res); [| done].
  destruct (PyJson.getitem_int res 0) as [first|e]; [| done].
  destruct (PyJson.getitem_str first "value") as [sample|e]; [| done].
  destruct (PyJson.getitem_int sample 1) as [x|e]; [| done].
  by destruct (py_float w x).
Qed.

Lemma quiet_query_instant (w : world) (query : string) :
  quiet (PrometheusConnector.query_instant w query).
Proof.
  unfold PrometheusConnector.query_instant, raise_for_status, response_json.
  apply quiet_try_except; [| intros ?; solve_quiet].
  apply quiet_bind; [apply quiet_requests_call; intros ?; by repeat constructor | intros ?].
  solve_quiet.
Qed.

(** X7: [query_instant] never lets an exception out and falls back on 0.0:
    short of a [KeyboardInterrupt] it returns the value of the first sample
    of an accepted reply, and 0.0 when the request fails, the reply is not
    accepted, or the first sample cannot be read as a float. *)
Theorem query_instant_falls_back_on_zero (w : world) (query : string) (s : mstate) :
  let out := PrometheusConnector.query_instant w query s in
  (∀ e, out.1 ≠ Raise (Exception e)) ∧
  quiet_step s out.2 ∧
  out.1 = (if interrupt w (effects s) then Raise KeyboardInterrupt
           else Ok match reply_result (http w (effects s)) with
                   | Some res =>
                       match instant_value w res with
                       | Ok x => x
                       | Raise _ => 0
                       end
                   | None => 0
                   end).
Proof.
  intros out. subst out.
  pose proof (query_instant_run w query s) as Hrun.
  split_and!; [| apply quiet_query_instant | done].
  intros e. rewrite Hrun. by destruct (interrupt w (effects s)).
Qed.

(** ** The fetch of a series *)

Lemma samples_length (w : world) (items : list json) (vs : list R) :
  MinIOAnomalyMonitor.samples w items = Ok vs → length vs = length items.
Proof.
  revert vs. induction items as [|v items IH]; intros vs; simpl.
  - by intros [= <-].
  - destruct (PyJson.getitem_int v 1) as [x|]; [| done].
    destruct (py_float w x) as [r|]; [| done].
    destruct (MinIOAnomalyMonitor.samples w items) as [rs|]; [| done].
    intros [= <-]. simpl. f_equal. by apply IH.
Qed.

(** [get_metric_values] in terms of what [query_range] returned. *)
Lemma get_metric_values_run (w : world) (self : MinIOAnomalyMonitor.t)
    (query : string) (s : mstate) :
  MinIOAnomalyMonitor.get_metric_values w self query s =
    match PrometheusConnector.query_range w query
            (MinIOAnomalyMonitor.history_hours self) s with
    | (Ok results, s1) =>
        (if negb (PyJson.truthy results) then Ok []
         else match PyJson.getitem_int results 0 with
              | Ok first =>
                  match series_values w first with
                  | Ok vs => Ok vs
                  | Raise e => Raise (Exception e)
                  end
              | Raise e => Raise (Exception e)
              end, s1)
    | (Raise e, s1) => (Raise e, s1)
    end.
Proof.
  unfold MinIOAnomalyMonitor.get_metric_values. rewrite bind_run.
  destruct (PrometheusConnector.query_range w query _ s) as [[results|e] s1]; [| done].
  destruct (negb (PyJson.truthy results)); [done |].
  unfold mbind, M_bind, bind, lift, series_values.
  destruct (PyJson.getitem_int results 0) as [first|e]; [| done].
  destruct (PyJson.getitem_str first "values") as [vs|e]; [| done].
  destruct (PyJson.iter vs) as [items|e]; [| done].
  by destruct (MinIOAnomalyMonitor.samples w items).
Qed.

(** X8: [get_metric_values] reads the first series of the result and no
    other: whatever series follow it, the values (or the exception) are
    those of the first one, one value per sample. *)
Theorem get_metric_values_first_series (w : world) (self : MinIOAnomalyMonitor.t)
    (query : string) (s s1 : mstate) (first : json) (others : list json) :
  PrometheusConnector.query_range w query (MinIOAnomalyMonitor.history_hours self) s
    = (Ok (JArr (first :: others)), s1) →
  MinIOAnomalyMonitor.get_metric_values w self query s
    = (match series_values w first with
       | Ok vs => Ok vs
       | Raise e => Raise (Exception e)
       end, s1) ∧
  (∀ items vs, PyJson.getitem_str first "values" = Ok (JArr items) →
     series_values w first = Ok vs → length vs = length items).
Proof.
  intros Hq. split.
  - by rewrite get_metric_values_run, Hq.
  - intros items vs Hitems. unfold series_values. rewrite Hitems. simpl.
    apply samples_length.
Qed.

Lemma get_metric_values_first_series_witness :
  let first := JObj [("metric", JObj []);
                     ("values", JArr ((λ x, JArr [JNum 0; JNum x]) <$> spike))] in
  MinIOAnomalyMonitor.get_metric_values discord_down_world default_monitor
    "minio_disk_storage_bytes_free" MinIOAnomalyMonitor.init_state
    = (match series_values discord_down_world first with
       | Ok vs => Ok vs
       | Raise e => Raise (Exception e)
       end,
       {| alert_cooldown_dict := ∅; effects := 2;
          trace := [EvQuery "minio_disk_storage_bytes_free" 24] |}) ∧
  (∀ items vs, PyJson.getitem_str first "values" = Ok (JArr items) →
     series_values discord_down_world first = Ok vs → length vs = length items).
Proof.
  apply (get_metric_values_first_series discord_down_world default_monitor
           "minio_disk_storage_bytes_free" MinIOAnomalyMonitor.init_state _ _ []).
  reflexivity.
Defined.

(** X9: when the request to Prometheus fails or its reply is not accepted,
    [get_metric_values] returns the empty series and raises nothing. *)
Theorem get_metric_values_empty_on_failure (w : world) (self : MinIOAnomalyMonitor.t)
    (query : string) (s : mstate) :
  interrupt w (effects s) = false → interrupt w (S (effects s)) = false →
  reply_result (http w (S (effects s))) = None →
  (MinIOAnomalyMonitor.get_metric_values w self query s).1 = Ok [] ∧
  quiet_step s (MinIOAnomalyMonitor.get_metric_values w self query s).2.
Proof.
  intros Hi0 Hi1 Hreply. split; [| apply quiet_get_metric_values].
  rewrite get_metric_values_run.
  pose proof (query_range_run w query (MinIOAnomalyMonitor.history_hours self) s) as Hrun.
  rewrite Hi0, Hi1, Hreply in Hrun. simpl in Hrun.
  destruct (PrometheusConnector.query_range w query _ s) as [r s1].
  simpl in Hrun. by subst r.
Qed.

Lemma get_metric_values_empty_on_failure_witness :
  (MinIOAnomalyMonitor.get_metric_values (scripted_world ticking_clock [])
     default_monitor "minio_disk_storage_bytes_free"
     MinIOAnomalyMonitor.init_state).1 = Ok [] ∧
  quiet_step MinIOAnomalyMonitor.init_state
    (MinIOAnomalyMonitor.get_metric_values (scripted_world ticking_clock [])
       default_monitor "minio_disk_storage_bytes_free"
       MinIOAnomalyMonitor.init_state).2.
Proof.
  apply (get_metric_values_empty_on_failure (scripted_world ticking_clock [])
           default_monitor "minio_disk_storage_bytes_free"
           MinIOAnomalyMonitor.init_state); reflexivity.
Defined.

(** ** Stripped strings *)

Lemma list_of_string_of_list (cs : list ascii) :
  String.list_ascii_of_string (String.string_of_list_ascii cs) = cs.
Proof. induction cs as [|c cs IH]; simpl; [done | by rewrite IH]. Qed.

Lemma lstrip_chars_head (cs : list ascii) :
  PyStr.lstrip_chars cs = [] ∨
  ∃ c rest, PyStr.lstrip_chars cs = c :: rest ∧ PyStr.isspace c = false.
Proof.
  induction cs as [|c cs IH]; simpl; [by left |].
  destruct (PyStr.isspace c) eqn:E; [done | right; eauto].
Qed.

Lemma lstrip_chars_snoc (cs : list ascii) (c : ascii) :
  PyStr.isspace c = false →
  PyStr.lstrip_chars (cs ++ [c]) = PyStr.lstrip_chars cs ++ [c].
Proof.
  intros Hc. induction cs as [|x cs IH]; simpl.
  - by rewrite Hc.
  - by destruct (PyStr.isspace x).
Qed.

(** A stripped string is empty or starts with a character that is not
    white space. *)
Lemma strip_head (s : string) :
  PyStr.strip s = "" ∨
  ∃ c rest, PyStr.strip s = String c rest ∧ PyStr.isspace c = false.
Proof.
  unfold PyStr.strip.
  destruct (lstrip_chars_head (String.list_ascii_of_string s))
    as [-> | (c & rest & -> & Hc)]; [by left | right].
  rewrite reverse_cons, lstrip_chars_snoc, reverse_snoc by done.
  simpl. eauto.
Qed.

Lemma prefix_head (n : nat) (c : ascii) (rest : string) :
  PyStr.prefix (S n) (String c rest) = String c (PyStr.prefix n rest).
Proof. reflexivity. Qed.

(** X10: the insight that [generate_context] returns is empty or starts
    with a character that is not white space: it is never blank text. *)
Theorem insight_is_never_blank (w : world) (self : OpenWebUIInsight.t)
    (metric : string) (current expected change : R) (s : mstate) (text : string) :
  (OpenWebUIInsight.generate_context w self metric current expected change s).1
    = Ok text →
  text = "" ∨ ∃ c rest, text = String c rest ∧ PyStr.isspace c = false.
Proof.
  pose proof (generate_context_run w self metric current expected change s) as Hrun.
  cbv zeta in Hrun. intros Htext. rewrite Htext in Hrun.
  destruct (interrupt w (effects s)); [done |].
  injection Hrun as ->.
  destruct (completion_text (http w (effects s))) as [c|]; [| by left].
  destruct (strip_head c) as [-> | (x & rest & -> & Hx)]; [by left | right].
  rewrite prefix_head. eauto.
Qed.

Lemma insight_is_never_blank_witness :
  "Disk is filling up." = "" ∨
  ∃ c rest, "Disk is filling up." = String c rest ∧ PyStr.isspace c = false.
Proof.
  apply (insight_is_never_blank
           (scripted_world ticking_clock [openwebui_reply "  Disk is filling up.  "])
           (OpenWebUIInsight.init "https://ai.example/" "sk-1" "llama2")
           "minio_disk_storage_bytes_free" 1 2 3 MinIOAnomalyMonitor.init_state).
  reflexivity.
Defined.

(** ** Addresses *)

Lemma lstrip_char_head (c : ascii) (cs : list ascii) :
  head (PyStr.lstrip_char c cs) ≠ Some c.
Proof.
  induction cs as [|x cs IH]; simpl; [done |].
  case_bool_decide as Hx; [done |]. simpl. congruence.
Qed.

Lemma lstrip_char_removed (c : ascii) (cs : list ascii) :
  ∃ n, cs = replicate n c ++ PyStr.lstrip_char c cs.
Proof.
  induction cs as [|x cs [n IH]]; simpl; [by exists 0%nat |].
  case_bool_decide as Hx; [| by exists 0%nat].
  subst x. exists (S n). simpl. by f_equal.
Qed.

Lemma rstrip_chars (c : ascii) (s : string) :
  let stripped := String.list_ascii_of_string (PyStr.rstrip c s) in
  last stripped ≠ Some c ∧
  ∃ n, String.list_ascii_of_string s = stripped ++ replicate n c.
Proof.
  intros stripped. subst stripped. unfold PyStr.rstrip.
  rewrite list_of_string_of_list.
  set (cs := String.list_ascii_of_string s). split.
  - rewrite last_reverse. apply lstrip_char_head.
  - destruct (lstrip_char_removed c (reverse cs)) as [n Hn].
    exists n. rewrite <-(reverse_involutive cs) at 1. rewrite Hn at 1.
    by rewrite reverse_app, reverse_replicate.
Qed.

(** X11: the addresses kept by [PrometheusConnector] and by
    [OpenWebUIInsight] never end with a slash: they are the address given,
    less the slashes at its end, so that the path appended to them starts
    with the only slash at the joint. *)
Theorem base_urls_have_no_trailing_slash (url api_key model : string) :
  let prom := String.list_ascii_of_string (PrometheusConnector.init url) in
  let webui :=
    String.list_ascii_of_string
      (OpenWebUIInsight.base_url (OpenWebUIInsight.init url api_key model)) in
  last prom ≠ Some "/"%char ∧
  (∃ n, String.list_ascii_of_string url = prom ++ replicate n "/"%char) ∧
  webui = prom.
Proof.
  intros prom webui.
  destruct (rstrip_chars "/" url) as [H1 H2]. by split_and!.
Qed.

(** ** What an evaluator does with a series *)

Section evaluator_facts.

Import MinIOAnomalyMonitor.
Context (w : world) (self : MinIOAnomalyMonitor.t).

Lemma alert_path_idle (key : string) (build : R → AnomalyAlert)
    (insight : M string) (s : mstate) :
  alert_path w self false key build insight s = (Ok tt, s).
Proof. reflexivity. Qed.

Lemma alert_path_closed (key : string) (build : R → AnomalyAlert)
    (insight : M string) (s : mstate) (last : R) :
  interrupt w (effects s) = false →
  alert_cooldown_dict s !! key = Some last →
  wall_clock w (effects s) - last <= alert_cooldown self →
  alert_path w self true key build insight s = (Ok tt, tick s).
Proof.
  intros Hi Hlast Hclosed. unfold alert_path, py_if, py_and.
  rewrite bind_run, can_alert_run, Hi, Hlast. simpl.
  rewrite bool_decide_eq_false_2 by lra. done.
Qed.

Lemma alert_path_fires (key : string) (build : R → AnomalyAlert)
    (insight : M string) (s s3 : mstate) (text : string) :
  interrupt w (effects s) = false →
  alert_cooldown self
    < wall_clock w (effects s) - default 0 (alert_cooldown_dict s !! key) →
  interrupt w (S (effects s)) = false →
  insight (tick (tick s)) = (Ok text, s3) →
  interrupt w (effects s3) = false →
  interrupt w (S (effects s3)) = false →
  alert_path w self true key build insight s
  = (Ok tt,
     {| alert_cooldown_dict :=
          <[key := wall_clock w (S (effects s3))]> (alert_cooldown_dict s3);
        effects := S (S (effects s3));
        trace := trace s3 ++
          [EvSend key
             (DiscordNotifier.make_embed (build (wall_clock w (S (effects s)))) text)
             (wall_clock w (effects s3));
           (if delivered (http w (effects s3))
            then EvLog INFO "Alert sent to Discord"
            else EvLog ERROR "Failed to send Discord alert");
           EvRecord key (wall_clock w (S (effects s3)))] |}).
Proof.
  intros Hi0 Hopen Hi1 Hins Hi2 Hi3. unfold alert_path, py_if, py_and.
  rewrite bind_run, can_alert_run, Hi0.
  rewrite bool_decide_eq_true_2 by done.
  rewrite bind_run. unfold datetime_now at 1, effect at 1.
  simpl effects. rewrite Hi1, add_events_nil.
  rewrite bind_run, Hins, bind_run, send_alert_run, Hi2.
  destruct (delivered (http w (effects s3)));
    rewrite record_alert_run; simpl; rewrite Hi3;
    by rewrite <-!app_assoc.
Qed.

Lemma check_storage_space_alert_path (s s1 : mstate) (values : list R) :
  get_metric_values w self "minio_disk_storage_bytes_free" s = (Ok values, s1) →
  values ≠ [] →
  ∃ build insight, quiet insight ∧
    check_storage_space w self s
    = alert_path w self
        (AnomalyDetector.zscore_anomaly values (zscore_threshold self)).1.1
        "storage_space" build insight s1.
Proof.
  intros Hfetch Hne. unfold check_storage_space. rewrite bind_run, Hfetch.
  destruct values as [|v values]; [done |]. cbn [py_not].
  rewrite bind_run. unfold ret at 1.
  destruct (AnomalyDetector.zscore_anomaly (v :: values) (zscore_threshold self))
    as [[is_anomaly zscore] range].
  eexists _, _. split; cycle 1.
  - unfold alert_path. cbv zeta. reflexivity.
  - apply quiet_insight_for.
Qed.

Lemma check_request_rate_alert_path (s s1 : mstate) (values : list R) :
  get_metric_values w self "rate(minio_gateway_requests_total[5m])" s = (Ok values, s1) →
  values ≠ [] →
  ∃ build insight, quiet insight ∧
    check_request_rate w self s
    = alert_path w self
        ((AnomalyDetector.rate_of_change_anomaly values (roc_threshold self)).1
         || (AnomalyDetector.zscore_anomaly values 2).1.1)
        "request_rate" build insight s1.
Proof.
  intros Hfetch Hne. unfold check_request_rate. rewrite bind_run, Hfetch.
  destruct values as [|v values]; [done |]. cbn [py_not].
  rewrite bind_run. unfold ret at 1.
  destruct (AnomalyDetector.rate_of_change_anomaly (v :: values) (roc_threshold self))
    as [is_roc roc].
  rewrite bind_run. unfold ret at 1.
  destruct (AnomalyDetector.zscore_anomaly (v :: values) 2)
    as [[is_zscore zscore] expected].
  eexists _, _. split; cycle 1.
  - unfold alert_path. cbv zeta. reflexivity.
  - apply quiet_insight_for.
Qed.

Lemma check_error_rate_alert_path (s s1 : mstate) (values : list R) :
  get_metric_values w self MinIOAnomalyMonitor.error_rate_query s
    = (Ok values, s1) →
  values ≠ [] →
  ∃ build insight, quiet insight ∧
    check_error_rate w self s
    = alert_path w self (AnomalyDetector.zscore_anomaly values 2).1.1
        "error_rate" build insight s1.
Proof.
  intros Hfetch Hne. unfold check_error_rate. rewrite bind_run, Hfetch.
  destruct values as [|v values]; [done |]. cbn [py_not].
  rewrite bind_run. unfold ret at 1.
  destruct (AnomalyDetector.zscore_anomaly (v :: values) 2)
    as [[is_anomaly zscore] expected].
  eexists _, _. split; cycle 1.
  - unfold alert_path. cbv zeta. reflexivity.
  - apply quiet_insight_for.
Qed.

Lemma evaluator_on_empty (evaluator : M unit) (query : string) (s s1 : mstate) :
  (evaluator, query) ∈
    [(check_storage_space w self, "minio_disk_storage_bytes_free");
     (check_request_rate w self, "rate(minio_gateway_requests_total[5m])");
     (check_error_rate w self, MinIOAnomalyMonitor.error_rate_query)] →
  get_metric_values w self query s = (Ok [], s1) →
  evaluator s = (Ok tt, s1).
Proof.
  intros Hin Hfetch. apply list_elem_of_In in Hin. simpl in Hin.
  destruct Hin as [[= <- <-] | [[= <- <-] | [[= <- <-] | []]]];
    [unfold check_storage_space | unfold check_request_rate | unfold check_error_rate];
    by rewrite bind_run, Hfetch.
Qed.

(** The three evaluators of one series as alert paths. *)
Lemma evaluator_alert_path (evaluator : M unit) (query key : string)
    (detects : list R → bool) (s s1 : mstate) (values : list R) :
  (evaluator, query, key, detects) ∈ series_evaluators w self →
  get_metric_values w self query s = (Ok values, s1) →
  values ≠ [] →
  ∃ build insight, quiet insight ∧
    evaluator s = alert_path w self (detects values) key build insight s1.
Proof.
  intros Hin Hfetch Hne. apply list_elem_of_In in Hin. simpl in Hin.
  destruct Hin as [[= <- <- <- <-] | [[= <- <- <- <-] | [[= <- <- <- <-] | []]]].
  - by apply check_storage_space_alert_path.
  - by apply check_request_rate_alert_path.
  - by apply check_error_rate_alert_path.
Qed.

(** Nothing is detected on an empty series. *)
Lemma nothing_detected_on_empty (evaluator : M unit) (query key : string)
    (detects : list R → bool) :
  (evaluator, query, key, detects) ∈ series_evaluators w self →
  detects [] = false.
Proof.
  intros Hin. apply list_elem_of_In in Hin. simpl in Hin.
  by destruct Hin as [[= <- <- <- <-] | [[= <- <- <- <-] | [[= <- <- <- <-] | []]]].
Qed.

Lemma series_evaluator_on_empty (evaluator : M unit) (query key : string)
    (detects : list R → bool) (s s1 : mstate) :
  (evaluator, query, key, detects) ∈ series_evaluators w self →
  get_metric_values w self query s = (Ok [], s1) →
  evaluator s = (Ok tt, s1).
Proof.
  intros Hin. apply evaluator_on_empty.
  apply list_elem_of_In in Hin. simpl in Hin. apply list_elem_of_In. simpl.
  destruct Hin as [[= <- <- <- <-] | [[= <- <- <- <-] | [[= <- <- <- <-] | []]]]; auto.
Qed.

End evaluator_facts.

(** ** Evaluators: when nothing is posted *)

(** X12: an evaluator of a single series whose detectors find nothing in
    the fetched series stops there: it returns normally in the state that
    the fetch left, without reading the clock, asking for an insight,
    posting or stamping. *)
Theorem evaluator_idle_without_anomaly (w : world) (self : MinIOAnomalyMonitor.t)
    (evaluator : M unit) (query key : string) (detects : list R → bool)
    (s s1 : mstate) (values : list R) :
  (evaluator, query, key, detects) ∈ series_evaluators w self →
  MinIOAnomalyMonitor.get_metric_values w self query s = (Ok values, s1) →
  detects values = false →
  evaluator s = (Ok tt, s1).
Proof.
  intros Hin Hfetch Hno.
  destruct (decide (values = [])) as [-> | Hne].
  - by eapply series_evaluator_on_empty.
  - destruct (evaluator_alert_path w self _ _ _ _ _ _ _ Hin Hfetch Hne)
      as (build & insight & _ & ->).
    by rewrite Hno.
Qed.

Lemma storage_spike_below_threshold :
  (AnomalyDetector.zscore_anomaly spike 3).1.1 = false.
Proof.
  rewrite zscore_anomaly_spike. cbn [fst]. apply bool_decide_eq_false_2. lra.
Qed.

Lemma evaluator_idle_without_anomaly_witness :
  MinIOAnomalyMonitor.check_storage_space discord_down_world
    (MinIOAnomalyMonitor.init None None "llama2" 60 3 100 300 24)
    MinIOAnomalyMonitor.init_state
  = (Ok tt,
     {| alert_cooldown_dict := ∅; effects := 2;
        trace := [EvQuery "minio_disk_storage_bytes_free" 24] |}).
Proof.
  apply (evaluator_idle_without_anomaly discord_down_world
           (MinIOAnomalyMonitor.init None None "llama2" 60 3 100 300 24)
           _ "minio_disk_storage_bytes_free" "storage_space"
           (λ values, (AnomalyDetector.zscore_anomaly values 3).1.1)
           MinIOAnomalyMonitor.init_state _ spike).
  - apply list_elem_of_here.
  - reflexivity.
  - apply storage_spike_below_threshold.
Defined.

(** X14: an evaluator of a single series that detects an anomaly while its
    key is still within the cooldown reads the clock once and stops: no
    insight is requested, nothing is posted, and the cooldown dictionary
    keeps the old stamp. *)
Theorem cooldown_silences_evaluator (w : world) (self : MinIOAnomalyMonitor.t)
    (evaluator : M unit) (query key : string) (detects : list R → bool)
    (s s1 : mstate) (values : list R) (last : R) :
  (evaluator, query, key, detects) ∈ series_evaluators w self →
  MinIOAnomalyMonitor.get_metric_values w self query s = (Ok values, s1) →
  detects values = true →
  interrupt w (effects s1) = false →
  alert_cooldown_dict s1 !! key = Some last →
  wall_clock w (effects s1) - last <= MinIOAnomalyMonitor.alert_cooldown self →
  evaluator s = (Ok tt, tick s1).
Proof.
  intros Hin Hfetch Hdet Hint Hlast Hclosed.
  destruct (decide (values = [])) as [-> | Hne].
  - by rewrite (nothing_detected_on_empty w self _ _ _ _ Hin) in Hdet.
  - destruct (evaluator_alert_path w self _ _ _ _ _ _ _ Hin Hfetch Hne)
      as (build & insight & _ & ->).
    rewrite Hdet. by eapply alert_path_closed.
Qed.

Lemma cooldown_silences_evaluator_witness :
  MinIOAnomalyMonitor.check_storage_space discord_down_world default_monitor
    {| alert_cooldown_dict := {[ "storage_space" := ticking_clock 0 ]};
       effects := 0; trace := [] |}
  = (Ok tt,
     tick {| alert_cooldown_dict := {[ "storage_space" := ticking_clock 0 ]};
             effects := 2;
             trace := [EvQuery "minio_disk_storage_bytes_free" 24] |}).
Proof.
  apply (cooldown_silences_evaluator discord_down_world default_monitor
           _ "minio_disk_storage_bytes_free" "storage_space"
           (λ values, (AnomalyDetector.zscore_anomaly values ZSCORE_THRESHOLD).1.1)
           _ _ spike (ticking_clock 0)).
  - apply list_elem_of_here.
  - reflexivity.
  - rewrite zscore_anomaly_spike. cbn [fst]. apply bool_decide_eq_true_2.
    unfold ZSCORE_THRESHOLD. lra.
  - reflexivity.
  - cbn [alert_cooldown_dict]. by simplify_map_eq.
  - simpl. unfold ticking_clock, ALERT_COOLDOWN. simpl. lra.
Defined.

(** ** Evaluators: the alert that is posted *)

Lemma flagged_series (values : list R) (t : R) :
  (AnomalyDetector.zscore_anomaly values t).1.1 = true →
  (2 ≤ length values)%nat ∧ 0 < np_std values ∧
  t * np_std values < Rabs (py_last values - np_mean values).
Proof.
  intros Hflag.
  assert (Hlen : (2 ≤ length values)%nat).
  { revert Hflag. unfold AnomalyDetector.zscore_anomaly.
    case_bool_decide; [done | lia]. }
  assert (Hstd : np_std values ≠ 0).
  { revert Hflag. unfold AnomalyDetector.zscore_anomaly.
    rewrite bool_decide_eq_false_2 by lia. by case_bool_decide. }
  pose proof (np_std_pos values Hstd) as Hσ.
  split_and!; [done | done |].
  rewrite zscore_anomaly_main in Hflag by done. cbn [fst] in Hflag.
  apply bool_decide_eq_true_1 in Hflag.
  rewrite zscore_as_quotient in Hflag by done.
  apply (Rmult_lt_compat_r (np_std values)) in Hflag; [| done].
  replace (Rabs (py_last values - np_mean values) / np_std values * np_std values)
    with (Rabs (py_last values - np_mean values)) in Hflag by (field; lra).
  done.
Qed.

(** The storage evaluator on a flagged series with the gate open, no
    insight generator and no interrupt. *)
Lemma check_storage_space_fires (w : world) (self : MinIOAnomalyMonitor.t)
    (s s1 : mstate) (values : list R) :
  MinIOAnomalyMonitor.openwebui self = None →
  MinIOAnomalyMonitor.get_metric_values w self "minio_disk_storage_bytes_free" s
    = (Ok values, s1) →
  (AnomalyDetector.zscore_anomaly values
     (MinIOAnomalyMonitor.zscore_threshold self)).1.1 = true →
  (∀ i, (i < 4)%nat → interrupt w (effects s1 + i) = false) →
  MinIOAnomalyMonitor.alert_cooldown self
    < wall_clock w (effects s1) - default 0 (alert_cooldown_dict s1 !! "storage_space") →
  MinIOAnomalyMonitor.check_storage_space w self s
  = (Ok tt,
     {| alert_cooldown_dict :=
          <["storage_space" := wall_clock w (effects s1 + 3)]> (alert_cooldown_dict s1);
        effects := effects s1 + 4;
        trace := trace s1 ++
          [EvSend "storage_space"
             (DiscordNotifier.make_embed
                {| metric_name := "Disk Storage - Free Space";
                   current_value := py_last values / 1000000000;
                   expected_range :=
                     ((np_mean values
                       - MinIOAnomalyMonitor.zscore_threshold self * np_std values)
                      / 1000000000,
                      (np_mean values
                       + MinIOAnomalyMonitor.zscore_threshold self * np_std values)
                      / 1000000000);
                   alert_severity :=
                     if bool_decide
                          (py_last values
                           < (np_mean values
                              - MinIOAnomalyMonitor.zscore_threshold self * np_std values)
                             * (5 / 10))
                     then high else medium;
                   timestamp := wall_clock w (effects s1 + 1);
                   context := None |} "")
             (wall_clock w (effects s1 + 2));
           (if delivered (http w (effects s1 + 2))
            then EvLog INFO "Alert sent to Discord"
            else EvLog ERROR "Failed to send Discord alert");
           EvRecord "storage_space" (wall_clock w (effects s1 + 3))] |}).
Proof.
  intros Hnone Hfetch Hflag Hint Hopen.
  destruct (flagged_series _ _ Hflag) as (Hlen & Hσ & _).
  pose proof (Hint 0%nat ltac:(lia)) as H0. pose proof (Hint 1%nat ltac:(lia)) as H1.
  pose proof (Hint 2%nat ltac:(lia)) as H2. pose proof (Hint 3%nat ltac:(lia)) as H3.
  replace (effects s1 + 0)%nat with (effects s1) in H0 by lia.
  replace (effects s1 + 1)%nat with (S (effects s1)) in * by lia.
  replace (effects s1 + 2)%nat with (S (S (effects s1))) in * by lia.
  replace (effects s1 + 3)%nat with (S (S (S (effects s1)))) in * by lia.
  replace (effects s1 + 4)%nat with (S (S (S (S (effects s1))))) by lia.
  rewrite zscore_anomaly_main in Hflag by (done || lra). cbn [fst] in Hflag.
  unfold MinIOAnomalyMonitor.check_storage_space. rewrite bind_run, Hfetch.
  assert (py_not values = false) as ->.
  { destruct values; [simpl in Hlen; lia | done]. }
  rewrite zscore_anomaly_main by (done || lra).
  rewrite bind_run. unfold ret at 1. cbv beta iota zeta.
  rewrite Hflag. unfold MinIOAnomalyMonitor.insight_for. rewrite Hnone.
  cbn [fst snd].
  exact (alert_path_fires w self "storage_space"
           (λ now,
              {| metric_name := "Disk Storage - Free Space";
                 current_value := py_last values / 1000000000;
                 expected_range :=
                   ((np_mean values
                     - MinIOAnomalyMonitor.zscore_threshold self * np_std values)
                    / 1000000000,
                    (np_mean values
                     + MinIOAnomalyMonitor.zscore_threshold self * np_std values)
                    / 1000000000);
                 alert_severity :=
                   if bool_decide
                        (py_last values
                         < (np_mean values
                            - MinIOAnomalyMonitor.zscore_threshold self * np_std values)
                           * (5 / 10))
                   then high else medium;
                 timestamp := now;
                 context := None |})
           (ret "") s1 (tick (tick s1)) "" H0 Hopen H1 eq_refl H2 H3).
Qed.

(** X15: what the storage evaluator posts.  On a flagged series, with the
    gate open, no insight generator and no interrupt, it reads the clock
    for the timestamp, posts one alert for the key [storage_space] and
    stamps the key, in four effects after the fetch.  The alert carries the
    last sample and the bounds [mean -/+ threshold * std] in gigabytes; its
    severity is high when the last sample is below half the lower bound and
    medium otherwise.  The stamp is made whether or not Discord took the
    post. *)
Theorem storage_alert_posted (w : world) (self : MinIOAnomalyMonitor.t)
    (s s1 : mstate) (values : list R) :
  MinIOAnomalyMonitor.openwebui self = None →
  MinIOAnomalyMonitor.get_metric_values w self "minio_disk_storage_bytes_free" s
    = (Ok values, s1) →
  (AnomalyDetector.zscore_anomaly values
     (MinIOAnomalyMonitor.zscore_threshold self)).1.1 = true →
  (∀ i, (i < 4)%nat → interrupt w (effects s1 + i) = false) →
  MinIOAnomalyMonitor.alert_cooldown self
    < wall_clock w (effects s1) - default 0 (alert_cooldown_dict s1 !! "storage_space") →
  MinIOAnomalyMonitor.check_storage_space w self s
  = (Ok tt,
     {| alert_cooldown_dict :=
          <["storage_space" := wall_clock w (effects s1 + 3)]> (alert_cooldown_dict s1);
        effects := effects s1 + 4;
        trace := trace s1 ++
          [EvSend "storage_space"
             (DiscordNotifier.make_embed
                {| metric_name := "Disk Storage - Free Space";
                   current_value := py_last values / 1000000000;
                   expected_range :=
                     ((np_mean values
                       - MinIOAnomalyMonitor.zscore_threshold self * np_std values)
                      / 1000000000,
                      (np_mean values
                       + MinIOAnomalyMonitor.zscore_threshold self * np_std values)
                      / 1000000000);
                   alert_severity :=
                     if bool_decide
                          (py_last values
                           < (np_mean values
                              - MinIOAnomalyMonitor.zscore_threshold self * np_std values)
                             * (5 / 10))
                     then high else medium;
                   timestamp := wall_clock w (effects s1 + 1);
                   context := None |} "")
             (wall_clock w (effects s1 + 2));
           (if delivered (http w (effects s1 + 2))
            then EvLog INFO "Alert sent to Discord"
            else EvLog ERROR "Failed to send Discord alert");
           EvRecord "storage_space" (wall_clock w (effects s1 + 3))] |}).
Proof. apply check_storage_space_fires. Qed.

Lemma spike_is_flagged :
  (AnomalyDetector.zscore_anomaly spike
     (MinIOAnomalyMonitor.zscore_threshold default_monitor)).1.1 = true.
Proof.
  rewrite zscore_anomaly_spike. cbn [fst]. apply bool_decide_eq_true_2.
  simpl. unfold ZSCORE_THRESHOLD. lra.
Qed.

Lemma storage_alert_posted_witness :
  MinIOAnomalyMonitor.check_storage_space discord_down_world default_monitor
    MinIOAnomalyMonitor.init_state
  = (Ok tt,
     {| alert_cooldown_dict := <["storage_space" := ticking_clock (2 + 3)]> ∅;
        effects := 2 + 4;
        trace := [EvQuery "minio_disk_storage_bytes_free" 24] ++
          [EvSend "storage_space"
             (DiscordNotifier.make_embed
                {| metric_name := "Disk Storage - Free Space";
                   current_value := py_last spike / 1000000000;
                   expected_range :=
                     ((np_mean spike - ZSCORE_THRESHOLD * np_std spike) / 1000000000,
                      (np_mean spike + ZSCORE_THRESHOLD * np_std spike) / 1000000000);
                   alert_severity :=
                     if bool_decide
                          (py_last spike
                           < (np_mean spike - ZSCORE_THRESHOLD * np_std spike) * (5 / 10))
                     then high else medium;
                   timestamp := ticking_clock (2 + 1);
                   context := None |} "")
             (ticking_clock (2 + 2));
           EvLog ERROR "Failed to send Discord alert";
           EvRecord "storage_space" (ticking_clock (2 + 3))] |}).
Proof.
  apply (storage_alert_posted discord_down_world default_monitor
           MinIOAnomalyMonitor.init_state
           {| alert_cooldown_dict := ∅; effects := 2;
              trace := [EvQuery "minio_disk_storage_bytes_free" 24] |} spike).
  - reflexivity.
  - reflexivity.
  - apply spike_is_flagged.
  - intros i _. reflexivity.
  - exact (bool_decide_eq_true_1 _
             (gate_open_in_2023 discord_down_world 2 "storage_space" eq_refl)).
Defined.

(** X16: the storage evaluator alerts in both directions.  When free space
    jumps up (the last sample is above a mean that is not negative, and
    the series is flagged at a threshold that is not negative) an alert is
    posted as for a drop, and its severity is medium. *)
Theorem rising_free_space_alerts_medium (w : world) (self : MinIOAnomalyMonitor.t)
    (s s1 : mstate) (values : list R) :
  MinIOAnomalyMonitor.openwebui self = None →
  MinIOAnomalyMonitor.get_metric_values w self "minio_disk_storage_bytes_free" s
    = (Ok values, s1) →
  (AnomalyDetector.zscore_anomaly values
     (MinIOAnomalyMonitor.zscore_threshold self)).1.1 = true →
  (∀ i, (i < 4)%nat → interrupt w (effects s1 + i) = false) →
  MinIOAnomalyMonitor.alert_cooldown self
    < wall_clock w (effects s1) - default 0 (alert_cooldown_dict s1 !! "storage_space") →
  0 <= MinIOAnomalyMonitor.zscore_threshold self →
  0 <= np_mean values →
  np_mean values < py_last values →
  ∃ alert,
    metric_name alert = "Disk Storage - Free Space" ∧
    alert_severity alert = medium ∧
    EvSend "storage_space" (DiscordNotifier.make_embed alert "")
      (wall_clock w (effects s1 + 2))
    ∈ trace (MinIOAnomalyMonitor.check_storage_space w self s).2.
Proof.
  intros Hnone Hfetch Hflag Hint Hopen Ht Hμ Hrise.
  rewrite (check_storage_space_fires w self s s1 values) by done.
  destruct (flagged_series _ _ Hflag) as (_ & Hσ & _).
  eexists. split_and!; cycle 2.
  - cbn [snd trace]. apply elem_of_app. right. apply list_elem_of_here.
  - reflexivity.
  - cbn [alert_severity]. rewrite bool_decide_eq_false_2; [done |].
    pose proof (Rmult_le_pos _ _ Ht (Rlt_le _ _ Hσ)). lra.
Qed.

Lemma rising_free_space_alerts_medium_witness :
  ∃ alert,
    metric_name alert = "Disk Storage - Free Space" ∧
    alert_severity alert = medium ∧
    EvSend "storage_space" (DiscordNotifier.make_embed alert "") (ticking_clock (2 + 2))
    ∈ trace (MinIOAnomalyMonitor.check_storage_space discord_down_world default_monitor
               MinIOAnomalyMonitor.init_state).2.
Proof.
  apply (rising_free_space_alerts_medium discord_down_world default_monitor
           MinIOAnomalyMonitor.init_state
           {| alert_cooldown_dict := ∅; effects := 2;
              trace := [EvQuery "minio_disk_storage_bytes_free" 24] |} spike).
  - reflexivity.
  - reflexivity.
  - apply spike_is_flagged.
  - intros i _. reflexivity.
  - exact (bool_decide_eq_true_1 _
             (gate_open_in_2023 discord_down_world 2 "storage_space" eq_refl)).
  - simpl. unfold ZSCORE_THRESHOLD. lra.
  - rewrite np_mean_spike. lra.
  - rewrite np_mean_spike. unfold py_last, spike. simpl. lra.
Defined.

(** ** Interrupts *)

Lemma uninterrupted_refl (w : world) (s : mstate) : uninterrupted w s s.
Proof. split; [done | intros k Hk; lia]. Qed.

Lemma uninterrupted_trans (w : world) (s1 s2 s3 : mstate) :
  uninterrupted w s1 s2 → uninterrupted w s2 s3 → uninterrupted w s1 s3.
Proof.
  intros [H1 H1'] [H2 H2']. split; [lia |].
  intros k Hk. destruct (decide (k < effects s2)%nat); [apply H1' | apply H2']; lia.
Qed.

Lemma uninterrupted_same_effects (w : world) (s s' : mstate) :
  effects s' = effects s → uninterrupted w s s'.
Proof. intros H. split; [lia | intros k Hk; lia]. Qed.

Section honouring.

Context (w : world).

Lemma honours_ret {A} (a : A) : honours_interrupts w (ret a).
Proof. intros s _. apply uninterrupted_refl. Qed.

Lemma honours_raise {A} (e : exception) : honours_interrupts w (@raise A e).
Proof. intros s _. apply uninterrupted_refl. Qed.

Lemma honours_lift {A} (r : checked A) : honours_interrupts w (lift r).
Proof. intros s _. apply uninterrupted_refl. Qed.

Lemma honours_gets {A} (f : mstate → A) : honours_interrupts w (gets f).
Proof. intros s _. apply uninterrupted_refl. Qed.

Lemma honours_emit (e : event) : honours_interrupts w (emit e).
Proof. intros s _. by apply uninterrupted_same_effects. Qed.

Lemma honours_set_alert_time (key : string) (now : R) :
  honours_interrupts w (set_alert_time key now).
Proof. intros s _. by apply uninterrupted_same_effects. Qed.

Lemma honours_bind {A B} (m : M A) (f : A → M B) :
  honours_interrupts w m → (∀ a, honours_interrupts w (f a)) →
  honours_interrupts w (m ≫= f).
Proof.
  intros Hm Hf s. rewrite bind_run. specialize (Hm s).
  destruct (m s) as [[a|e] s']; simpl in *.
  - intros Hne. eapply uninterrupted_trans; [by apply Hm | by apply Hf].
  - intros Hne. apply Hm. congruence.
Qed.

Lemma honours_try_except {A} (body : M A) (handler : exception → M A) :
  honours_interrupts w body → (∀ e, honours_interrupts w (handler e)) →
  honours_interrupts w (try_except body handler).
Proof.
  intros Hb Hh s. unfold try_except. specialize (Hb s).
  destruct (body s) as [[a|[|e]] s']; simpl in *; [done | done |].
  intros Hne. eapply uninterrupted_trans; [by apply Hb | by apply Hh].
Qed.

Lemma honours_effect {A} (events : nat → list event) (answer : nat → A) :
  honours_interrupts w (effect w events answer).
Proof.
  intros s. unfold effect.
  destruct (interrupt w (effects s)) eqn:Hi; simpl; [done |].
  intros _. split; simpl; [lia |].
  intros k Hk. by replace k with (effects s) by lia.
Qed.

Lemma honours_if {A} (b : bool) (m1 m2 : M A) :
  honours_interrupts w m1 → honours_interrupts w m2 →
  honours_interrupts w (if b then m1 else m2).
Proof. by destruct b. Qed.

Ltac solve_honours :=
  repeat first
    [ apply honours_bind; [| intros ?]
    | apply honours_try_except; [| intros ?]
    | apply honours_if
    | apply honours_effect
    | apply honours_emit | apply honours_set_alert_time
    | apply honours_ret | apply honours_raise | apply honours_lift | apply honours_gets
    | match goal with
      | |- honours_interrupts _ (match ?x with _ => _ end) => destruct x
      end ].

Lemma honours_requests_call (events : nat → list event) :
  honours_interrupts w (requests_call w events).
Proof. unfold requests_call. solve_honours. Qed.

Lemma honours_get_metric_values (self : MinIOAnomalyMonitor.t) (query : string) :
  honours_interrupts w (MinIOAnomalyMonitor.get_metric_values w self query).
Proof.
  unfold MinIOAnomalyMonitor.get_metric_values, PrometheusConnector.query_range,
    datetime_now, requests_call, raise_for_status, response_json.
  solve_honours.
Qed.

Lemma honours_insight_for (self : MinIOAnomalyMonitor.t) (metric : string)
    (current expected change : R) :
  honours_interrupts w
    (MinIOAnomalyMonitor.insight_for w self metric current expected change).
Proof.
  unfold MinIOAnomalyMonitor.insight_for, OpenWebUIInsight.generate_context,
    requests_call, response_json.
  solve_honours.
Qed.

Lemma honours_alert_path (self : MinIOAnomalyMonitor.t) (triggered : bool)
    (key : string) (build : R → AnomalyAlert) (insight : M string) :
  honours_interrupts w insight →
  honours_interrupts w (alert_path w self triggered key build insight).
Proof.
  intros Hins.
  unfold alert_path, py_if, py_and, MinIOAnomalyMonitor._can_alert,
    MinIOAnomalyMonitor._record_alert, DiscordNotifier.send_alert,
    time_time, datetime_now, requests_call, raise_for_status.
  solve_honours; try exact Hins.
Qed.

Lemma honours_check_storage_space (self : MinIOAnomalyMonitor.t) :
  honours_interrupts w (MinIOAnomalyMonitor.check_storage_space w self).
Proof.
  unfold MinIOAnomalyMonitor.check_storage_space.
  apply honours_bind; [apply honours_get_metric_values | intros values].
  destruct (py_not values); [apply honours_ret |].
  apply honours_bind; [apply honours_ret | intros [[is_anomaly zscore] range]].
  cbv zeta. apply honours_alert_path, honours_insight_for.
Qed.

Lemma honours_check_request_rate (self : MinIOAnomalyMonitor.t) :
  honours_interrupts w (MinIOAnomalyMonitor.check_request_rate w self).
Proof.
  unfold MinIOAnomalyMonitor.check_request_rate.
  apply honours_bind; [apply honours_get_metric_values | intros values].
  destruct (py_not values); [apply honours_ret |].
  apply honours_bind; [apply honours_ret | intros [is_roc roc]].
  apply honours_bind; [apply honours_ret | intros [[is_zscore zscore] expected]].
  cbv zeta. apply honours_alert_path, honours_insight_for.
Qed.

Lemma honours_check_error_rate (self : MinIOAnomalyMonitor.t) :
  honours_interrupts w (MinIOAnomalyMonitor.check_error_rate w self).
Proof.
  unfold MinIOAnomalyMonitor.check_error_rate.
  apply honours_bind; [apply honours_get_metric_values | intros values].
  destruct (py_not values); [apply honours_ret |].
  apply honours_bind; [apply honours_ret | intros [[is_anomaly zscore] expected]].
  cbv zeta. apply honours_alert_path, honours_insight_for.
Qed.

Lemma honours_for_each {A} (items : list A) (body : A → M unit) :
  (∀ x, honours_interrupts w (body x)) → honours_interrupts w (for_each items body).
Proof.
  intros Hb. induction items as [|x rest IH]; simpl.
  - apply honours_ret.
  - apply honours_bind; [apply Hb | by intros _].
Qed.

Lemma honours_check_network_traffic (self : MinIOAnomalyMonitor.t) :
  honours_interrupts w (MinIOAnomalyMonitor.check_network_traffic w self).
Proof.
  unfold MinIOAnomalyMonitor.check_network_traffic.
  apply honours_bind; [apply honours_get_metric_values | intros send_values].
  apply honours_bind; [apply honours_get_metric_values | intros recv_values].
  destruct (py_not send_values || py_not recv_values); [apply honours_ret |].
  apply honours_for_each. intros [name values] s.
  rewrite network_signal_alert_path. apply honours_alert_path, honours_ret.
Qed.

Lemma honours_time_sleep (seconds : R) : honours_interrupts w (time_sleep w seconds).
Proof.
  unfold time_sleep. repeat case_bool_decide; try apply honours_raise.
  apply honours_effect.
Qed.

Lemma honours_cycle (self : MinIOAnomalyMonitor.t) :
  honours_interrupts w (MinIOAnomalyMonitor.cycle w self).
Proof.
  unfold MinIOAnomalyMonitor.cycle.
  apply honours_bind; [apply honours_emit | intros _].
  apply honours_bind; [apply honours_check_storage_space | intros _].
  apply honours_bind; [apply honours_check_request_rate | intros _].
  apply honours_bind; [apply honours_check_network_traffic | intros _].
  apply honours_bind; [apply honours_check_error_rate | intros _].
  apply honours_time_sleep.
Qed.

Lemma honours_while_true (self : MinIOAnomalyMonitor.t) (fuel : nat) :
  honours_interrupts w (MinIOAnomalyMonitor.while_true w self fuel).
Proof.
  induction fuel as [|fuel IH]; simpl.
  - apply honours_ret.
  - apply honours_bind; [apply honours_cycle | by intros _].
Qed.

(** Progress: a computation that ends with an advancing one advances. *)
Lemma advances_after {A B} (m : M A) (f : A → M B) :
  honours_interrupts w m → (∀ a, advances (f a)) → advances (m ≫= f).
Proof.
  intros Hm Hf s b s'. rewrite bind_run. specialize (Hm s).
  destruct (m s) as [[a|e] s1]; simpl in *; [| done].
  intros Hrun. apply Hf in Hrun. destruct Hm as [Hle _]; [done |]. lia.
Qed.

Lemma advances_time_sleep (seconds : R) : advances (time_sleep w seconds).
Proof.
  intros s a s'. unfold time_sleep.
  repeat case_bool_decide; [done | done |]. unfold effect.
  destruct (interrupt w (effects s)); [done |]. intros [= _ <-]. simpl. lia.
Qed.

Lemma advances_cycle (self : MinIOAnomalyMonitor.t) :
  advances (MinIOAnomalyMonitor.cycle w self).
Proof.
  unfold MinIOAnomalyMonitor.cycle.
  apply advances_after; [apply honours_emit | intros _].
  apply advances_after; [apply honours_check_storage_space | intros _].
  apply advances_after; [apply honours_check_request_rate | intros _].
  apply advances_after; [apply honours_check_network_traffic | intros _].
  apply advances_after; [apply honours_check_error_rate | intros _].
  apply advances_time_sleep.
Qed.

(** Every cycle that the loop completes takes at least one effect. *)
Lemma while_true_progress (self : MinIOAnomalyMonitor.t) (fuel : nat) (s s' : mstate) :
  MinIOAnomalyMonitor.while_true w self fuel s = (Ok tt, s') →
  (effects s + fuel ≤ effects s')%nat.
Proof.
  revert s. induction fuel as [|fuel IH]; intros s; simpl.
  - intros [= <-]. lia.
  - rewrite bind_run.
    destruct (MinIOAnomalyMonitor.cycle w self s) as [[[]|e] s1] eqn:Hc; [| done].
    intros Hrest. apply IH in Hrest. apply advances_cycle in Hc. lia.
Qed.

End honouring.

(** ** How [run] ends *)

(** What [run] makes of the three ways the loop can end. *)
Lemma run_run (w : world) (self : MinIOAnomalyMonitor.t) (fuel : nat) (s : mstate) :
  MinIOAnomalyMonitor.run w self fuel s =
    match MinIOAnomalyMonitor.while_true w self fuel
            (add_events [EvLog INFO "Starting monitoring loop"] s) with
    | (Ok _, s1) => (Ok MinIOAnomalyMonitor.StillLooping, s1)
    | (Raise KeyboardInterrupt, s1) =>
        (Ok MinIOAnomalyMonitor.Returned,
         add_events [EvLog INFO "Shutting down gracefully..."] s1)
    | (Raise (Exception _), s1) =>
        match time_sleep w (MinIOAnomalyMonitor.check_interval self)
                (add_events [EvLog ERROR "Unexpected error"] s1) with
        | (Ok _, s2) => (Ok MinIOAnomalyMonitor.Returned, s2)
        | (Raise e, s2) => (Raise e, s2)
        end
    end.
Proof.
  unfold MinIOAnomalyMonitor.run. rewrite bind_run. unfold emit at 1.
  unfold try_except_interrupt. rewrite bind_run.
  destruct (MinIOAnomalyMonitor.while_true w self fuel _) as [[[]|[|e]] s1];
    [done | done |].
  rewrite bind_run. unfold emit at 1. rewrite bind_run.
  by destruct (time_sleep w _ _) as [[[]|e'] s2].
Qed.

(** The sleep of the handler, when its length is accepted. *)
Lemma handler_sleep (w : world) (seconds : R) (s : mstate) :
  sleep_accepted seconds →
  time_sleep w seconds (add_events [EvLog ERROR "Unexpected error"] s)
  = (if interrupt w (effects s) then Raise KeyboardInterrupt else Ok tt,
     tick (add_events [EvLog ERROR "Unexpected error"; EvSleep seconds] s)).
Proof.
  intros Hs. rewrite time_sleep_accepted by done. unfold effect. simpl.
  destruct (interrupt w (effects s));
    f_equal; unfold tick, add_events; simpl; by rewrite <-app_assoc.
Qed.

(** What [time.sleep] raises when it refuses a length. *)
Lemma time_sleep_refused (w : world) (seconds : R) (s : mstate) (e : exception) :
  (time_sleep w seconds s).1 = Raise (Exception e) →
  ¬ sleep_accepted seconds ∧ (e = ValueError ∨ e = OverflowError).
Proof.
  unfold time_sleep, sleep_accepted.
  case_bool_decide as Hbig.
  - intros [= <-]. split; [| by right].
    intros [H0 Hmax]. rewrite Rabs_pos_eq in Hbig by done. lra.
  - case_bool_decide as Hneg.
    + intros [= <-]. split; [lra | by left].
    + unfold effect. by destruct (interrupt w (effects s)).
Qed.


(** X18: a [KeyboardInterrupt] stops the service.  If the interrupt is
    pending for the effect [n], then [run] observed for more than
    [n - effects s] cycles is no longer looping: every cycle that completes
    takes at least one effect, and no effect that meets an interrupt is
    survived by the loop.  With a check interval that [time.sleep] accepts,
    [run] has then returned or raised the [KeyboardInterrupt]. *)
Theorem interrupt_stops_the_service (w : world) (self : MinIOAnomalyMonitor.t)
    (fuel : nat) (s : mstate) (n : nat) :
  interrupt w n = true →
  (effects s ≤ n)%nat →
  (n < effects s + fuel)%nat →
  (MinIOAnomalyMonitor.run w self fuel s).1 ≠ Ok MinIOAnomalyMonitor.StillLooping ∧
  (sleep_accepted (MinIOAnomalyMonitor.check_interval self) →
   (MinIOAnomalyMonitor.run w self fuel s).1 = Ok MinIOAnomalyMonitor.Returned ∨
   (MinIOAnomalyMonitor.run w self fuel s).1 = Raise KeyboardInterrupt).
Proof.
  intros Hint Hlo Hhi. rewrite run_run.
  set (s0 := add_events [EvLog INFO "Starting monitoring loop"] s).
  pose proof (honours_while_true w self fuel s0) as Hh.
  pose proof (while_true_progress w self fuel s0) as Hp.
  destruct (MinIOAnomalyMonitor.while_true w self fuel s0) as [[[]|[|e]] s1];
    simpl in *.
  - destruct Hh as [_ Hno]; [done |].
    specialize (Hp s1 eq_refl).
    assert (Hs0 : effects s0 = effects s) by done.
    rewrite Hno in Hint by lia. done.
  - split; [done | by left].
  - split.
    + by destruct (time_sleep w _ _) as [[[]|x] s2].
    + intros Hsleep. rewrite handler_sleep by done.
      destruct (interrupt w (effects s1)); [by right | by left].
Qed.

Lemma interrupt_stops_the_service_witness :
  (MinIOAnomalyMonitor.run (interrupted_world 3) default_monitor 4
     MinIOAnomalyMonitor.init_state).1 ≠ Ok MinIOAnomalyMonitor.StillLooping ∧
  (sleep_accepted (MinIOAnomalyMonitor.check_interval default_monitor) →
   (MinIOAnomalyMonitor.run (interrupted_world 3) default_monitor 4
      MinIOAnomalyMonitor.init_state).1 = Ok MinIOAnomalyMonitor.Returned ∨
   (MinIOAnomalyMonitor.run (interrupted_world 3) default_monitor 4
      MinIOAnomalyMonitor.init_state).1 = Raise KeyboardInterrupt).
Proof.
  apply (interrupt_stops_the_service (interrupted_world 3) default_monitor 4
           MinIOAnomalyMonitor.init_state 3).
  - reflexivity.
  - simpl. lia.
  - simpl. lia.
Defined.

(** ** An outage of Prometheus *)

Section outage.

Context (w : world) (self : MinIOAnomalyMonitor.t).
Hypothesis interval_accepted : sleep_accepted (MinIOAnomalyMonitor.check_interval self).
Hypothesis no_interrupt : ∀ n, interrupt w n = false.
Hypothesis no_data : ∀ n, reply_result (http w n) = None.

Lemma outage_fetch (query : string) (s : mstate) :
  ∃ s1, MinIOAnomalyMonitor.get_metric_values w self query s = (Ok [], s1) ∧
        quiet_step s s1.
Proof.
  pose proof (quiet_get_metric_values w self query s) as Hq.
  pose proof (get_metric_values_run w self query s) as Hrun.
  pose proof (query_range_run w query (MinIOAnomalyMonitor.history_hours self) s) as Hqr.
  rewrite !no_interrupt, no_data in Hqr. simpl in Hqr.
  destruct (PrometheusConnector.query_range w query _ s) as [r s1].
  simpl in Hqr. subst r. simpl in Hrun.
  exists s1. split; [done |]. by rewrite Hrun in Hq.
Qed.

Lemma outage_cycle (s : mstate) :
  ∃ s1, MinIOAnomalyMonitor.cycle w self s = (Ok tt, s1) ∧ quiet_step s s1.
Proof.
  unfold MinIOAnomalyMonitor.cycle. rewrite bind_run. unfold emit at 1.
  set (s0 := add_events [EvLog INFO "Running anomaly checks..."] s).
  assert (H0 : quiet_step s s0) by (apply quiet_step_events; by repeat constructor).
  destruct (outage_fetch "minio_disk_storage_bytes_free" s0) as (s1 & Hf1 & H1).
  destruct (outage_fetch "rate(minio_gateway_requests_total[5m])" s1) as (s2 & Hf2 & H2).
  destruct (outage_fetch "rate(minio_network_send_bytes_total[5m])" s2) as (s3 & Hf3 & H3).
  destruct (outage_fetch "rate(minio_network_receive_bytes_total[5m])" s3)
    as (s4 & Hf4 & H4).
  destruct (outage_fetch MinIOAnomalyMonitor.error_rate_query s4)
    as (s5 & Hf5 & H5).
  rewrite bind_run.
  unfold MinIOAnomalyMonitor.check_storage_space at 1. rewrite bind_run, Hf1.
  cbn [py_not]. unfold ret at 1. rewrite bind_run.
  unfold MinIOAnomalyMonitor.check_request_rate at 1. rewrite bind_run, Hf2.
  cbn [py_not]. unfold ret at 1. rewrite bind_run.
  unfold MinIOAnomalyMonitor.check_network_traffic at 1.
  rewrite bind_run, Hf3, bind_run, Hf4.
  cbn [py_not orb]. unfold ret at 1. rewrite bind_run.
  unfold MinIOAnomalyMonitor.check_error_rate at 1. rewrite bind_run, Hf5.
  cbn [py_not]. unfold ret at 1.
  rewrite time_sleep_accepted by done. unfold effect. rewrite no_interrupt.
  eexists. split; [reflexivity |].
  repeat (eapply quiet_step_trans; [eassumption |]).
  eapply quiet_step_trans; [| apply quiet_step_tick].
  apply quiet_step_events. by repeat constructor.
Qed.

Lemma outage_while_true (fuel : nat) (s : mstate) :
  ∃ s1, MinIOAnomalyMonitor.while_true w self fuel s = (Ok tt, s1) ∧ quiet_step s s1.
Proof.
  revert s. induction fuel as [|fuel IH]; intros s; simpl.
  - exists s. split; [done | apply quiet_step_refl].
  - destruct (outage_cycle s) as (s1 & Hc & H1).
    destruct (IH s1) as (s2 & Hw & H2).
    exists s2. rewrite bind_run, Hc. split; [done |]. by eapply quiet_step_trans.
Qed.

Lemma outage_run (fuel : nat) (s : mstate) :
  (MinIOAnomalyMonitor.run w self fuel s).1 = Ok MinIOAnomalyMonitor.StillLooping ∧
  quiet_step s (MinIOAnomalyMonitor.run w self fuel s).2.
Proof.
  rewrite run_run.
  destruct (outage_while_true fuel
              (add_events [EvLog INFO "Starting monitoring loop"] s)) as (s1 & -> & H1).
  split; [done |]. simpl.
  eapply quiet_step_trans; [| exact H1].
  apply quiet_step_events. by repeat constructor.
Qed.

End outage.

(** X19: the service rides out an outage of Prometheus.  With a check
    interval that [time.sleep] accepts, while no request to Prometheus gets
    an accepted reply and no interrupt arrives, [run] keeps looping for as
    many cycles as it is observed: no cycle raises, nothing is posted to
    Discord and the cooldown dictionary does not change. *)
Theorem outage_never_ends_run (w : world) (self : MinIOAnomalyMonitor.t)
    (fuel : nat) (s : mstate) :
  sleep_accepted (MinIOAnomalyMonitor.check_interval self) →
  (∀ n, interrupt w n = false) →
  (∀ n, reply_result (http w n) = None) →
  (MinIOAnomalyMonitor.run w self fuel s).1 = Ok MinIOAnomalyMonitor.StillLooping ∧
  quiet_step s (MinIOAnomalyMonitor.run w self fuel s).2.
Proof. intros Hs Hi Hd. by apply outage_run. Qed.

Lemma default_interval_accepted :
  sleep_accepted (MinIOAnomalyMonitor.check_interval default_monitor).
Proof. split; simpl; unfold CHECK_INTERVAL, SLEEP_MAX; lra. Qed.

Lemma outage_never_ends_run_witness :
  (MinIOAnomalyMonitor.run (scripted_world ticking_clock []) default_monitor 3
     MinIOAnomalyMonitor.init_state).1 = Ok MinIOAnomalyMonitor.StillLooping ∧
  quiet_step MinIOAnomalyMonitor.init_state
    (MinIOAnomalyMonitor.run (scripted_world ticking_clock []) default_monitor 3
       MinIOAnomalyMonitor.init_state).2.
Proof.
  apply (outage_never_ends_run (scripted_world ticking_clock []) default_monitor 3
           MinIOAnomalyMonitor.init_state).
  - apply default_interval_accepted.
  - intros n. reflexivity.
  - intros n. reflexivity.
Defined.

(** ** A check interval that [time.sleep] refuses *)

(** A negative length is refused with [ValueError]. *)
Lemma time_sleep_negative (w : world) (seconds : R) (s : mstate) :
  - SLEEP_MAX <= seconds → seconds < 0 →
  time_sleep w seconds s = (Raise (Exception ValueError), s).
Proof.
  intros Hmin Hneg. unfold time_sleep.
  rewrite bool_decide_eq_false_2 by (rewrite Rabs_left by done; lra).
  by rewrite bool_decide_eq_true_2.
Qed.

Lemma time_sleep_raises (w : world) (seconds : R) :
  ¬ sleep_accepted seconds →
  ∃ e, (e = ValueError ∨ e = OverflowError) ∧
       ∀ s, time_sleep w seconds s = (Raise (Exception e), s).
Proof.
  intros Hno. unfold time_sleep.
  case_bool_decide as Hbig; [exists OverflowError; by split; [right |] |].
  case_bool_decide as Hneg; [exists ValueError; by split; [left |] |].
  destruct Hno. split; [lra |].
  rewrite Rabs_pos_eq in Hbig by lra. lra.
Qed.

(** When [time.sleep] raises, the service does not survive its first
    cycle, even if nothing else goes wrong: the sleep that ends the cycle
    raises, the handler of [run] logs the error and sleeps in its turn, and
    that second error leaves [run]. *)
Lemma raising_sleep_ends_run (w : world) (self : MinIOAnomalyMonitor.t)
    (fuel : nat) (s : mstate) (e : exception) :
  (∀ s, time_sleep w (MinIOAnomalyMonitor.check_interval self) s
        = (Raise (Exception e), s)) →
  (∀ n, interrupt w n = false) →
  (∀ n, reply_result (http w n) = None) →
  (MinIOAnomalyMonitor.run w self (S fuel) s).1 = Raise (Exception e).
Proof.
  intros Hsleep Hi Hd.
  rewrite run_run. cbn [MinIOAnomalyMonitor.while_true]. rewrite bind_run.
  set (s' := add_events [EvLog INFO "Starting monitoring loop"] s).
  assert (Hcycle : ∃ s1, MinIOAnomalyMonitor.cycle w self s' = (Raise (Exception e), s1)).
  { unfold MinIOAnomalyMonitor.cycle. rewrite bind_run. unfold emit at 1.
    set (s0 := add_events [EvLog INFO "Running anomaly checks..."] s').
    destruct (outage_fetch w self Hi Hd "minio_disk_storage_bytes_free" s0)
      as (s1 & Hf1 & _).
    destruct (outage_fetch w self Hi Hd "rate(minio_gateway_requests_total[5m])" s1)
      as (s2 & Hf2 & _).
    destruct (outage_fetch w self Hi Hd "rate(minio_network_send_bytes_total[5m])" s2)
      as (s3 & Hf3 & _).
    destruct (outage_fetch w self Hi Hd "rate(minio_network_receive_bytes_total[5m])" s3)
      as (s4 & Hf4 & _).
    destruct (outage_fetch w self Hi Hd MinIOAnomalyMonitor.error_rate_query s4)
      as (s5 & Hf5 & _).
    rewrite bind_run.
    unfold MinIOAnomalyMonitor.check_storage_space at 1. rewrite bind_run, Hf1.
    cbn [py_not]. unfold ret at 1. rewrite bind_run.
    unfold MinIOAnomalyMonitor.check_request_rate at 1. rewrite bind_run, Hf2.
    cbn [py_not]. unfold ret at 1. rewrite bind_run.
    unfold MinIOAnomalyMonitor.check_network_traffic at 1.
    rewrite bind_run, Hf3, bind_run, Hf4.
    cbn [py_not orb]. unfold ret at 1. rewrite bind_run.
    unfold MinIOAnomalyMonitor.check_error_rate at 1. rewrite bind_run, Hf5.
    cbn [py_not]. unfold ret at 1.
    rewrite Hsleep. by eexists. }
  destruct Hcycle as (s1 & ->). by rewrite Hsleep.
Qed.

(** So it is with every check interval that [time.sleep] refuses. *)
Lemma refused_interval_ends_run (w : world) (self : MinIOAnomalyMonitor.t)
    (fuel : nat) (s : mstate) :
  ¬ sleep_accepted (MinIOAnomalyMonitor.check_interval self) →
  (∀ n, interrupt w n = false) →
  (∀ n, reply_result (http w n) = None) →
  ∃ e, (e = ValueError ∨ e = OverflowError) ∧
       (MinIOAnomalyMonitor.run w self (S fuel) s).1 = Raise (Exception e).
Proof.
  intros Hno Hi Hd.
  destruct (time_sleep_raises w _ Hno) as (e & He & Hsleep).
  exists e. split; [done |]. by apply raising_sleep_ends_run.
Qed.

(** The service started with a check interval of -1 second. *)
Lemma negative_interval_ends_run (fuel : nat) :
  (MinIOAnomalyMonitor.run (scripted_world ticking_clock [])
     (MinIOAnomalyMonitor.init None None "llama2" (-1) 3 100 300 24) (S fuel)
     MinIOAnomalyMonitor.init_state).1 = Raise (Exception ValueError).
Proof.
  apply raising_sleep_ends_run.
  - intros s. apply time_sleep_negative; simpl; unfold SLEEP_MAX; lra.
  - intros n. reflexivity.
  - intros n. reflexivity.
Qed.

(** ** The script as a program *)

Lemma append_cons (c : ascii) (s1 s2 : string) :
  String c s1 +:+ s2 = String c (s1 +:+ s2).
Proof. reflexivity. Qed.

Lemma startswith_spec (p s : string) :
  PyStr.startswith p s = true ↔ ∃ rest, s = p +:+ rest.
Proof.
  unfold PyStr.startswith. revert s.
  induction p as [|a p IH]; intros [|b s]; simpl.
  - split; [intros _; by exists "" | done].
  - split; [intros _; by exists (String b s) | done].
  - split; [done | intros [rest Hrest]; by rewrite append_cons in Hrest].
  - destruct (Ascii.ascii_dec a b) as [-> | Hab].
    + rewrite IH. split; intros [rest Hrest]; exists rest.
      * by rewrite append_cons, Hrest.
      * rewrite append_cons in Hrest. by injection Hrest.
    + split; [done |].
      intros [rest Hrest]. rewrite append_cons in Hrest. injection Hrest. congruence.
Qed.

Lemma contains_spec (needle hay : string) :
  PyStr.contains needle hay = true ↔ ∃ a b, hay = a +:+ needle +:+ b.
Proof.
  split.
  - induction hay as [|c hay IH]; cbn [PyStr.contains].
    + rewrite orb_false_r. intros Hp.
      apply (startswith_spec needle "") in Hp as [rest Hrest]. by exists "", rest.
    + intros [Hp | Hc]%orb_true_iff.
      * apply (startswith_spec needle (String c hay)) in Hp as [rest Hrest].
        by exists "", rest.
      * destruct (IH Hc) as (a & b & ->). by exists (String c a), b.
  - intros (a & b & ->). induction a as [|c a IH].
    + change ("" +:+ needle +:+ b) with (needle +:+ b).
      assert (Hp : String.prefix needle (needle +:+ b) = true)
        by (apply startswith_spec; by exists b).
      destruct (needle +:+ b); cbn [PyStr.contains]; by rewrite Hp.
    + rewrite append_cons. cbn [PyStr.contains]. rewrite IH. apply orb_true_r.
Qed.

Lemma contains_truthy (needle hay : string) :
  PyStr.truthy needle = true → PyStr.contains needle hay = true →
  PyStr.truthy hay = true.
Proof. destruct needle; [done |]. by destruct hay. Qed.

(** The insight generator of the monitor that the script builds. *)
Lemma monitor_openwebui (c : Main.settings) :
  MinIOAnomalyMonitor.openwebui (Main.monitor c)
  = if Main.use_openwebui c && PyStr.truthy (Main.openwebui_url c)
    then Some (OpenWebUIInsight.init (Main.openwebui_url c) (Main.openwebui_api_key c)
                 (Main.openwebui_model c))
    else None.
Proof.
  unfold Main.monitor, MinIOAnomalyMonitor.init. simpl.
  destruct (Main.use_openwebui c) eqn:Huse; [| done]. simpl.
  destruct (PyStr.truthy (Main.openwebui_url c)); [| done]. simpl.
  unfold Main.use_openwebui in Huse.
  apply negb_true_iff, orb_false_iff in Huse as [Hsk _].
  apply negb_false_iff in Hsk.
  by rewrite (contains_truthy "sk-" _ eq_refl Hsk).
Qed.

Lemma emit_then {A} (e : event) (k : M A) (s : mstate) :
  (emit e;; k) s = k (add_events [e] s).
Proof. reflexivity. Qed.

Lemma add_events_app (l1 l2 : list event) (s : mstate) :
  add_events l2 (add_events l1 s) = add_events (l1 ++ l2) s.
Proof. unfold add_events. simpl. by rewrite app_assoc. Qed.

(** The script with a usable webhook: logs, then [run]. *)
Lemma main_accepted (w : world) (c : Main.settings) (fuel : nat) (s : mstate) :
  Main.webhook_rejected c = false →
  ∃ logs,
    Forall (λ e, ∃ level message, e = EvLog level message) logs ∧
    Main.main w c fuel s
    = let out :=
        MinIOAnomalyMonitor.run w (Main.monitor c) fuel
          {| alert_cooldown_dict := ∅; effects := effects s;
             trace := trace s ++ logs |} in
      (match out.1 with
       | Ok st => Ok (Main.Ran st)
       | Raise e => Raise e
       end, out.2).
Proof.
  intros Hweb. unfold Main.main. rewrite Hweb.
  destruct (Main.use_openwebui c);
    [rewrite bind_run; unfold ret at 1; cbv beta iota |];
    rewrite !emit_then, !add_events_app;
    (rewrite bind_run; unfold Main.new_cooldown_dict at 1; cbv beta iota);
    rewrite emit_then;
    unfold add_events; cbn [alert_cooldown_dict effects trace app];
    rewrite <-app_assoc; cbn [app];
    match goal with |- context [trace s ++ ?l] => exists l end;
    (split;
     [ repeat (constructor; [by eexists _, _ |]); constructor
     | cbv zeta; rewrite bind_run;
       match goal with
       | |- context [MinIOAnomalyMonitor.run w ?m fuel ?s0] =>
           by destruct (MinIOAnomalyMonitor.run w m fuel s0) as [[st|e] s']
       end ]).
Qed.

(** X20: the script gives up exactly when the webhook is unusable.  It
    ends with [exit(1)] if and only if the configured webhook contains
    [YOUR_WEBHOOK] or does not start with [http]; in that case it has
    logged one error and done nothing else: no monitor is built, no
    request is made. *)
Theorem main_exits_iff_webhook_unusable (w : world) (c : Main.settings)
    (fuel : nat) (s : mstate) :
  let unusable :=
    (∃ a b, Main.discord_webhook c = a +:+ "YOUR_WEBHOOK" +:+ b) ∨
    ¬ (∃ rest, Main.discord_webhook c = "http" +:+ rest) in
  ((Main.main w c fuel s).1 = Ok (Main.Exited 1) ↔ unusable) ∧
  (unusable →
   Main.main w c fuel s
   = (Ok (Main.Exited 1),
      add_events
        [EvLog ERROR "❌ DISCORD_WEBHOOK not configured! Edit the script at the top."] s)).
Proof.
  intros unusable.
  assert (Hrej : Main.webhook_rejected c = true ↔ unusable).
  { unfold Main.webhook_rejected, unusable.
    rewrite orb_true_iff, negb_true_iff, contains_spec, <-not_true_iff_false.
    by rewrite startswith_spec. }
  split.
  - rewrite <-Hrej. destruct (Main.webhook_rejected c) eqn:Hweb.
    + unfold Main.main. by rewrite Hweb.
    + destruct (main_accepted w c fuel s Hweb) as (logs & _ & ->). cbv zeta.
      split; [| done]. by destruct (MinIOAnomalyMonitor.run w _ fuel _).1.
  - intros Hun%Hrej. unfold Main.main. by rewrite Hun.
Qed.

(** X21: with a usable webhook the script only logs before it hands over to
    [run]: the monitor starts with an empty cooldown dictionary and with no
    effect performed, [run] is the last thing the script does, and its
    monitor has an insight generator exactly when the API key contains
    [sk-] and no [YOUR_] and the OpenWebUI address is not empty; the
    generator then holds that address, key and model. *)
Theorem accepted_configuration_runs_monitor (w : world) (c : Main.settings)
    (fuel : nat) (s : mstate) :
  Main.webhook_rejected c = false →
  (∃ logs,
     Forall (λ e, ∃ level message, e = EvLog level message) logs ∧
     Main.main w c fuel s
     = let out :=
         MinIOAnomalyMonitor.run w (Main.monitor c) fuel
           {| alert_cooldown_dict := ∅; effects := effects s;
              trace := trace s ++ logs |} in
       (match out.1 with
        | Ok st => Ok (Main.Ran st)
        | Raise e => Raise e
        end, out.2)) ∧
  (∀ o, MinIOAnomalyMonitor.openwebui (Main.monitor c) = Some o ↔
     ((∃ a b, Main.openwebui_api_key c = a +:+ "sk-" +:+ b) ∧
      ¬ (∃ a b, Main.openwebui_api_key c = a +:+ "YOUR_" +:+ b) ∧
      Main.openwebui_url c ≠ "") ∧
     o = OpenWebUIInsight.init (Main.openwebui_url c) (Main.openwebui_api_key c)
           (Main.openwebui_model c)).
Proof.
  intros Hweb. split; [by apply main_accepted |].
  intros o. rewrite monitor_openwebui. unfold Main.use_openwebui.
  rewrite <-!contains_spec.
  destruct (PyStr.contains "sk-" _), (PyStr.contains "YOUR_" _),
    (Main.openwebui_url c) as [|u url]; simpl; split;
    try (intros [= <-]; by split_and!);
    try (intros [(? & ? & ?) ?]); try done; by subst.
Qed.

Lemma accepted_configuration_runs_monitor_witness :
  (∃ logs,
     Forall (λ e, ∃ level message, e = EvLog level message) logs ∧
     Main.main discord_down_world Main.shipped 1 MinIOAnomalyMonitor.init_state
     = let out :=
         MinIOAnomalyMonitor.run discord_down_world (Main.monitor Main.shipped) 1
           {| alert_cooldown_dict := ∅;
              effects := effects MinIOAnomalyMonitor.init_state;
              trace := trace MinIOAnomalyMonitor.init_state ++ logs |} in
       (match out.1 with
        | Ok st => Ok (Main.Ran st)
        | Raise e => Raise e
        end, out.2)) ∧
  (∀ o, MinIOAnomalyMonitor.openwebui (Main.monitor Main.shipped) = Some o ↔
     ((∃ a b, Main.openwebui_api_key Main.shipped = a +:+ "sk-" +:+ b) ∧
      ¬ (∃ a b, Main.openwebui_api_key Main.shipped = a +:+ "YOUR_" +:+ b) ∧
      Main.openwebui_url Main.shipped ≠ "") ∧
     o = OpenWebUIInsight.init (Main.openwebui_url Main.shipped)
           (Main.openwebui_api_key Main.shipped) (Main.openwebui_model Main.shipped)).
Proof.
  apply (accepted_configuration_runs_monitor discord_down_world Main.shipped 1
           MinIOAnomalyMonitor.init_state).
  reflexivity.
Defined.

(** ** The queries of a cycle *)

Lemma queries_app (tr1 tr2 : list event) :
  queries (tr1 ++ tr2) = queries tr1 ++ queries tr2.
Proof. apply omap_app. Qed.

Section asking.

Context (w : world).

Lemma asks_nothing_ret {A} (a : A) : asks_nothing (ret a).
Proof. by intros s. Qed.

Lemma asks_nothing_raise {A} (e : exception) : asks_nothing (@raise A e).
Proof. by intros s. Qed.

Lemma asks_nothing_lift {A} (r : checked A) : asks_nothing (lift r).
Proof. by intros s. Qed.

Lemma asks_nothing_gets {A} (f : mstate → A) : asks_nothing (gets f).
Proof. by intros s. Qed.

Lemma asks_nothing_emit (e : event) : query_of e = None → asks_nothing (emit e).
Proof.
  intros He s. simpl. rewrite queries_app. unfold queries at 2. simpl.
  rewrite He. apply app_nil_r.
Qed.

Lemma asks_nothing_set_alert_time (key : string) (now : R) :
  asks_nothing (set_alert_time key now).
Proof. intros s. simpl. rewrite queries_app. apply app_nil_r. Qed.

Lemma asks_nothing_bind {A B} (m : M A) (f : A → M B) :
  asks_nothing m → (∀ a, asks_nothing (f a)) → asks_nothing (m ≫= f).
Proof.
  intros Hm Hf s. rewrite bind_run. specialize (Hm s).
  destruct (m s) as [[a|e] s']; simpl in *; [| done].
  by rewrite Hf.
Qed.

Lemma asks_nothing_try_except {A} (body : M A) (handler : exception → M A) :
  asks_nothing body → (∀ e, asks_nothing (handler e)) →
  asks_nothing (try_except body handler).
Proof.
  intros Hb Hh s. unfold try_except. specialize (Hb s).
  destruct (body s) as [[a|[|e]] s']; simpl in *; [done | done |].
  by rewrite Hh.
Qed.

Lemma asks_nothing_effect {A} (events : nat → list event) (answer : nat → A) :
  (∀ n, queries (events n) = []) → asks_nothing (effect w events answer).
Proof.
  intros He s. unfold effect.
  destruct (interrupt w (effects s)); simpl;
    rewrite queries_app, He; apply app_nil_r.
Qed.

Lemma asks_nothing_time_sleep (seconds : R) : asks_nothing (time_sleep w seconds).
Proof.
  unfold time_sleep. repeat case_bool_decide; try apply asks_nothing_raise.
  apply asks_nothing_effect. by intros n.
Qed.

Lemma asks_nothing_if {A} (b : bool) (m1 m2 : M A) :
  asks_nothing m1 → asks_nothing m2 → asks_nothing (if b then m1 else m2).
Proof. by destruct b. Qed.

Ltac solve_asks_nothing :=
  repeat first
    [ apply asks_nothing_bind; [| intros ?]
    | apply asks_nothing_try_except; [| intros ?]
    | apply asks_nothing_if
    | apply asks_nothing_effect; intros ?; reflexivity
    | apply asks_nothing_emit; reflexivity
    | apply asks_nothing_set_alert_time
    | apply asks_nothing_ret | apply asks_nothing_raise
    | apply asks_nothing_lift | apply asks_nothing_gets
    | match goal with
      | |- asks_nothing (match ?x with _ => _ end) => destruct x
      end ].

Lemma asks_nothing_insight_for (self : MinIOAnomalyMonitor.t) (metric : string)
    (current expected change : R) :
  asks_nothing (MinIOAnomalyMonitor.insight_for w self metric current expected change).
Proof.
  unfold MinIOAnomalyMonitor.insight_for, OpenWebUIInsight.generate_context,
    requests_call, response_json.
  solve_asks_nothing.
Qed.

Lemma asks_nothing_alert_path (self : MinIOAnomalyMonitor.t) (triggered : bool)
    (key : string) (build : R → AnomalyAlert) (insight : M string) :
  asks_nothing insight →
  asks_nothing (alert_path w self triggered key build insight).
Proof.
  intros Hins.
  unfold alert_path, py_if, py_and, MinIOAnomalyMonitor._can_alert,
    MinIOAnomalyMonitor._record_alert, DiscordNotifier.send_alert,
    time_time, datetime_now, requests_call, raise_for_status.
  solve_asks_nothing; try exact Hins.
Qed.

Lemma asks_nothing_for_each {A} (items : list A) (body : A → M unit) :
  (∀ x, asks_nothing (body x)) → asks_nothing (for_each items body).
Proof.
  intros Hb. induction items as [|x rest IH]; simpl.
  - apply asks_nothing_ret.
  - apply asks_nothing_bind; [apply Hb | by intros _].
Qed.

(** Queries that are sent whether the computation returns or raises. *)

Lemma asks_always_effect {A} (events : nat → list event) (answer : nat → A)
    (qs : list (string * nat)) :
  (∀ n, queries (events n) = qs) → asks_always (effect w events answer) qs.
Proof.
  intros He s _. unfold effect.
  destruct (interrupt w (effects s)); simpl; by rewrite queries_app, He.
Qed.

Lemma asks_always_then {A B} (m : M A) (f : A → M B) (qs : list (string * nat)) :
  asks_always m qs → (∀ a, asks_nothing (f a)) → asks_always (m ≫= f) qs.
Proof.
  intros Hm Hf s. rewrite bind_run. specialize (Hm s).
  destruct (m s) as [[a|e] s']; simpl in *.
  - intros _. rewrite Hf. by apply Hm.
  - intros Hne. apply Hm. congruence.
Qed.

Lemma asks_always_after {A B} (m : M A) (f : A → M B) (qs : list (string * nat)) :
  asks_nothing m → raises_no_exception m → (∀ a, asks_always (f a) qs) →
  asks_always (m ≫= f) qs.
Proof.
  intros Hm Hx Hf s. rewrite bind_run. specialize (Hm s). specialize (Hx s).
  destruct (m s) as [[a|[|e]] s']; simpl in *.
  - intros Hne. rewrite <-Hm. by apply Hf.
  - done.
  - by destruct (Hx e).
Qed.

Lemma asks_always_try_except {A} (body : M A) (handler : exception → M A)
    (qs : list (string * nat)) :
  asks_always body qs → (∀ e, asks_nothing (handler e)) →
  asks_always (try_except body handler) qs.
Proof.
  intros Hb Hh s. unfold try_except. specialize (Hb s).
  destruct (body s) as [[a|[|e]] s']; simpl in *; [done | done |].
  intros _. rewrite Hh. by apply Hb.
Qed.

Lemma effect_raises_no_exception {A} (events : nat → list event) (answer : nat → A) :
  raises_no_exception (effect w events answer).
Proof. intros s e. unfold effect. by destruct (interrupt w (effects s)). Qed.

Lemma asks_always_query_range (query : string) (hours : nat) :
  asks_always (PrometheusConnector.query_range w query hours) [(query, hours)].
Proof.
  unfold PrometheusConnector.query_range, datetime_now, requests_call,
    raise_for_status, response_json.
  apply asks_always_try_except; [| intros ?; solve_asks_nothing].
  apply asks_always_after;
    [apply asks_nothing_effect; by intros ? | apply effect_raises_no_exception |
     intros _].
  apply asks_always_then; [| intros r; solve_asks_nothing].
  apply asks_always_then; [| intros o; solve_asks_nothing].
  apply asks_always_effect. by intros n.
Qed.

Lemma asks_always_get_metric_values (self : MinIOAnomalyMonitor.t) (query : string) :
  asks_always (MinIOAnomalyMonitor.get_metric_values w self query)
    [(query, MinIOAnomalyMonitor.history_hours self)].
Proof.
  unfold MinIOAnomalyMonitor.get_metric_values.
  apply asks_always_then; [apply asks_always_query_range | intros results].
  solve_asks_nothing.
Qed.

(** Queries of a computation that returns. *)

Lemma asks_always_asks {A} (m : M A) (qs : list (string * nat)) :
  asks_always m qs → asks m qs.
Proof. intros Hm s a s' Hrun. specialize (Hm s). rewrite Hrun in Hm. by apply Hm. Qed.

Lemma asks_nothing_asks {A} (m : M A) : asks_nothing m → asks m [].
Proof.
  intros Hm s a s' Hrun. specialize (Hm s). rewrite Hrun in Hm.
  by rewrite app_nil_r.
Qed.

Lemma asks_bind {A B} (m : M A) (f : A → M B) (qs1 qs2 : list (string * nat)) :
  asks m qs1 → (∀ a, asks (f a) qs2) → asks (m ≫= f) (qs1 ++ qs2).
Proof.
  intros Hm Hf s b s'. rewrite bind_run.
  destruct (m s) as [[a|e] s1] eqn:Hrun; [| done].
  intros Hrest. rewrite (Hf a _ _ _ Hrest), (Hm _ _ _ Hrun). by rewrite app_assoc.
Qed.

Section evaluators.

Context (self : MinIOAnomalyMonitor.t).

Lemma asks_check_storage_space :
  asks (MinIOAnomalyMonitor.check_storage_space w self)
    [("minio_disk_storage_bytes_free", MinIOAnomalyMonitor.history_hours self)].
Proof.
  apply asks_always_asks. unfold MinIOAnomalyMonitor.check_storage_space.
  apply asks_always_then; [apply asks_always_get_metric_values | intros values].
  destruct (py_not values); [apply asks_nothing_ret |].
  apply asks_nothing_bind; [apply asks_nothing_ret | intros [[is_anomaly zscore] range]].
  cbv zeta. apply asks_nothing_alert_path, asks_nothing_insight_for.
Qed.

Lemma asks_check_request_rate :
  asks (MinIOAnomalyMonitor.check_request_rate w self)
    [("rate(minio_gateway_requests_total[5m])", MinIOAnomalyMonitor.history_hours self)].
Proof.
  apply asks_always_asks. unfold MinIOAnomalyMonitor.check_request_rate.
  apply asks_always_then; [apply asks_always_get_metric_values | intros values].
  destruct (py_not values); [apply asks_nothing_ret |].
  apply asks_nothing_bind; [apply asks_nothing_ret | intros [is_roc roc]].
  apply asks_nothing_bind;
    [apply asks_nothing_ret | intros [[is_zscore zscore] expected]].
  cbv zeta. apply asks_nothing_alert_path, asks_nothing_insight_for.
Qed.

Lemma asks_check_error_rate :
  asks (MinIOAnomalyMonitor.check_error_rate w self)
    [(MinIOAnomalyMonitor.error_rate_query,
      MinIOAnomalyMonitor.history_hours self)].
Proof.
  apply asks_always_asks. unfold MinIOAnomalyMonitor.check_error_rate.
  apply asks_always_then; [apply asks_always_get_metric_values | intros values].
  destruct (py_not values); [apply asks_nothing_ret |].
  apply asks_nothing_bind;
    [apply asks_nothing_ret | intros [[is_anomaly zscore] expected]].
  cbv zeta. apply asks_nothing_alert_path, asks_nothing_insight_for.
Qed.

Lemma asks_check_network_traffic :
  asks (MinIOAnomalyMonitor.check_network_traffic w self)
    [("rate(minio_network_send_bytes_total[5m])", MinIOAnomalyMonitor.history_hours self);
     ("rate(minio_network_receive_bytes_total[5m])",
      MinIOAnomalyMonitor.history_hours self)].
Proof.
  unfold MinIOAnomalyMonitor.check_network_traffic.
  apply (asks_bind _ _ [_] [_]);
    [apply asks_always_asks, asks_always_get_metric_values | intros send_values].
  apply (asks_bind _ _ [_] []);
    [apply asks_always_asks, asks_always_get_metric_values | intros recv_values].
  apply asks_nothing_asks.
  destruct (py_not send_values || py_not recv_values); [apply asks_nothing_ret |].
  apply asks_nothing_for_each. intros [name values] s.
  rewrite network_signal_alert_path.
  apply asks_nothing_alert_path, asks_nothing_ret.
Qed.

(** A cycle that completes ends with its sleep. *)
Lemma cycle_ends_asleep (s s' : mstate) :
  MinIOAnomalyMonitor.cycle w self s = (Ok tt, s') →
  ∃ before, trace s' = before ++ [EvSleep (MinIOAnomalyMonitor.check_interval self)].
Proof.
  unfold MinIOAnomalyMonitor.cycle.
  repeat (rewrite bind_run;
          match goal with
          | |- context [match ?m ?st with _ => _ end] =>
              destruct (m st) as [[[]|?] ?]; [| done]
          end).
  unfold time_sleep. repeat case_bool_decide; [done | done |]. unfold effect.
  destruct (interrupt w _); [done |]. intros [= <-]. by eexists.
Qed.

End evaluators.

End asking.



(** ** Two posts for one key *)

Section two_spikes.

Context (clock : nat → R).

Lemma first_spiky_cycle :
  ALERT_COOLDOWN < clock 2%nat - 0 →
  ∃ payload,
    MinIOAnomalyMonitor.cycle (two_spikes_world clock) default_monitor
      {| alert_cooldown_dict := ∅; effects := 0;
         trace := [EvLog INFO "Starting monitoring loop"] |}
    = (Ok tt,
       {| alert_cooldown_dict := {[ "storage_space" := clock 5%nat ]};
          effects := 15;
          trace := EvLog INFO "Starting monitoring loop"
                   :: spiky_cycle_events clock 0%nat payload |}).
Proof.
  intros Hgate. eexists.
  unfold MinIOAnomalyMonitor.cycle. rewrite emit_then, bind_run.
  rewrite (check_storage_space_fires (two_spikes_world clock) default_monitor _
             {| alert_cooldown_dict := ∅; effects := 2;
                trace := [EvLog INFO "Starting monitoring loop";
                          EvLog INFO "Running anomaly checks...";
                          EvQuery "minio_disk_storage_bytes_free" 24] |} spike).
  - rewrite (time_sleep_accepted (two_spikes_world clock) _ default_interval_accepted).
    reflexivity.
  - reflexivity.
  - reflexivity.
  - apply spike_is_flagged.
  - intros i _. reflexivity.
  - exact Hgate.
Qed.

Lemma second_spiky_cycle (payload : embed) :
  ALERT_COOLDOWN < clock 17%nat - clock 5%nat →
  ∃ payload',
    MinIOAnomalyMonitor.cycle (two_spikes_world clock) default_monitor
      {| alert_cooldown_dict := {[ "storage_space" := clock 5%nat ]};
         effects := 15;
         trace := EvLog INFO "Starting monitoring loop"
                  :: spiky_cycle_events clock 0%nat payload |}
    = (Ok tt,
       {| alert_cooldown_dict := {[ "storage_space" := clock 20%nat ]};
          effects := 30;
          trace := EvLog INFO "Starting monitoring loop"
                   :: spiky_cycle_events clock 0%nat payload
                   ++ spiky_cycle_events clock 15%nat payload' |}).
Proof.
  intros Hgate. eexists.
  unfold MinIOAnomalyMonitor.cycle. rewrite emit_then, bind_run.
  rewrite (check_storage_space_fires (two_spikes_world clock) default_monitor _
             {| alert_cooldown_dict := {[ "storage_space" := clock 5%nat ]};
                effects := 17;
                trace := EvLog INFO "Starting monitoring loop"
                         :: spiky_cycle_events clock 0%nat payload
                         ++ [EvLog INFO "Running anomaly checks...";
                             EvQuery "minio_disk_storage_bytes_free" 24] |} spike).
  - rewrite (time_sleep_accepted (two_spikes_world clock) _ default_interval_accepted).
    reflexivity.
  - reflexivity.
  - reflexivity.
  - apply spike_is_flagged.
  - intros i _. reflexivity.
  - cbn [alert_cooldown_dict effects]. rewrite lookup_singleton_eq. exact Hgate.
Qed.

(** Two cycles, each with a spike of the free space: when the gate opens
    both times, the key is posted at the effects 4 and 19 and stamped at
    the effects 5 and 20. *)
Lemma two_spikes_run :
  ALERT_COOLDOWN < clock 2%nat - 0 →
  ALERT_COOLDOWN < clock 17%nat - clock 5%nat →
  ∃ payload payload',
    MinIOAnomalyMonitor.run (two_spikes_world clock) default_monitor 2
      MinIOAnomalyMonitor.init_state
    = (Ok MinIOAnomalyMonitor.StillLooping,
       {| alert_cooldown_dict := {[ "storage_space" := clock 20%nat ]};
          effects := 30;
          trace := EvLog INFO "Starting monitoring loop"
                   :: spiky_cycle_events clock 0%nat payload
                   ++ spiky_cycle_events clock 15%nat payload' |}).
Proof.
  intros Hgate1 Hgate2.
  destruct (first_spiky_cycle Hgate1) as [payload Hfirst].
  destruct (second_spiky_cycle payload Hgate2) as [payload' Hsecond].
  exists payload, payload'. rewrite run_run.
  change (add_events _ MinIOAnomalyMonitor.init_state)
    with {| alert_cooldown_dict := ∅; effects := 0;
            trace := [EvLog INFO "Starting monitoring loop"] |}.
  simpl MinIOAnomalyMonitor.while_true.
  by rewrite bind_run, Hfirst, bind_run, Hsecond.
Qed.

End two_spikes.

Lemma brisk_clock_monotone : clock_monotone (two_spikes_world brisk_clock).
Proof.
  intros n. change (brisk_clock n <= brisk_clock (S n)).
  unfold brisk_clock. rewrite S_INR. lra.
Qed.

Lemma two_posts_in (clock : nat → R) (payload payload' : embed) :
  let tr := EvLog INFO "Starting monitoring loop"
            :: spiky_cycle_events clock 0%nat payload
            ++ spiky_cycle_events clock 15%nat payload' in
  tr !! 3%nat = Some (EvSend "storage_space" payload (clock 4%nat)) ∧
  tr !! 17%nat = Some (EvSend "storage_space" payload' (clock 19%nat)).
Proof. split; reflexivity. Qed.


